(** * ai-quiz-generator: quiz cache, content selection and generation core

    A shallow embedding of the quiz caching and generation subsystem:

    - [src/lib/quizCache.js]            (module [QuizCache])
    - [src/lib/gemini.js]               (module [Gemini])
    - [src/pages/api/quiz/generate.js]  (module [Generate])
    - [src/models/Quiz.js], [src/models/Book.js] (modules [Quiz], [Book], [Page])

    JavaScript strings are sequences of code units; they are modelled by
    [string], one [ascii] standing for one code unit.  Integral JavaScript
    numbers (page numbers, counts, time stamps) are modelled by [Z]; a value
    that may be [undefined] is an [option].  The one place where the code
    computes with fractions, the cache hit rate, uses binary64 floats.
    [console.log] calls have no effect on any result and are left out. *)

From Stdlib Require Import ZArith List String Ascii Bool Arith Lia.
From Stdlib Require Import Permutation Sorted.
From Stdlib Require Import DecimalString DecimalZ.
From Stdlib Require Import Uint63 PrimFloat FloatOps SpecFloat.
Import ListNotations.

Local Open Scope string_scope.
Local Open Scope Z_scope.

(* ===================================================================== *)
(** * Part I: the embedding                                               *)
(* ===================================================================== *)

(** ** Built-ins of the language used by the modelled code *)

Module Js.

(** A thrown value or a returned one. *)
Inductive result (A : Type) : Type :=
| Ok (a : A)
| Throw (message : string).
Arguments Ok {A} a.
Arguments Throw {A} message.

Definition bind {A B} (r : result A) (k : A -> result B) : result B :=
  match r with
  | Ok a => k a
  | Throw m => Throw m
  end.

(** [x || d] on a number that may be [undefined]: [undefined] and [0] are falsy. *)
Definition truthy (x : option Z) : bool :=
  match x with
  | Some z => negb (z =? 0)
  | None => false
  end.

Definition or_default (x : option Z) (d : Z) : Z :=
  match x with
  | Some z => if z =? 0 then d else z
  | None => d
  end.

(** [a < b] and [a > b] when either side may be [undefined] (which compares as NaN). *)
Definition lt (a b : option Z) : bool :=
  match a, b with
  | Some x, Some y => x <? y
  | _, _ => false
  end.

Definition gt (a b : option Z) : bool := lt b a.

(** [a >= b], likewise. *)
Definition ge (a b : option Z) : bool :=
  match a, b with
  | Some x, Some y => y <=? x
  | _, _ => false
  end.

(** Number to string, as in a template literal (integers below [10^21]
    print as their decimal digits). *)
Definition string_of_Z (z : Z) : string := NilEmpty.string_of_int (Z.to_int z).

Definition template (x : option Z) : string :=
  match x with
  | Some z => string_of_Z z
  | None => "undefined"
  end.

(** White space of [String.prototype.trim] and of the regex class [\s],
    among the code units below 256. *)
Definition is_whitespace (c : ascii) : bool :=
  let n := nat_of_ascii c in
  (((9 <=? n) && (n <=? 13)) || (n =? 32) || (n =? 160))%nat.

Fixpoint all_whitespace (s : string) : bool :=
  match s with
  | EmptyString => true
  | String c s' => is_whitespace c && all_whitespace s'
  end.

Fixpoint trimStart (s : string) : string :=
  match s with
  | EmptyString => EmptyString
  | String c s' => if is_whitespace c then trimStart s' else s
  end.

Fixpoint trimEnd (s : string) : string :=
  match s with
  | EmptyString => EmptyString
  | String c s' => if all_whitespace s then EmptyString else String c (trimEnd s')
  end.

Definition trim (s : string) : string := trimEnd (trimStart s).

(** [s.startsWith(p)] *)
Definition startsWith (p s : string) : bool := String.prefix p s.

(** [s.includes(sub)] *)
Fixpoint includes (sub s : string) : bool :=
  if String.prefix sub s then true
  else match s with
       | EmptyString => false
       | String _ s' => includes sub s'
       end.

(** [s] without its first [n] characters. *)
Fixpoint drop (n : nat) (s : string) : string :=
  match n, s with
  | O, _ => s
  | S n', String _ s' => drop n' s'
  | S _, EmptyString => EmptyString
  end.

(** [s.replace(/^p\s*/, '')] for a literal [p]: the prefix [p] and the
    white space after it are removed, when [s] starts with [p]. *)
Definition strip_prefix_ws (p s : string) : string :=
  if String.prefix p s then trimStart (drop (String.length p) s) else s.

(** [s.replace(/p\s*$/, '')] for a literal [p]: the leftmost occurrence of
    [p] followed only by white space is removed with what follows. *)
Fixpoint strip_suffix_ws (p s : string) : string :=
  if String.prefix p s && all_whitespace (drop (String.length p) s) then EmptyString
  else match s with
       | EmptyString => EmptyString
       | String c s' => String c (strip_suffix_ws p s')
       end.

(** [s.toUpperCase()] on the letters a-z; the code applies it to a
    difficulty already checked to be one of three lower-case words. *)
Definition upper_char (c : ascii) : ascii :=
  let n := nat_of_ascii c in
  if ((97 <=? n) && (n <=? 122))%nat then ascii_of_nat (n - 32) else c.

Fixpoint toUpperCase (s : string) : string :=
  match s with
  | EmptyString => EmptyString
  | String c s' => String (upper_char c) (toUpperCase s')
  end.

(** [s.substring(a, b)]: both indices are clamped to [0, length] and
    swapped when out of order. *)
Definition substring (s : string) (a b : Z) : string :=
  let len := Z.of_nat (String.length s) in
  let a' := Z.max 0 (Z.min a len) in
  let b' := Z.max 0 (Z.min b len) in
  let lo := Z.min a' b' in
  let hi := Z.max a' b' in
  String.substring (Z.to_nat lo) (Z.to_nat (hi - lo)) s.

(** [s.lastIndexOf(c)] for a one-character search string: the largest
    index holding [c], or [-1]. *)
Fixpoint lastIndexOf_from (c : ascii) (s : string) (i acc : Z) : Z :=
  match s with
  | EmptyString => acc
  | String a s' => lastIndexOf_from c s' (i + 1) (if Ascii.eqb a c then i else acc)
  end.

Definition lastIndexOf (c : ascii) (s : string) : Z := lastIndexOf_from c s 0 (-1).

(** [arr.join(sep)] on an array of strings. *)
Definition join (sep : string) (l : list string) : string := String.concat sep l.

(** [arr.sort(cmp)]: the sort is stable; [cmp a b <= 0] keeps [a] before [b]. *)
Fixpoint sort_insert {A} (cmp : A -> A -> Z) (x : A) (l : list A) : list A :=
  match l with
  | [] => [x]
  | y :: l' => if cmp x y <=? 0 then x :: y :: l' else y :: sort_insert cmp x l'
  end.

Definition sort {A} (cmp : A -> A -> Z) (l : list A) : list A :=
  fold_right (sort_insert cmp) [] l.

(** The values the legacy page estimate can take: an integer, an infinity
    (division by zero) or NaN (an [undefined] operand, or [0 * Infinity]). *)
Inductive xnum : Type :=
| XInt (z : Z)
| XInf (negative : bool)
| XNaN.

(** [Math.ceil(a / b)] for integers [a], [b]. *)
Definition ceil_div (a : Z) (b : option Z) : xnum :=
  match b with
  | None => XNaN
  | Some 0 => if a =? 0 then XNaN else XInf (a <? 0)
  | Some b => XInt (- ((- a) / b))
  end.

(** [k * x] for an integer [k]. *)
Definition xmul (k : Z) (x : xnum) : xnum :=
  match x with
  | XInt z => XInt (k * z)
  | XInf neg => if k =? 0 then XNaN else XInf (xorb neg (k <? 0))
  | XNaN => XNaN
  end.

(** The integer [substring] makes of an index: NaN is 0, an infinity is
    clamped like any other out-of-range index. *)
Definition to_index (len : Z) (x : xnum) : Z :=
  match x with
  | XInt z => z
  | XInf true => 0
  | XInf false => len
  | XNaN => 0
  end.

Definition xsubstring (s : string) (a b : xnum) : string :=
  let len := Z.of_nat (String.length s) in
  substring s (to_index len a) (to_index len b).

End Js.

Import Js.

(** ** Binary64 numbers, for the one fractional computation of the code *)

Module JsFloat.

(** An integer as a number.  Exact for magnitudes below [2^53]; counts of
    stored quizzes and of their uses are far below. *)
Definition of_Z (z : Z) : float :=
  if z <? 0 then PrimFloat.opp (PrimFloat.of_uint63 (Uint63.of_Z (- z)))
  else PrimFloat.of_uint63 (Uint63.of_Z z).

(** The integer nearest to [10 * m * 2^e], the larger one on a tie. *)
Definition nearest_tenths (m : positive) (e : Z) : Z :=
  if 0 <=? e then 10 * Z.pos m * 2 ^ e
  else (20 * Z.pos m + 2 ^ (- e)) / (2 * 2 ^ (- e)).

(** [parseFloat(x.toFixed(1))]: [toFixed(1)] picks the integer [n] with
    [n / 10] nearest to [|x|] (the larger on a tie) and prints [n / 10]
    with the sign of [x]; [parseFloat] reads it back as the nearest number.
    Numbers of magnitude [2^52] or more are integers and come back
    unchanged. *)
Definition toFixed1 (x : float) : float :=
  match Prim2SF x with
  | S754_zero _ => PrimFloat.zero
  | S754_infinity _ => x
  | S754_nan => PrimFloat.nan
  | S754_finite negative m e =>
      if PrimFloat.leb 4503599627370496%float (PrimFloat.abs x) then x
      else
        let r := PrimFloat.div (of_Z (nearest_tenths m e)) 10%float in
        if negative then PrimFloat.opp r else r
  end.

End JsFloat.

(** ** [src/models/Book.js], [src/models/Quiz.js] and parsed JSON *)

#[local] Set Warnings "-register-all".

(** A value produced by [JSON.parse]. *)
Inductive json : Type :=
| JNull
| JBool (b : bool)
| JNumber (x : float)
| JString (s : string)
| JArray (items : list json)
| JObject (fields : list (string * json)).

Record PageRange : Type := { start : option Z; end_ : option Z }.

Module Page.
Record t : Type := { pageNumber : Z; text : string; characterCount : Z }.
End Page.

Module Book.
(** [totalPages] is not a required path of the schema; [pdfText] is the
    legacy full text. *)
Record t : Type := {
  _id : string;
  title : string;
  totalPages : option Z;
  pages : list Page.t;
  pdfText : option string
}.

(** The virtual [totalCharacterCount], lines 102-107. *)
Definition totalCharacterCount (this : t) : Z :=
  if (List.length (pages this) =? 0)%nat then 0
  else
    List.fold_left
      (fun total page => total + or_default (Some (Page.characterCount page)) 0)
      (pages this) 0.
End Book.

Module Quiz.
Record t : Type := {
  _id : string;
  bookId : string;
  title : string;
  generatedDate : Z;
  pageRange : PageRange;
  questions : list json;
  difficulty : string;
  numberOfQuestions : Z;
  cacheKey : string;
  usageCount : Z;
  lastUsedAt : Z;
  generatedBy : string
}.

(** The collection of quiz documents. *)
Definition collection : Type := list t.

(** What the store layer can answer besides doing its work: each field,
    when set, is the message of the error raised by that operation.
    [insert_fault] also stands for a document the schema validators
    reject. *)
Record faults : Type := {
  findOne_fault : option string;
  find_fault : option string;
  update_fault : option string;
  insert_fault : t -> option string
}.

Definition no_faults : faults :=
  {| findOne_fault := None; find_fault := None; update_fault := None;
     insert_fault := fun _ => None |}.

(** [Quiz.findOne({ cacheKey })] *)
Definition findOne (f : faults) (store : collection) (key : string)
  : result (option t) :=
  match findOne_fault f with
  | Some m => Throw m
  | None => Ok (List.find (fun q => String.eqb (cacheKey q) key) store)
  end.

(** [Quiz.find({ bookId })] *)
Definition find (f : faults) (store : collection) (book : string)
  : result (list t) :=
  match find_fault f with
  | Some m => Throw m
  | None => Ok (List.filter (fun q => String.eqb (bookId q) book) store)
  end.

(** [doc.save()] on a document read from the collection: the stored
    document with that [_id] is replaced. *)
Definition save_existing (f : faults) (store : collection) (doc : t)
  : result collection :=
  match update_fault f with
  | Some m => Throw m
  | None => Ok (List.map (fun q => if String.eqb (_id q) (_id doc) then doc else q) store)
  end.

(** [doc.save()] on a new document.  The index [{ cacheKey: 1 }, { unique:
    true }] refuses a second document with the same key. *)
Definition save_new (f : faults) (store : collection) (doc : t)
  : result collection :=
  match insert_fault f doc with
  | Some m => Throw m
  | None =>
      if List.existsb (fun q => String.eqb (cacheKey q) (cacheKey doc)) store
      then Throw "E11000 duplicate key error"
      else Ok (store ++ [doc])%list
  end.

(** [QuizSchema.methods.incrementUsage], lines 126-131. *)
Definition incrementUsage (f : faults) (now : Z) (store : collection) (this : t)
  : result (t * collection) :=
  let this :=
    {| _id := _id this; bookId := bookId this; title := title this;
       generatedDate := generatedDate this; pageRange := pageRange this;
       questions := questions this; difficulty := difficulty this;
       numberOfQuestions := numberOfQuestions this; cacheKey := cacheKey this;
       usageCount := usageCount this + 1;
       lastUsedAt := now;
       generatedBy := generatedBy this |} in
  bind (save_existing f store this) (fun store' => Ok (this, store')).

(** The virtual [isValidPageRange], lines 134-136. *)
Definition isValidPageRange (this : t) : bool :=
  Js.ge (end_ (pageRange this)) (start (pageRange this)).

End Quiz.

(** ** [src/lib/quizCache.js] *)

Module QuizCache.

(** [generateCacheKey], lines 17-22. *)
Definition generateCacheKey (bookId : string) (pageRange : option PageRange)
    (numberOfQuestions : Z) (difficulty : string) : string :=
  let start := or_default (match pageRange with Some r => start r | None => None end) 1 in
  let end_ := or_default (match pageRange with Some r => end_ r | None => None end) 1 in
  bookId ++ "-" ++ string_of_Z start ++ "-" ++ string_of_Z end_ ++ "-"
    ++ string_of_Z numberOfQuestions ++ "-" ++ difficulty.

(** [findCachedQuiz], lines 33-58: the quiz found (or [null]) and the
    collection afterwards.  Any error of the store is caught and answered
    with [null]. *)
Definition findCachedQuiz (f : Quiz.faults) (now : Z) (store : Quiz.collection)
    (bookId : string) (pageRange : option PageRange)
    (numberOfQuestions : Z) (difficulty : string)
  : option Quiz.t * Quiz.collection :=
  let cacheKey := generateCacheKey bookId pageRange numberOfQuestions difficulty in
  match Quiz.findOne f store cacheKey with
  | Throw _ => (None, store)
  | Ok None => (None, store)
  | Ok (Some cachedQuiz) =>
      match Quiz.incrementUsage f now store cachedQuiz with
      | Throw _ => (None, store)
      | Ok (cachedQuiz, store') => (Some cachedQuiz, store')
      end
  end.

(** The argument of [saveQuizToCache]. *)
Record QuizData : Type := {
  bookId : string;
  title : string;
  generatedDate : Z;
  pageRange : PageRange;
  questions : list json;
  difficulty : string;
  numberOfQuestions : Z
}.

(** [saveQuizToCache], lines 65-93; [newId] is the identifier the store
    gives the new document.  The document holds [questions] as they were
    passed: Mongoose casts each of them to a subdocument of the schema (an
    [_id] of its own, fields outside the schema dropped, options as
    strings), which this embedding does not model. *)
Definition saveQuizToCache (f : Quiz.faults) (now : Z) (newId : string)
    (store : Quiz.collection) (quizData : QuizData)
  : result (Quiz.t * Quiz.collection) :=
  let cacheKey :=
    generateCacheKey (bookId quizData) (Some (pageRange quizData))
      (numberOfQuestions quizData) (difficulty quizData) in
  let quiz :=
    {| Quiz._id := newId;
       Quiz.bookId := bookId quizData;
       Quiz.title := title quizData;
       Quiz.generatedDate := generatedDate quizData;
       Quiz.pageRange := pageRange quizData;
       Quiz.questions := questions quizData;
       Quiz.difficulty := difficulty quizData;
       Quiz.numberOfQuestions := numberOfQuestions quizData;
       Quiz.cacheKey := cacheKey;
       Quiz.usageCount := 1;
       Quiz.lastUsedAt := now;
       Quiz.generatedBy := "gemini" |} in
  bind (Quiz.save_new f store quiz) (fun store' => Ok (quiz, store')).

Record TopConfiguration : Type := {
  tc_pageRange : string;
  tc_difficulty : string;
  tc_questions : Z;
  tc_usageCount : Z;
  tc_lastUsed : Z
}.

Record CacheStats : Type := {
  totalQuizzes : Z;
  uniqueConfigurations : Z;
  cacheHitRate : float;
  tokensSaved : Z;
  topConfigurations : list TopConfiguration
}.

(** [new Set(keys).size] *)
Definition distinct_count (keys : list string) : Z :=
  Z.of_nat (List.length (List.nodup string_dec keys)).

(** [quizzes.reduce((sum, q) => sum + q.usageCount, 0)] *)
Definition totalUsage (quizzes : list Quiz.t) : Z :=
  List.fold_left (fun sum q => sum + Quiz.usageCount q) quizzes 0.

(** [getCacheStats], lines 100-159. *)
Definition getCacheStats (f : Quiz.faults) (store : Quiz.collection) (bookId : string)
  : result CacheStats :=
  bind (Quiz.find f store bookId) (fun quizzes =>
    if (List.length quizzes =? 0)%nat then
      Ok {| totalQuizzes := 0; uniqueConfigurations := 0;
            cacheHitRate := PrimFloat.zero; tokensSaved := 0;
            topConfigurations := [] |}
    else
      let totalQuizzes := Z.of_nat (List.length quizzes) in
      let uniqueConfigurations := distinct_count (List.map Quiz.cacheKey quizzes) in
      let totalUsage := totalUsage quizzes in
      let cacheHits := totalUsage - uniqueConfigurations in
      let cacheHitRate :=
        if totalUsage >? 0
        then PrimFloat.mul (PrimFloat.div (JsFloat.of_Z cacheHits) (JsFloat.of_Z totalUsage))
                           100%float
        else PrimFloat.zero in
      let tokensPerQuiz := 1500 in
      let tokensSaved := cacheHits * tokensPerQuiz in
      let topConfigurations :=
        List.map
          (fun q =>
             {| tc_pageRange :=
                  template (start (Quiz.pageRange q)) ++ "-"
                    ++ template (end_ (Quiz.pageRange q));
                tc_difficulty := Quiz.difficulty q;
                tc_questions := Quiz.numberOfQuestions q;
                tc_usageCount := Quiz.usageCount q;
                tc_lastUsed := Quiz.lastUsedAt q |})
          (List.firstn 5
             (Js.sort (fun a b => Quiz.usageCount b - Quiz.usageCount a) quizzes)) in
      Ok {| totalQuizzes := totalQuizzes;
            uniqueConfigurations := uniqueConfigurations;
            cacheHitRate := JsFloat.toFixed1 cacheHitRate;
            tokensSaved := tokensSaved;
            topConfigurations := topConfigurations |}).

(** [calculateTokensSaved], lines 166-174. *)
Definition calculateTokensSaved (usageCount : Z) : Z :=
  let tokensPerQuiz := 1500 in
  let cacheHits := Z.max 0 (usageCount - 1) in
  cacheHits * tokensPerQuiz.

End QuizCache.

(** ** What a request does to the outside world, in order

    [EvCacheLookup key] is a [findCachedQuiz] call that looks under [key],
    [EvGenerate model attempt] a [generateContent] call, [EvWait ms] a
    back-off pause, and [EvSave key] a [saveQuizToCache] call that records
    a new quiz under [key] (whether or not the store accepts it). *)

Inductive event : Type :=
| EvConnect
| EvFindBook (bookId : string)
| EvCacheLookup (cacheKey : string)
| EvGenerate (modelName : string) (attempt : nat)
| EvWait (milliseconds : Z)
| EvSave (cacheKey : string).

(** ** [src/lib/gemini.js] *)

Module Gemini.

Definition MODEL_FALLBACK_CHAIN : list string :=
  ["gemini-2.0-flash"; "gemini-2.5-pro"; "gemini-2.5-flash"].

(** The generative AI service and [JSON.parse].  [getGenerativeModel]
    answers with the message of the error it throws, if any;
    [generateContent k model prompt] is the text of the response to the
    [k]-th generation call of the request (counted from 0), or the error
    raised while obtaining it. *)
Record client : Type := {
  getGenerativeModel : string -> option string;
  generateContent : nat -> string -> string -> result string;
  JSON_parse : string -> result json
}.

Definition quoted (s : string) : string :=
  String (ascii_of_nat 34) s ++ String (ascii_of_nat 34) "".

(** [createQuizPrompt], lines 64-97. *)
Definition createQuizPrompt (content : string) (numberOfQuestions : Z)
    (difficulty : string) : string :=
  "You are an expert quiz creator. Generate " ++ string_of_Z numberOfQuestions
  ++ " multiple-choice questions based on the following text content.

DIFFICULTY LEVEL: " ++ toUpperCase difficulty ++ "

CONTENT:
" ++ content ++ "

INSTRUCTIONS:
1. Generate exactly " ++ string_of_Z numberOfQuestions
  ++ " questions that test comprehension and key concepts
2. Each question must have exactly 4 options labeled A, B, C, D
3. Only one option should be correct
4. Include a brief explanation for why the correct answer is right
5. Questions should be " ++ difficulty ++ " difficulty:
   - Easy: Basic recall and understanding
   - Medium: Application and analysis
   - Hard: Synthesis and evaluation
6. Ensure questions are clear, unambiguous, and directly related to the content
7. Avoid trick questions or overly obscure details

REQUIRED JSON FORMAT (respond with ONLY valid JSON, no additional text):
{
  " ++ quoted "questions" ++ ": [
    {
      " ++ quoted "question" ++ ": " ++ quoted "Your question here?" ++ ",
      " ++ quoted "options" ++ ": [" ++ quoted "A) First option" ++ ", "
  ++ quoted "B) Second option" ++ ", " ++ quoted "C) Third option" ++ ", "
  ++ quoted "D) Fourth option" ++ "],
      " ++ quoted "correctAnswer" ++ ": " ++ quoted "A" ++ ",
      " ++ quoted "explanation" ++ ": " ++ quoted "Brief explanation of why this is correct" ++ "
    }
  ]
}

Generate the quiz now in the exact JSON format specified above.".

(** [v.name] for one of the property names the code reads ([questions],
    [question], [options], [correctAnswer], [explanation]): reading a
    property of [null] throws, and only objects have these properties. *)
Fixpoint lookup (name : string) (fields : list (string * json)) : option json :=
  match fields with
  | [] => None
  | (k, v) :: rest => if String.eqb k name then Some v else lookup name rest
  end.

Definition get_prop (v : json) (name : string) : result (option json) :=
  match v with
  | JNull => Throw ("Cannot read properties of null (reading '" ++ name ++ "')")
  | JObject fields => Ok (lookup name fields)
  | _ => Ok None
  end.

(** Truthiness of a property value; [None] is [undefined]. *)
Definition truthy_json (v : option json) : bool :=
  match v with
  | None => false
  | Some JNull => false
  | Some (JBool b) => b
  | Some (JNumber x) =>
      match Prim2SF x with
      | S754_zero _ => false
      | S754_nan => false
      | _ => true
      end
  | Some (JString s) => negb (String.eqb s "")
  | Some (JArray _) => true
  | Some (JObject _) => true
  end.

(** [typeof v === 'string'] *)
Definition is_string (v : option json) : bool :=
  match v with
  | Some (JString _) => true
  | _ => false
  end.

(** [Array.isArray(v)] *)
Definition isArray (v : option json) : bool :=
  match v with
  | Some (JArray _) => true
  | _ => false
  end.

(** [v.length] of an array. *)
Definition array_length (v : option json) : Z :=
  match v with
  | Some (JArray items) => Z.of_nat (List.length items)
  | _ => 0
  end.

(** The body of the [forEach] callback of [parseQuizResponse], lines 186-199. *)
Definition validateQuestion (q : json) (index : nat) : result unit :=
  let number := string_of_Z (Z.of_nat index + 1) in
  bind (get_prop q "question") (fun question =>
  if negb (truthy_json question) || negb (is_string question) then
    Throw ("Question " ++ number ++ ": missing or invalid question")
  else
  bind (get_prop q "options") (fun options =>
  if negb (isArray options) || negb (array_length options =? 4) then
    Throw ("Question " ++ number ++ ": must have exactly 4 options")
  else
  bind (get_prop q "correctAnswer") (fun correctAnswer =>
  if negb (truthy_json correctAnswer) || negb (is_string correctAnswer) then
    Throw ("Question " ++ number ++ ": missing or invalid correctAnswer")
  else
  bind (get_prop q "explanation") (fun explanation =>
  if negb (truthy_json explanation) || negb (is_string explanation) then
    Throw ("Question " ++ number ++ ": missing or invalid explanation")
  else Ok tt)))).

(** [questions.forEach(validate)] from index [index] on: the first throw
    ends the loop. *)
Fixpoint forEach_validate (questions : list json) (index : nat) : result unit :=
  match questions with
  | [] => Ok tt
  | q :: rest =>
      bind (validateQuestion q index) (fun _ => forEach_validate rest (S index))
  end.

(** [parseQuizResponse], lines 164-208. *)
Definition parseQuizResponse (parse : string -> result json) (text : string)
  : result (list json) :=
  let attempt :=
    let cleanedText := trim text in
    let cleanedText :=
      if startsWith "```json" cleanedText then
        strip_suffix_ws "```" (strip_prefix_ws "```json" cleanedText)
      else if startsWith "```" cleanedText then
        strip_suffix_ws "```" (strip_prefix_ws "```" cleanedText)
      else cleanedText in
    bind (parse cleanedText) (fun data =>
    bind (get_prop data "questions") (fun questions =>
    if negb (truthy_json questions) || negb (isArray questions) then
      Throw "Invalid response structure: missing questions array"
    else
      match questions with
      | Some (JArray items) =>
          bind (forEach_validate items 0) (fun _ => Ok items)
      | _ => Throw "Invalid response structure: missing questions array"
      end)) in
  match attempt with
  | Ok questions => Ok questions
  | Throw message => Throw ("Invalid response format: " ++ message)
  end.

(** The state of [generateWithRetry]: how many generation calls were made,
    the last error caught, and what happened so far. *)
Record state : Type := {
  calls : nat;
  lastError : option string;
  trace : list event
}.

Definition initial : state := {| calls := 0; lastError := None; trace := [] |}.

(** How a loop ends: with the function's [return], or by running out. *)
Inductive outcome : Type :=
| Returned (questions : list json) (st : state)
| Exhausted (st : state).

(** One pass of the body of the inner [try], lines 121-129. *)
Definition attempt_once (c : client) (modelName prompt : string) (call : nat)
  : result (list json) :=
  bind (generateContent c call modelName prompt) (parseQuizResponse (JSON_parse c)).

(** The inner loop, lines 116-141, over the attempt numbers still to run. *)
Fixpoint try_attempts (c : client) (modelName prompt : string) (maxRetries : nat)
    (attempts : list nat) (st : state) : outcome :=
  match attempts with
  | [] => Exhausted st
  | attempt :: rest =>
      let generated := (trace st ++ [EvGenerate modelName attempt])%list in
      match attempt_once c modelName prompt (calls st) with
      | Ok questions =>
          Returned questions
            {| calls := S (calls st); lastError := lastError st; trace := generated |}
      | Throw message =>
          let waited :=
            if (attempt <? maxRetries)%nat
            then (generated ++ [EvWait (Z.of_nat attempt * 1000)])%list
            else generated in
          try_attempts c modelName prompt maxRetries rest
            {| calls := S (calls st); lastError := Some message; trace := waited |}
      end
  end.

(** The outer loop, lines 109-151, over the models still to try. *)
Fixpoint try_models (c : client) (prompt : string) (maxRetries : nat)
    (models : list string) (st : state) : outcome :=
  match models with
  | [] => Exhausted st
  | modelName :: rest =>
      match getGenerativeModel c modelName with
      | Some message =>
          try_models c prompt maxRetries rest
            {| calls := calls st; lastError := Some message; trace := trace st |}
      | None =>
          match try_attempts c modelName prompt maxRetries (List.seq 1 maxRetries) st with
          | Returned questions st' => Returned questions st'
          | Exhausted st' => try_models c prompt maxRetries rest st'
          end
      end
  end.

(** [generateWithRetry], lines 105-157.  With no error caught at all,
    reading [lastError.message] of [null] is itself an error. *)
Definition generateWithRetry (c : client) (prompt : string) (maxRetries : nat)
  : result (list json) * state :=
  match try_models c prompt maxRetries MODEL_FALLBACK_CHAIN initial with
  | Returned questions st => (Ok questions, st)
  | Exhausted st =>
      match lastError st with
      | Some message =>
          (Throw ("Failed to generate quiz with all models. Last error: " ++ message), st)
      | None => (Throw "Cannot read properties of null (reading 'message')", st)
      end
  end.

(** [generateQuiz], lines 25-55. *)
Definition generateQuiz (c : client) (content : string) (numberOfQuestions : Z)
    (difficulty : string) : result (list json) * state :=
  let wrap (message : string) : result (list json) :=
    Throw ("Failed to generate quiz: " ++ message) in
  if String.eqb content "" || (Z.of_nat (String.length (trim content)) =? 0) then
    (wrap "Content is required to generate quiz", initial)
  else if (numberOfQuestions <? 1) || (numberOfQuestions >? 20) then
    (wrap "Number of questions must be between 1 and 20", initial)
  else if negb (List.existsb (String.eqb difficulty) ["easy"; "medium"; "hard"]) then
    (wrap "Difficulty must be easy, medium, or hard", initial)
  else
    let prompt := createQuizPrompt content numberOfQuestions difficulty in
    match generateWithRetry c prompt 3 with
    | (Ok questions, st) => (Ok questions, st)
    | (Throw message, st) => (wrap message, st)
    end.

End Gemini.

(** ** [src/pages/api/quiz/generate.js] *)

Module Generate.

#[local] Set Warnings "-abstract-large-number".
Definition MAX_TOKENS : nat := 15000.
Definition CHARS_PER_TOKEN : nat := 4.
Definition MAX_CHARS : nat := MAX_TOKENS * CHARS_PER_TOKEN.

Record Truncated : Type := { text : string; wasTruncated : bool }.

(** [truncateText(text, maxChars)], lines 348-365.  [maxChars] is a count of
    characters. *)
Definition truncateText (text : string) (maxChars : nat) : Truncated :=
  if (String.length text <=? maxChars)%nat then
    {| text := text; wasTruncated := false |}
  else
    let truncated := substring text 0 (Z.of_nat maxChars) in
    let lastSpace := lastIndexOf " "%char truncated in
    let truncated :=
      if lastSpace >? 0 then substring truncated 0 lastSpace else truncated in
    {| text := truncated; wasTruncated := true |}.

(** [extractTextFromPages(book, startPage, endPage)], lines 308-340. *)
Definition extractTextFromPages (book : Book.t) (startPage endPage : Z)
  : result string :=
  let attempt : result string :=
    if (0 <? List.length (Book.pages book))%nat then
      let selectedPages :=
        List.filter
          (fun page => (Page.pageNumber page >=? startPage)
                       && (Page.pageNumber page <=? endPage))
          (Book.pages book) in
      let selectedPages :=
        Js.sort (fun a b => Page.pageNumber a - Page.pageNumber b) selectedPages in
      Ok (join "

" (List.map Page.text selectedPages))
    else
      match Book.pdfText book with
      | Some pdfText =>
          if String.eqb pdfText "" then Throw "No text content available in book document"
          else
            let totalPages := Book.totalPages book in
            let totalChars := Z.of_nat (String.length pdfText) in
            let charsPerPage := ceil_div totalChars totalPages in
            let startChar := xmul (startPage - 1) charsPerPage in
            let endChar := xmul endPage charsPerPage in
            Ok (xsubstring pdfText startChar endChar)
      | None => Throw "No text content available in book document"
      end in
  match attempt with
  | Ok text => Ok text
  | Throw message => Throw ("Failed to extract text from pages: " ++ message)
  end.

(** The request: its method and the fields of its body, each possibly absent. *)
Record Body : Type := {
  bookId : option string;
  pageRange : option PageRange;
  numberOfQuestions : option Z;
  difficulty : option string
}.

Record Request : Type := { method : string; body : Body }.

(** The [quiz] object of a successful response. *)
Record QuizView : Type := {
  v_id : string;
  v_title : string;
  v_bookId : string;
  v_bookTitle : string;
  v_generatedDate : Z;
  v_pageRange : PageRange;
  v_difficulty : string;
  v_numberOfQuestions : Z;
  v_questions : list json;
  v_wasTruncated : option bool
}.

Inductive payload : Type :=
| Failure (error : string) (details : option string)
| Success (quizId : string) (fromCache : bool) (usageCount : Z) (message : string)
    (quiz : QuizView).

Record Response : Type := { status : nat; sent : payload }.

(** What the handler works with besides the request and the quiz
    collection: the object-id check of the store driver, the connection,
    the book collection, the faults of the quiz collection, the AI client,
    the clock, the identifier of a new document, and [NODE_ENV]. *)
Record Env : Type := {
  isValidObjectId : string -> bool;
  connectDB : option string;
  Book_findById : string -> result (option Book.t);
  quiz_faults : Quiz.faults;
  ai : Gemini.client;
  now : Z;
  newId : string;
  development : bool
}.

(** [status] and [sent] are the arguments of [res.status(...).json(...)]. *)

(** A response, the quiz collection afterwards, and what was done. *)
Record Outcome : Type := {
  response : Response;
  store : Quiz.collection;
  events : list event
}.

(** The [catch] block of the handler, lines 257-298. *)
Definition on_error (env : Env) (message : string) : Response :=
  let details := if development env then Some message else None in
  if includes "MONGODB_URI" message then
    {| status := 500;
       sent := Failure "Database configuration error. Please check server settings." None |}
  else if includes "GEMINI_API_KEY" message then
    {| status := 500;
       sent := Failure "Gemini API key not configured. Please check server settings." None |}
  else if includes "Failed to generate quiz" message then
    {| status := 500; sent := Failure "Failed to generate quiz. Please try again." details |}
  else if includes "Failed to extract" message then
    {| status := 400; sent := Failure "Failed to extract text from specified pages." None |}
  else
    {| status := 500; sent := Failure "Failed to generate quiz" details |}.

(** The page range check, lines 72-93: the message of the rejection, or the
    bounds of a range that passed (none when no range was given). *)
Definition validatePageRange (pageRange : option PageRange) : result (option (Z * Z)) :=
  match pageRange with
  | None => Ok None
  | Some r =>
      if negb (truthy (start r)) || negb (truthy (end_ r)) then
        Throw "pageRange must include start and end"
      else if Js.lt (start r) (Some 1) || Js.lt (end_ r) (Some 1) then
        Throw "Page numbers must be greater than 0"
      else if Js.gt (start r) (end_ r) then
        Throw "start page must be less than or equal to end page"
      else
        match start r, end_ r with
        | Some s, Some e => Ok (Some (s, e))
        | _, _ => Throw "pageRange must include start and end"
        end
  end.

Definition range_of (bounds : Z * Z) : PageRange :=
  {| start := Some (fst bounds); end_ := Some (snd bounds) |}.

(** The text the quiz is generated from, lines 152-178: a response when the
    range exceeds the book, an error when extraction throws. *)
Definition selectContent (book : Book.t) (bounds : option (Z * Z))
  : result (Response + string) :=
  match bounds with
  | Some (startPage, endPage) =>
      if Js.gt (Some endPage) (Book.totalPages book) then
        Ok (inl {| status := 400;
                   sent := Failure ("Page range exceeds book's total pages ("
                                    ++ template (Book.totalPages book) ++ ")") None |})
      else
        bind (extractTextFromPages book startPage endPage) (fun text => Ok (inr text))
  | None =>
      if (0 <? List.length (Book.pages book))%nat then
        Ok (inr (join "

" (List.map Page.text (Book.pages book))))
      else
        match Book.pdfText book with
        | Some pdfText => Ok (inr pdfText)
        | None => Ok (inr "")
        end
  end.

(** The cache-miss path, lines 148-256. *)
Definition generateNew (env : Env) (quizzes : Quiz.collection) (done : list event)
    (book : Book.t) (bounds : option (Z * Z)) (actualPageRange : PageRange)
    (numQuestions : Z) (quizDifficulty : string) : Outcome :=
  match selectContent book bounds with
  | Throw message =>
      {| response := on_error env message; store := quizzes; events := done |}
  | Ok (inl rejected) =>
      {| response := rejected; store := quizzes; events := done |}
  | Ok (inr contentText) =>
      if String.eqb contentText ""
         || (Z.of_nat (String.length (trim contentText)) =? 0) then
        {| response :=
             {| status := 400;
                sent := Failure "No text content available for quiz generation" None |};
           store := quizzes; events := done |}
      else
        let truncated := truncateText contentText MAX_CHARS in
        let (generated, st) :=
          Gemini.generateQuiz (ai env) (text truncated) numQuestions quizDifficulty in
        let done := (done ++ Gemini.trace st)%list in
        match generated with
        | Throw message =>
            {| response := on_error env message; store := quizzes; events := done |}
        | Ok questions =>
            let quizTitle :=
              match bounds with
              | Some (startPage, endPage) =>
                  Book.title book ++ " - Pages " ++ string_of_Z startPage ++ "-"
                    ++ string_of_Z endPage
              | None => Book.title book ++ " - Full Book Quiz"
              end in
            let quizData :=
              {| QuizCache.bookId := Book._id book;
                 QuizCache.title := quizTitle;
                 QuizCache.generatedDate := now env;
                 QuizCache.pageRange := actualPageRange;
                 QuizCache.questions := questions;
                 QuizCache.difficulty := quizDifficulty;
                 QuizCache.numberOfQuestions := Z.of_nat (List.length questions) |} in
            let done :=
              (done ++ [EvSave (QuizCache.generateCacheKey (Book._id book)
                                  (Some actualPageRange)
                                  (Z.of_nat (List.length questions)) quizDifficulty)])%list in
            match QuizCache.saveQuizToCache (quiz_faults env) (now env) (newId env)
                    quizzes quizData with
            | Throw message =>
                {| response := on_error env message; store := quizzes; events := done |}
            | Ok (quiz, quizzes') =>
                {| response :=
                     {| status := 200;
                        sent :=
                          Success (Quiz._id quiz) false 1 "Quiz generated successfully"
                            {| v_id := Quiz._id quiz;
                               v_title := Quiz.title quiz;
                               v_bookId := Quiz.bookId quiz;
                               v_bookTitle := Book.title book;
                               v_generatedDate := Quiz.generatedDate quiz;
                               v_pageRange := Quiz.pageRange quiz;
                               v_difficulty := Quiz.difficulty quiz;
                               v_numberOfQuestions := Quiz.numberOfQuestions quiz;
                               v_questions := Quiz.questions quiz;
                               v_wasTruncated := Some (wasTruncated truncated) |} |};
                   store := quizzes'; events := done |}
            end
        end
  end.

(** The handler once the body passed validation, lines 95-146 and the
    [catch] block. *)
Definition serve (env : Env) (quizzes : Quiz.collection) (bookId : string)
    (bounds : option (Z * Z)) (numQuestions : Z) (quizDifficulty : string)
  : Outcome :=
  match connectDB env with
  | Some message =>
      {| response := on_error env message; store := quizzes; events := [EvConnect] |}
  | None =>
      match Book_findById env bookId with
      | Throw message =>
          {| response := on_error env message; store := quizzes;
             events := [EvConnect; EvFindBook bookId] |}
      | Ok None =>
          {| response := {| status := 404; sent := Failure "Book not found" None |};
             store := quizzes; events := [EvConnect; EvFindBook bookId] |}
      | Ok (Some book) =>
          let actualPageRange :=
            match bounds with
            | Some b => range_of b
            | None => {| start := Some 1; end_ := Book.totalPages book |}
            end in
          let done :=
            [EvConnect; EvFindBook bookId;
             EvCacheLookup (QuizCache.generateCacheKey bookId (Some actualPageRange)
                              numQuestions quizDifficulty)] in
          match QuizCache.findCachedQuiz (quiz_faults env) (now env) quizzes bookId
                  (Some actualPageRange) numQuestions quizDifficulty with
          | (Some cachedQuiz, quizzes') =>
              {| response :=
                   {| status := 200;
                      sent :=
                        Success (Quiz._id cachedQuiz) true (Quiz.usageCount cachedQuiz)
                          "Quiz retrieved from cache"
                          {| v_id := Quiz._id cachedQuiz;
                             v_title := Quiz.title cachedQuiz;
                             v_bookId := Quiz.bookId cachedQuiz;
                             v_bookTitle := Book.title book;
                             v_generatedDate := Quiz.generatedDate cachedQuiz;
                             v_pageRange := Quiz.pageRange cachedQuiz;
                             v_difficulty := Quiz.difficulty cachedQuiz;
                             v_numberOfQuestions := Quiz.numberOfQuestions cachedQuiz;
                             v_questions := Quiz.questions cachedQuiz;
                             v_wasTruncated := None |} |};
                 store := quizzes'; events := done |}
          | (None, quizzes') =>
              generateNew env quizzes' done book bounds actualPageRange
                numQuestions quizDifficulty
          end
      end
  end.

(** [handler(req, res)], lines 23-299. *)
Definition handler (env : Env) (quizzes : Quiz.collection) (req : Request) : Outcome :=
  let reject (status : nat) (error : string) : Outcome :=
    {| response := {| status := status; sent := Failure error None |};
       store := quizzes; events := [] |} in
  if negb (String.eqb (method req) "POST") then
    reject 405%nat "Method not allowed. Use POST."
  else
    match bookId (body req) with
    | None => reject 400%nat "bookId is required"
    | Some bookId =>
        if String.eqb bookId "" then reject 400%nat "bookId is required"
        else if negb (isValidObjectId env bookId) then
          reject 400%nat "Invalid bookId format"
        else
          let numQuestions := or_default (numberOfQuestions (body req)) 5 in
          if (numQuestions <? 1) || (numQuestions >? 20) then
            reject 400%nat "numberOfQuestions must be between 1 and 20"
          else
            let validDifficulties := ["easy"; "medium"; "hard"] in
            let quizDifficulty :=
              match difficulty (body req) with
              | Some d => if String.eqb d "" then "medium" else d
              | None => "medium"
              end in
            if negb (List.existsb (String.eqb quizDifficulty) validDifficulties) then
              reject 400%nat "difficulty must be easy, medium, or hard"
            else
              match validatePageRange (pageRange (body req)) with
              | Throw message => reject 400%nat message
              | Ok bounds => serve env quizzes bookId bounds numQuestions quizDifficulty
              end
    end.

End Generate.

(** ** Sample data *)

Section Samples.

Import Generate.

Definition sample_id : string := "64f0c0ffee64f0c0ffee64f0".

(** Three pages, stored out of order. *)
Definition sample_book : Book.t :=
  {| Book._id := sample_id;
     Book.title := "Sample";
     Book.totalPages := Some 3;
     Book.pages :=
       [ {| Page.pageNumber := 2; Page.text := "second page"; Page.characterCount := 11 |};
         {| Page.pageNumber := 1; Page.text := "first page"; Page.characterCount := 10 |};
         {| Page.pageNumber := 3; Page.text := "third page"; Page.characterCount := 10 |} ];
     Book.pdfText := None |}.

(** A book from before per-page storage: the full text only. *)
Definition legacy_book : Book.t :=
  {| Book._id := sample_id;
     Book.title := "Legacy";
     Book.totalPages := Some 2;
     Book.pages := [];
     Book.pdfText := Some "hello world" |}.

(** A book whose record counts no page. *)
Definition empty_book : Book.t :=
  {| Book._id := sample_id;
     Book.title := "Empty";
     Book.totalPages := Some 0;
     Book.pages := [];
     Book.pdfText := None |}.

Definition sample_question (answer : string) : json :=
  JObject
    [ ("question", JString "Which page comes first?");
      ("options", JArray [JString "A) first"; JString "B) second";
                          JString "C) third"; JString "D) none"]);
      ("correctAnswer", JString answer);
      ("explanation", JString "The first page comes first.") ].

(** A service that answers every call with the same one-question quiz;
    [JSON_parse] is [JSON.parse] on that response. *)
Definition answering (answer : string) : Gemini.client :=
  {| Gemini.getGenerativeModel := fun _ => None;
     Gemini.generateContent := fun _ _ _ => Ok "{ the response }";
     Gemini.JSON_parse := fun _ =>
       Ok (JObject [("questions", JArray [sample_question answer])]) |}.

Definition sample_env (book : Book.t) (faults : Quiz.faults) : Env :=
  {| isValidObjectId := fun id => (String.length id =? 24)%nat;
     connectDB := None;
     Book_findById := fun id =>
       if String.eqb id sample_id then Ok (Some book) else Ok None;
     quiz_faults := faults;
     ai := answering "A";
     now := 1000;
     newId := "quiz-1";
     development := false |}.

Definition sample_request (pageRange : option PageRange)
    (numberOfQuestions : option Z) (difficulty : option string) : Request :=
  {| method := "POST";
     body := {| bookId := Some sample_id; pageRange := pageRange;
                numberOfQuestions := numberOfQuestions; difficulty := difficulty |} |}.

(** A quiz of another book, used once. *)
Definition sample_quiz : Quiz.t :=
  {| Quiz._id := "q1"; Quiz.bookId := "b1"; Quiz.title := "Book - Pages 1-3";
     Quiz.generatedDate := 100;
     Quiz.pageRange := {| start := Some 1; end_ := Some 3 |};
     Quiz.questions := [JString "placeholder"];
     Quiz.difficulty := "easy"; Quiz.numberOfQuestions := 1;
     Quiz.cacheKey := "b1-1-3-1-easy"; Quiz.usageCount := 1;
     Quiz.lastUsedAt := 100; Quiz.generatedBy := "gemini" |}.

(** A service that is out of quota: every generation call fails. *)
Definition out_of_quota : Gemini.client :=
  {| Gemini.getGenerativeModel := fun _ => None;
     Gemini.generateContent := fun call _ _ =>
       Throw ("429 quota exceeded (call " ++ string_of_Z (Z.of_nat call) ++ ")");
     Gemini.JSON_parse := fun _ => Throw "Unexpected end of JSON input" |}.

(** The store fails to find anything. *)
Definition lookup_down : Quiz.faults :=
  {| Quiz.findOne_fault := Some "connection lost";
     Quiz.find_fault := None;
     Quiz.update_fault := None;
     Quiz.insert_fault := fun _ => None |}.

(** A quiz recorded under the key of pages 1 to 9 of the sample book. *)
Definition stale_quiz : Quiz.t :=
  {| Quiz._id := "q9"; Quiz.bookId := sample_id; Quiz.title := "Sample - Pages 1-9";
     Quiz.generatedDate := 100;
     Quiz.pageRange := {| start := Some 1; end_ := Some 9 |};
     Quiz.questions := [sample_question "A"];
     Quiz.difficulty := "medium"; Quiz.numberOfQuestions := 5;
     Quiz.cacheKey := "64f0c0ffee64f0c0ffee64f0-1-9-5-medium"; Quiz.usageCount := 1;
     Quiz.lastUsedAt := 100; Quiz.generatedBy := "gemini" |}.

Definition beyond_request : Request :=
  sample_request (Some {| start := Some 1; end_ := Some 9 |}) (Some 5) (Some "medium").

End Samples.

(* ===================================================================== *)
(** * Part II: properties                                                 *)
(* ===================================================================== *)

(** ** Strings *)

Section StringFacts.

Lemma append_nil_r (s : string) : s ++ "" = s.
Proof. induction s as [|c s IH]; simpl; [reflexivity | now rewrite IH]. Qed.

Lemma append_assoc (a b c : string) : (a ++ b) ++ c = a ++ (b ++ c).
Proof. induction a as [|x a IH]; simpl; [reflexivity | now rewrite IH]. Qed.

Lemma length_append (a b : string) :
  String.length (a ++ b) = (String.length a + String.length b)%nat.
Proof. induction a as [|x a IH]; simpl; [reflexivity | now rewrite IH]. Qed.

Lemma append_inv_head (s a b : string) : s ++ a = s ++ b -> a = b.
Proof.
  induction s as [|x s IH]; simpl; intros H; [exact H | ].
  injection H as H. now apply IH.
Qed.

Lemma list_ascii_of_append (a b : string) :
  list_ascii_of_string (a ++ b) = (list_ascii_of_string a ++ list_ascii_of_string b)%list.
Proof. induction a as [|x a IH]; simpl; [reflexivity | now rewrite IH]. Qed.

Lemma list_ascii_of_string_inj (a b : string) :
  list_ascii_of_string a = list_ascii_of_string b -> a = b.
Proof.
  intros H.
  rewrite <- (string_of_list_ascii_of_string a), <- (string_of_list_ascii_of_string b).
  now rewrite H.
Qed.

Lemma append_inv_tail (s a b : string) : a ++ s = b ++ s -> a = b.
Proof.
  intros H. apply list_ascii_of_string_inj.
  apply (f_equal list_ascii_of_string) in H.
  rewrite !list_ascii_of_append in H.
  now apply app_inv_tail in H.
Qed.

(** The first [k] characters, and what follows them. *)
Lemma substring_0_split (s : string) (k : nat) :
  exists rest, s = String.substring 0 k s ++ rest.
Proof.
  revert k. induction s as [|c s IH]; intros [|k]; simpl.
  - now exists "".
  - now exists "".
  - now exists (String c s).
  - destruct (IH k) as [rest E]. exists rest. now rewrite <- E.
Qed.

Lemma substring_0_split_at (s : string) (k : nat) (c : ascii) :
  String.get k s = Some c ->
  exists rest, s = String.substring 0 k s ++ String c rest.
Proof.
  revert k. induction s as [|x s IH]; intros [|k]; simpl; intros H; try discriminate.
  - injection H as ->. now exists s.
  - destruct (IH k H) as [rest E]. exists rest. now rewrite <- E.
Qed.

Lemma length_substring_0 (s : string) (k : nat) :
  String.length (String.substring 0 k s) = Nat.min k (String.length s).
Proof.
  revert k. induction s as [|c s IH]; intros [|k]; simpl; try reflexivity.
  now rewrite IH.
Qed.

Lemma get_substring_0 (s : string) (k j : nat) :
  (j < k)%nat -> String.get j (String.substring 0 k s) = String.get j s.
Proof.
  intros H. rewrite (substring_correct1 s 0 k j H). now rewrite Nat.add_0_r.
Qed.

Lemma get_Some_lt (s : string) (j : nat) (c : ascii) :
  String.get j s = Some c -> (j < String.length s)%nat.
Proof.
  revert j. induction s as [|x s IH]; intros [|j]; simpl; intros H; try discriminate.
  - lia.
  - apply IH in H. lia.
Qed.

(** [substring(0, b)] for an index inside the string. *)
Lemma js_substring_0 (s : string) (b : Z) :
  0 <= b <= Z.of_nat (String.length s) ->
  Js.substring s 0 b = String.substring 0 (Z.to_nat b) s.
Proof.
  intros H. unfold Js.substring.
  rewrite (Z.min_l 0) by lia. rewrite (Z.max_l 0 0) by lia.
  rewrite (Z.min_l b) by lia. rewrite (Z.max_r 0 b) by lia.
  rewrite Z.min_l by lia. rewrite Z.max_r by lia.
  now rewrite Z.sub_0_r.
Qed.

(** What [lastIndexOf_from] computes: either no occurrence and the
    accumulator, or the offset of the last occurrence. *)
Lemma lastIndexOf_from_spec (c : ascii) (s : string) (i acc : Z) :
  (lastIndexOf_from c s i acc = acc /\ forall j, String.get j s <> Some c)
  \/ exists k : nat,
       lastIndexOf_from c s i acc = i + Z.of_nat k
       /\ String.get k s = Some c
       /\ forall j, (k < j)%nat -> String.get j s <> Some c.
Proof.
  revert i acc. induction s as [|a s IH]; intros i acc; simpl.
  - left. split; [reflexivity | intros [|j]; discriminate].
  - destruct (IH (i + 1) (if Ascii.eqb a c then i else acc))
      as [[E N] | [k [E [G N]]]].
    + destruct (Ascii.eqb_spec a c) as [->|Hne].
      * right. exists 0%nat. rewrite E. split; [lia|]. split; [reflexivity|].
        intros [|j] Hj; [lia | apply N].
      * left. split; [exact E|]. intros [|j]; [congruence | apply N].
    + right. exists (S k). rewrite E. split; [lia|]. split; [exact G|].
      intros [|j] Hj; [lia | apply N; lia].
Qed.

Lemma lastIndexOf_spec (c : ascii) (s : string) :
  (lastIndexOf c s = -1 /\ forall j, String.get j s <> Some c)
  \/ exists k : nat,
       lastIndexOf c s = Z.of_nat k
       /\ String.get k s = Some c
       /\ forall j, (k < j)%nat -> String.get j s <> Some c.
Proof.
  unfold lastIndexOf.
  destruct (lastIndexOf_from_spec c s 0 (-1)) as [H | [k [E H]]]; [now left | right].
  exists k. now rewrite E.
Qed.

End StringFacts.

(** ** Truncation safety ([truncateText]) *)

Section TruncationSafety.

Import Generate.

(** The returned prefix stops right before a space of the original. *)
Definition followed_by_space (original returned : string) : Prop :=
  exists rest, original = returned ++ String " " rest.

(** The returned prefix stops between two non-space characters. *)
Definition ends_mid_word (original returned : string) : Prop :=
  exists p c1 c2 rest,
    returned = p ++ String c1 "" /\ original = returned ++ String c2 rest
    /\ c1 <> " "%char /\ c2 <> " "%char.

(** A space among the characters at indices [from .. maxChars - 1]. *)
Definition space_within (from : nat) (text : string) (maxChars : nat) : Prop :=
  exists i, (from <= i < maxChars)%nat /\ String.get i text = Some " "%char.

(** Truncation safety in the spec's words: any space in the cut region
    (index 0 included) is enough for the result not to end mid-word. *)
Definition truncation_safety_as_specified (text : string) (maxChars : nat) : Prop :=
  let r := truncateText text maxChars in
  (String.length (Generate.text r) <= maxChars)%nat
  /\ (wasTruncated r = true <-> (String.length text > maxChars)%nat)
  /\ (wasTruncated r = true -> space_within 0 text maxChars ->
      ~ ends_mid_word text (Generate.text r)).

Lemma followed_by_space_not_mid_word (original returned : string) :
  followed_by_space original returned -> ~ ends_mid_word original returned.
Proof.
  intros [rest E] (p & c1 & c2 & rest' & _ & E' & _ & Hc2).
  rewrite E in E'. apply append_inv_head in E'. congruence.
Qed.

Lemma truncateText_long (text : string) (maxChars : nat) :
  (maxChars < String.length text)%nat ->
  truncateText text maxChars =
  let truncated := String.substring 0 maxChars text in
  let lastSpace := lastIndexOf " "%char truncated in
  {| text := if lastSpace >? 0 then Js.substring truncated 0 lastSpace else truncated;
     wasTruncated := true |}.
Proof.
  intros H. unfold truncateText.
  destruct (Nat.leb_spec (String.length text) maxChars) as [Hle|_]; [lia|].
  rewrite js_substring_0 by lia. now rewrite Nat2Z.id.
Qed.

Lemma truncateText_short (text : string) (maxChars : nat) :
  (String.length text <= maxChars)%nat ->
  truncateText text maxChars = {| text := text; wasTruncated := false |}.
Proof.
  intros H. unfold truncateText. now rewrite (proj2 (Nat.leb_le _ _) H).
Qed.

Lemma truncateText_flag (text : string) (maxChars : nat) :
  wasTruncated (truncateText text maxChars) = true
  <-> (String.length text > maxChars)%nat.
Proof.
  destruct (Nat.leb_spec (String.length text) maxChars) as [Hle|Hlt].
  - rewrite (truncateText_short _ _ Hle). simpl. split; [discriminate | lia].
  - rewrite (truncateText_long _ _ Hlt). simpl. split; [lia | reflexivity].
Qed.

Lemma truncateText_length (text : string) (maxChars : nat) :
  (String.length (Generate.text (truncateText text maxChars)) <= maxChars)%nat.
Proof.
  destruct (Nat.leb_spec (String.length text) maxChars) as [Hle|Hlt].
  - now rewrite (truncateText_short _ _ Hle).
  - rewrite (truncateText_long _ _ Hlt). cbv zeta. simpl.
    set (T := String.substring 0 maxChars text).
    assert (HlenT : String.length T = maxChars).
    { unfold T. rewrite length_substring_0. lia. }
    destruct (lastIndexOf_spec " "%char T) as [[E _] | [k [E [G _]]]]; rewrite E.
    + simpl. lia.
    + pose proof (get_Some_lt _ _ _ G) as Hk.
      destruct (Z.gtb_spec (Z.of_nat k) 0); [|lia].
      rewrite js_substring_0 by lia. rewrite Nat2Z.id, length_substring_0. lia.
Qed.

(** Where the cut falls: right before the last space found at a positive
    index among the first [maxChars] characters. *)
Lemma truncateText_boundary (text : string) (maxChars : nat) :
  (String.length text > maxChars)%nat ->
  space_within 1 text maxChars ->
  followed_by_space text (Generate.text (truncateText text maxChars))
  /\ forall j,
       (String.length (Generate.text (truncateText text maxChars)) < j < maxChars)%nat ->
       String.get j text <> Some " "%char.
Proof.
  intros Hlt [i [Hi Gi]].
  rewrite (truncateText_long _ _ Hlt). cbv zeta. simpl.
  set (T := String.substring 0 maxChars text).
  assert (HlenT : String.length T = maxChars).
  { unfold T. rewrite length_substring_0. lia. }
  destruct (substring_0_split text maxChars) as [tail Htail]. fold T in Htail.
  assert (GiT : String.get i T = Some " "%char).
  { unfold T. rewrite get_substring_0 by lia. exact Gi. }
  destruct (lastIndexOf_spec " "%char T) as [[E N] | [k [E [G N]]]].
  - exfalso. now apply (N i).
  - rewrite E. pose proof (get_Some_lt _ _ _ G) as Hk.
    destruct k as [|k].
    + (* the last space would be the first character *)
      exfalso. apply (N i); [lia | exact GiT].
    + replace (Z.of_nat (S k) >? 0) with true by (symmetry; apply Z.gtb_lt; lia).
      rewrite js_substring_0 by lia. rewrite Nat2Z.id.
      assert (Hlen : String.length (String.substring 0 (S k) T) = S k).
      { rewrite length_substring_0. lia. }
      split.
      * destruct (substring_0_split_at T (S k) _ G) as [rest Hrest].
        exists (rest ++ tail). rewrite Htail at 1. rewrite Hrest at 1.
        now rewrite append_assoc.
      * intros j Hj. rewrite Hlen in Hj.
        rewrite <- (get_substring_0 text maxChars j) by lia. apply N. lia.
Qed.

(** C2 (as amended): the result never exceeds [maxChars]; [wasTruncated]
    says exactly whether the input was longer than [maxChars]; and when the
    input is cut and a space occurs at an index from 1 to [maxChars - 1],
    the result stops right before the last such space, hence not mid-word.
    A space at index 0 alone does not count: the code backs up only to a
    space found at a positive index. *)
Theorem truncateText_safe (text : string) (maxChars : nat) :
  let r := truncateText text maxChars in
  (String.length (Generate.text r) <= maxChars)%nat
  /\ (wasTruncated r = true <-> (String.length text > maxChars)%nat)
  /\ (wasTruncated r = true -> space_within 1 text maxChars ->
      followed_by_space text (Generate.text r)
      /\ ~ ends_mid_word text (Generate.text r)
      /\ forall j, (String.length (Generate.text r) < j < maxChars)%nat ->
                   String.get j text <> Some " "%char).
Proof.
  cbv zeta. split; [apply truncateText_length|]. split; [apply truncateText_flag|].
  intros Hcut Hspace. apply truncateText_flag in Hcut.
  destruct (truncateText_boundary text maxChars Hcut Hspace) as [Hfollowed Hlast].
  split; [exact Hfollowed|]. split; [|exact Hlast].
  now apply followed_by_space_not_mid_word.
Qed.

(** A text with an inner space, cut at 9: the result stops before a space. *)
Lemma truncateText_safe_witness :
  followed_by_space "hello big world" (Generate.text (truncateText "hello big world" 9)).
Proof.
  refine (proj1 (proj2 (proj2 (truncateText_safe "hello big world" 9)) _ _)).
  - reflexivity.
  - exists 5%nat. split; [lia | reflexivity].
Defined.

(** C2 as specified fails when the only space of the cut region is the
    first character: [" abcdef"] cut at 4 gives [" abc"], in the middle of
    the word. *)
Lemma truncateText_leading_space_mid_word :
  ~ truncation_safety_as_specified " abcdef" 4.
Proof.
  intros (_ & _ & H). apply H.
  - reflexivity.
  - exists 0%nat. split; [lia | reflexivity].
  - exists " ab", "c"%char, "d"%char, "ef". repeat split; discriminate.
Qed.

Example truncateText_leading_space :
  truncateText " abcdef" 4 = {| text := " abc"; wasTruncated := true |}.
Proof. reflexivity. Qed.

End TruncationSafety.

(** ** The cache key ([generateCacheKey]) *)

Section CacheKey.

Import QuizCache.

(** The normalized fields of a request, in the spec's words: the book, the
    start of the range or 1, its end or 1, the question count and the
    difficulty. *)
Definition normalized_fields (bookId : string) (pageRange : option PageRange)
    (numberOfQuestions : Z) (difficulty : string) : string * Z * Z * Z * string :=
  (bookId,
   or_default (match pageRange with Some r => start r | None => None end) 1,
   or_default (match pageRange with Some r => end_ r | None => None end) 1,
   numberOfQuestions,
   difficulty).

Lemma generateCacheKey_of_normalized bookId pageRange numberOfQuestions difficulty :
  generateCacheKey bookId pageRange numberOfQuestions difficulty =
  let '(b, s, e, n, d) :=
    normalized_fields bookId pageRange numberOfQuestions difficulty in
  b ++ "-" ++ string_of_Z s ++ "-" ++ string_of_Z e ++ "-" ++ string_of_Z n ++ "-" ++ d.
Proof. reflexivity. Qed.

(** C5: the key is a function of the normalized fields alone, so equal
    normalized fields give equal keys (and the same inputs the same key);
    an absent page range gives the key of the range 1 to 1. *)
Theorem generateCacheKey_deterministic :
  (forall b1 r1 n1 d1 b2 r2 n2 d2,
      normalized_fields b1 r1 n1 d1 = normalized_fields b2 r2 n2 d2 ->
      generateCacheKey b1 r1 n1 d1 = generateCacheKey b2 r2 n2 d2)
  /\ (forall b n d,
         normalized_fields b None n d
         = normalized_fields b (Some {| start := Some 1; end_ := Some 1 |}) n d
         /\ generateCacheKey b None n d
            = generateCacheKey b (Some {| start := Some 1; end_ := Some 1 |}) n d).
Proof.
  split.
  - intros b1 r1 n1 d1 b2 r2 n2 d2 H.
    rewrite !generateCacheKey_of_normalized. now rewrite H.
  - intros b n d. split; reflexivity.
Qed.

Example generateCacheKey_absent_range :
  generateCacheKey "64f0c0ffee" None 5 "medium" = "64f0c0ffee-1-1-5-medium".
Proof. reflexivity. Qed.

End CacheKey.

(** ** Cache lookup ([findCachedQuiz], [incrementUsage]) *)

Section CacheLookup.

Import QuizCache.

(** The document after one use at time [now]. *)
Definition used (now : Z) (q : Quiz.t) : Quiz.t :=
  {| Quiz._id := Quiz._id q; Quiz.bookId := Quiz.bookId q;
     Quiz.title := Quiz.title q; Quiz.generatedDate := Quiz.generatedDate q;
     Quiz.pageRange := Quiz.pageRange q; Quiz.questions := Quiz.questions q;
     Quiz.difficulty := Quiz.difficulty q;
     Quiz.numberOfQuestions := Quiz.numberOfQuestions q;
     Quiz.cacheKey := Quiz.cacheKey q;
     Quiz.usageCount := Quiz.usageCount q + 1;
     Quiz.lastUsedAt := now;
     Quiz.generatedBy := Quiz.generatedBy q |}.

(** The quiz stored under a key: the document [findOne] answers with. *)
Definition stored_under (store : Quiz.collection) (key : string) : option Quiz.t :=
  List.find (fun q => String.eqb (Quiz.cacheKey q) key) store.

(** The collection after [doc] was written back. *)
Definition written_back (store : Quiz.collection) (doc : Quiz.t) : Quiz.collection :=
  List.map (fun q => if String.eqb (Quiz._id q) (Quiz._id doc) then doc else q) store.

Lemma stored_under_key store key q :
  stored_under store key = Some q -> Quiz.cacheKey q = key.
Proof.
  intros H. apply find_some in H. destruct H as [_ H].
  now apply String.eqb_eq.
Qed.

Lemma stored_under_written_back store key q doc :
  stored_under store key = Some q ->
  Quiz._id doc = Quiz._id q ->
  Quiz.cacheKey doc = key ->
  stored_under (written_back store doc) key = Some doc.
Proof.
  unfold stored_under, written_back. intros Hfind Hid Hkey.
  induction store as [|d store IH]; simpl in *; [discriminate|].
  destruct (String.eqb_spec (Quiz._id d) (Quiz._id doc)) as [E|NE].
  - rewrite Hkey, String.eqb_refl. reflexivity.
  - destruct (String.eqb_spec (Quiz.cacheKey d) key) as [K|NK].
    + injection Hfind as <-. congruence.
    + now apply IH.
Qed.

Lemma written_back_others store doc d :
  In d store -> Quiz._id d <> Quiz._id doc -> In d (written_back store doc).
Proof.
  intros Hin Hne. unfold written_back. apply in_map_iff. exists d.
  split; [|exact Hin].
  destruct (String.eqb_spec (Quiz._id d) (Quiz._id doc)); [contradiction | reflexivity].
Qed.

Lemma findCachedQuiz_no_fault f now store b r n d q :
  Quiz.findOne_fault f = None ->
  Quiz.update_fault f = None ->
  stored_under store (generateCacheKey b r n d) = Some q ->
  findCachedQuiz f now store b r n d = (Some (used now q), written_back store (used now q)).
Proof.
  intros F1 F2 H. unfold findCachedQuiz, Quiz.findOne.
  rewrite F1. unfold stored_under in H. rewrite H.
  unfold Quiz.incrementUsage, Quiz.save_existing. rewrite F2. reflexivity.
Qed.

Lemma findCachedQuiz_fault f now store b r n d :
  Quiz.findOne_fault f <> None \/ Quiz.update_fault f <> None ->
  findCachedQuiz f now store b r n d = (None, store).
Proof.
  intros H. unfold findCachedQuiz, Quiz.findOne.
  destruct (Quiz.findOne_fault f) as [m|]; [reflexivity|].
  destruct H as [H|H]; [congruence|].
  destruct (find _ store) as [q|]; [|reflexivity].
  unfold Quiz.incrementUsage, Quiz.save_existing.
  destruct (Quiz.update_fault f); [reflexivity | congruence].
Qed.

(** C1 (as amended): with a quiz [q] stored under the key of the request,
    a lookup that no other request interleaves with answers with that same
    quiz (same identifier, same questions), its [usageCount] one higher and
    its [lastUsedAt] the current time, and the collection afterwards holds
    exactly this updated document under the key, every other document
    untouched.  The two fields change in one write: the only other outcome
    is a store error, answered with [null] and an unchanged collection. *)
Theorem findCachedQuiz_hit f now store b r n d q :
  stored_under store (generateCacheKey b r n d) = Some q ->
  let q' := used now q in
  (Quiz._id q' = Quiz._id q
   /\ Quiz.questions q' = Quiz.questions q
   /\ Quiz.cacheKey q' = generateCacheKey b r n d
   /\ Quiz.usageCount q' = Quiz.usageCount q + 1
   /\ Quiz.lastUsedAt q' = now)
  /\ (Quiz.findOne_fault f = None -> Quiz.update_fault f = None ->
      findCachedQuiz f now store b r n d = (Some q', written_back store q'))
  /\ (findCachedQuiz f now store b r n d = (Some q', written_back store q')
      \/ findCachedQuiz f now store b r n d = (None, store)
         /\ (Quiz.findOne_fault f <> None \/ Quiz.update_fault f <> None))
  /\ stored_under (written_back store q') (generateCacheKey b r n d) = Some q'
  /\ List.length (written_back store q') = List.length store
  /\ (forall o, In o store -> Quiz._id o <> Quiz._id q -> In o (written_back store q')).
Proof.
  intros H q'.
  pose proof (stored_under_key _ _ _ H) as Hkey.
  split; [now repeat split|].
  split; [intros F1 F2; now apply findCachedQuiz_no_fault|].
  split.
  - destruct (Quiz.findOne_fault f) as [m|] eqn:F1.
    + right. split; [apply findCachedQuiz_fault|]; left; congruence.
    + destruct (Quiz.update_fault f) as [m|] eqn:F2.
      * right. split; [apply findCachedQuiz_fault|]; right; congruence.
      * left. now apply findCachedQuiz_no_fault.
  - split; [now apply (stored_under_written_back store _ q)|].
    split; [apply length_map|].
    intros o Hin Hne. now apply written_back_others.
Qed.


(** A stored quiz looked up at time 250: one more use, and found again. *)
Lemma findCachedQuiz_hit_witness :
  findCachedQuiz Quiz.no_faults 250 [sample_quiz] "b1"
    (Some {| start := Some 1; end_ := Some 3 |}) 1 "easy"
  = (Some (used 250 sample_quiz), [used 250 sample_quiz]).
Proof.
  refine (proj1 (proj2 (findCachedQuiz_hit Quiz.no_faults 250 [sample_quiz] "b1"
            (Some {| start := Some 1; end_ := Some 3 |}) 1 "easy" sample_quiz _)) _ _);
    reflexivity.
Defined.

(** Two lookups in a row: the same questions, two more uses. *)
Lemma findCachedQuiz_twice f now1 now2 store b r n d q :
  Quiz.findOne_fault f = None ->
  Quiz.update_fault f = None ->
  stored_under store (generateCacheKey b r n d) = Some q ->
  let '(_, store1) := findCachedQuiz f now1 store b r n d in
  exists q2 store2,
    findCachedQuiz f now2 store1 b r n d = (Some q2, store2)
    /\ Quiz.questions q2 = Quiz.questions q
    /\ Quiz.usageCount q2 = Quiz.usageCount q + 2.
Proof.
  intros F1 F2 H.
  rewrite (findCachedQuiz_no_fault f now1 store b r n d q F1 F2 H).
  assert (H1 : stored_under (written_back store (used now1 q)) (generateCacheKey b r n d)
               = Some (used now1 q)).
  { apply (stored_under_written_back store _ q); [exact H | reflexivity |].
    simpl. now apply stored_under_key in H. }
  rewrite (findCachedQuiz_no_fault f now2 _ b r n d _ F1 F2 H1).
  eexists _, _. split; [reflexivity|]. simpl. split; [reflexivity | lia].
Qed.

End CacheLookup.

(** ** Two lookups at once *)

Section InterleavedLookups.

Import QuizCache.

(** A lookup in progress.  [findCachedQuiz] is suspended at two [await]s,
    the [findOne] and the [save] inside [incrementUsage]; between them the
    store may serve another request.  A lookup is about to read, about to
    write back the document it read, or finished with its answer. *)
Inductive progress : Type :=
| ToRead
| ToWrite (cachedQuiz : Quiz.t)
| Finished (found : option Quiz.t).

(** The next store operation of a lookup under [key]. *)
Definition lookup_step (f : Quiz.faults) (now : Z) (key : string)
    (store : Quiz.collection) (p : progress) : progress * Quiz.collection :=
  match p with
  | ToRead =>
      match Quiz.findOne f store key with
      | Ok (Some cachedQuiz) => (ToWrite cachedQuiz, store)
      | Ok None => (Finished None, store)
      | Throw _ => (Finished None, store)
      end
  | ToWrite cachedQuiz =>
      match Quiz.incrementUsage f now store cachedQuiz with
      | Ok (cachedQuiz, store') => (Finished (Some cachedQuiz), store')
      | Throw _ => (Finished None, store)
      end
  | Finished found => (Finished found, store)
  end.

(** Two lookups of the same key by two requests, their store operations
    served in the order of [schedule]: [false] is an operation of the
    first request, [true] one of the second. *)
Fixpoint run (f : Quiz.faults) (now1 now2 : Z) (key : string) (schedule : list bool)
    (p1 p2 : progress) (store : Quiz.collection)
  : progress * progress * Quiz.collection :=
  match schedule with
  | [] => (p1, p2, store)
  | false :: rest =>
      let '(p1', store') := lookup_step f now1 key store p1 in
      run f now1 now2 key rest p1' p2 store'
  | true :: rest =>
      let '(p2', store') := lookup_step f now2 key store p2 in
      run f now1 now2 key rest p1 p2' store'
  end.

(** The atomic increment as specified: two lookups that both hit leave the
    stored count two higher, in whatever order the store served them. *)
Definition atomic_increment_as_specified (store : Quiz.collection) (key : string)
    (schedule : list bool) : Prop :=
  forall q q1 q2 store',
    stored_under store key = Some q ->
    run Quiz.no_faults 250 300 key schedule ToRead ToRead store
    = (Finished (Some q1), Finished (Some q2), store') ->
    exists q', stored_under store' key = Some q'
               /\ Quiz.usageCount q' = Quiz.usageCount q + 2.

(** One lookup alone is its two steps in a row. *)
Lemma findCachedQuiz_steps f now store b r n d :
  let key := generateCacheKey b r n d in
  let '(p, store1) := lookup_step f now key store ToRead in
  lookup_step f now key store1 p
  = (Finished (fst (findCachedQuiz f now store b r n d)),
     snd (findCachedQuiz f now store b r n d)).
Proof.
  unfold findCachedQuiz. simpl.
  destruct (Quiz.findOne f store _) as [[q|]|m]; simpl; try reflexivity.
  destruct (Quiz.incrementUsage f now store q) as [[q' store']|m]; reflexivity.
Qed.

(** C1 as specified fails when two lookups of one key interleave: both
    read the stored count 1, both write 2.  The second write adds nothing
    to the count. *)
Lemma findCachedQuiz_lost_update :
  ~ atomic_increment_as_specified [sample_quiz] "b1-1-3-1-easy"
      [false; true; false; true].
Proof.
  intros H.
  destruct (H sample_quiz (used 250 sample_quiz) (used 300 sample_quiz)
              [used 300 sample_quiz] eq_refl eq_refl) as (q' & Hq' & Hcount).
  vm_compute in Hq'. injection Hq' as <-. vm_compute in Hcount. discriminate.
Qed.

Example interleaved_lookups_count :
  run Quiz.no_faults 250 300 "b1-1-3-1-easy" [false; true; false; true]
    ToRead ToRead [sample_quiz]
  = (Finished (Some (used 250 sample_quiz)), Finished (Some (used 300 sample_quiz)),
     [used 300 sample_quiz])
  /\ Quiz.usageCount (used 300 sample_quiz) = 2.
Proof. split; reflexivity. Qed.

(** Served one after the other, the two lookups count two uses. *)
Example serial_lookups_count :
  run Quiz.no_faults 250 300 "b1-1-3-1-easy" [false; false; true; true]
    ToRead ToRead [sample_quiz]
  = (Finished (Some (used 250 sample_quiz)),
     Finished (Some (used 300 (used 250 sample_quiz))),
     [used 300 (used 250 sample_quiz)])
  /\ Quiz.usageCount (used 300 (used 250 sample_quiz)) = 3.
Proof. split; reflexivity. Qed.

End InterleavedLookups.

(** ** Fallback exhaustion ([generateWithRetry]) *)

Section FallbackExhaustion.

Import Gemini.

Variable c : client.
Variable prompt : string.

(** The generation calls among the events of a request. *)
Definition generation_calls (tr : list event) : nat :=
  List.length (List.filter (fun e => match e with EvGenerate _ _ => true | _ => false end) tr).

Definition failure_message {A} (r : result A) : option string :=
  match r with
  | Throw message => Some message
  | Ok _ => None
  end.

(** Every model of [models] fails on every attempt: the model is obtained,
    and each generation call made with it ends in an error, be it the call
    itself or the validation of its response. *)
Definition every_attempt_fails (models : list string) : Prop :=
  forall modelName, In modelName models ->
    getGenerativeModel c modelName = None
    /\ forall call, exists message, attempt_once c modelName prompt call = Throw message.

Lemma generation_calls_app (a b : list event) :
  generation_calls (a ++ b) = (generation_calls a + generation_calls b)%nat.
Proof. unfold generation_calls. now rewrite filter_app, length_app. Qed.

Lemma try_attempts_exhausted (modelName : string) (maxRetries : nat)
    (attempts : list nat) (st : state) :
  (forall call, exists message, attempt_once c modelName prompt call = Throw message) ->
  exists st',
    try_attempts c modelName prompt maxRetries attempts st = Exhausted st'
    /\ calls st' = (calls st + List.length attempts)%nat
    /\ generation_calls (trace st') = (generation_calls (trace st) + List.length attempts)%nat
    /\ lastError st' =
       match attempts with
       | [] => lastError st
       | _ => failure_message
                (attempt_once c modelName prompt (calls st + List.length attempts - 1))
       end.
Proof.
  intros Hfail. revert st.
  induction attempts as [|attempt rest IH]; intros st.
  - exists st. simpl. repeat split; lia.
  - simpl. destruct (Hfail (calls st)) as [message E]. rewrite E.
    match goal with |- context [try_attempts _ _ _ _ rest ?s] => destruct (IH s) as (st' & R & C & G & L) end.
    exists st'. split; [exact R|]. simpl in C, G, L.
    split; [lia|]. split.
    + rewrite G. destruct (attempt <? maxRetries)%nat;
        rewrite !generation_calls_app;
        change (generation_calls [EvGenerate modelName attempt]) with 1%nat;
        try change (generation_calls [EvWait (Z.of_nat attempt * 1000)]) with 0%nat; lia.
    + rewrite L. destruct rest as [|x rest'].
      * simpl. replace (calls st + 1 - 1)%nat with (calls st) by lia. now rewrite E.
      * f_equal. f_equal. simpl. lia.
Qed.

Lemma try_models_exhausted (maxRetries : nat) (models : list string) (st : state) :
  every_attempt_fails models ->
  exists st',
    try_models c prompt maxRetries models st = Exhausted st'
    /\ calls st' = (calls st + List.length models * maxRetries)%nat
    /\ generation_calls (trace st')
       = (generation_calls (trace st) + List.length models * maxRetries)%nat
    /\ (models <> [] -> (1 <= maxRetries)%nat ->
        lastError st' =
        failure_message
          (attempt_once c (List.last models "") prompt
             (calls st + List.length models * maxRetries - 1))).
Proof.
  revert st. induction models as [|modelName rest IH]; intros st Hfail.
  - exists st. simpl. repeat split; try lia. congruence.
  - destruct (Hfail modelName (or_introl eq_refl)) as [Hinit Hattempts].
    simpl. rewrite Hinit.
    destruct (try_attempts_exhausted modelName maxRetries (List.seq 1 maxRetries) st Hattempts)
      as (st1 & R1 & C1 & G1 & L1).
    rewrite R1. rewrite length_seq in C1, G1, L1.
    destruct (IH st1) as (st' & R & C & G & L).
    { intros m Hm. apply Hfail. now right. }
    exists st'. split; [exact R|]. split; [lia|]. split; [lia|].
    intros _ Hmax. destruct rest as [|m rest'].
    + simpl in R. injection R as <-. rewrite L1.
      destruct maxRetries as [|n]; [lia|]. simpl.
      f_equal. f_equal. lia.
    + rewrite L by (congruence || lia). f_equal. f_equal. rewrite C1. simpl. lia.
Qed.

(** C3: when every model of the fallback chain fails on every attempt,
    [generateWithRetry] throws the error whose message carries the message
    of the last attempt's error, after exactly (chain length) x (attempts
    per model) generation calls. *)
Theorem generateWithRetry_exhausted (maxRetries : nat) :
  every_attempt_fails MODEL_FALLBACK_CHAIN ->
  (1 <= maxRetries)%nat ->
  exists message st,
    generateWithRetry c prompt maxRetries
    = (Throw ("Failed to generate quiz with all models. Last error: " ++ message), st)
    /\ attempt_once c (List.last MODEL_FALLBACK_CHAIN "") prompt
         (List.length MODEL_FALLBACK_CHAIN * maxRetries - 1) = Throw message
    /\ calls st = (List.length MODEL_FALLBACK_CHAIN * maxRetries)%nat
    /\ generation_calls (trace st) = (List.length MODEL_FALLBACK_CHAIN * maxRetries)%nat.
Proof.
  intros Hfail Hmax.
  destruct (try_models_exhausted maxRetries MODEL_FALLBACK_CHAIN initial Hfail)
    as (st & R & C & G & L).
  specialize (L ltac:(discriminate) Hmax).
  destruct (Hfail (List.last MODEL_FALLBACK_CHAIN "") ltac:(simpl; tauto)) as [_ Hlast].
  destruct (Hlast (List.length MODEL_FALLBACK_CHAIN * maxRetries - 1)%nat) as [message E].
  exists message, st. unfold generateWithRetry. rewrite R.
  simpl calls in L. rewrite Nat.add_0_l in L. rewrite E in L. simpl in L. rewrite L.
  split; [reflexivity|]. split; [exact E|]. split; [exact C | exact G].
Qed.

End FallbackExhaustion.

Section FallbackExhaustionExamples.

Import Gemini.


(** Nine calls with the three attempts per model that [generateQuiz] asks for. *)
Lemma generateWithRetry_exhausted_witness :
  exists message st,
    generateWithRetry out_of_quota "prompt" 3
    = (Throw ("Failed to generate quiz with all models. Last error: " ++ message), st)
    /\ attempt_once out_of_quota (List.last MODEL_FALLBACK_CHAIN "") "prompt"
         (List.length MODEL_FALLBACK_CHAIN * 3 - 1) = Throw message
    /\ calls st = (List.length MODEL_FALLBACK_CHAIN * 3)%nat
    /\ generation_calls (trace st) = (List.length MODEL_FALLBACK_CHAIN * 3)%nat.
Proof.
  apply (generateWithRetry_exhausted out_of_quota "prompt" 3).
  - intros modelName _. split; [reflexivity|].
    intros call. eexists. reflexivity.
  - lia.
Defined.

Example generateWithRetry_out_of_quota :
  fst (generateWithRetry out_of_quota "prompt" 3)
  = Throw "Failed to generate quiz with all models. Last error: 429 quota exceeded (call 8)".
Proof. reflexivity. Qed.

Example generateWithRetry_out_of_quota_trace :
  trace (snd (generateWithRetry out_of_quota "prompt" 2))
  = [EvGenerate "gemini-2.0-flash" 1; EvWait 1000; EvGenerate "gemini-2.0-flash" 2;
     EvGenerate "gemini-2.5-pro" 1; EvWait 1000; EvGenerate "gemini-2.5-pro" 2;
     EvGenerate "gemini-2.5-flash" 1; EvWait 1000; EvGenerate "gemini-2.5-flash" 2].
Proof. reflexivity. Qed.

End FallbackExhaustionExamples.

(** ** Sorting by a numeric key ([Array.prototype.sort] with a difference) *)

Section SortFacts.

Context {A : Type}.
Variable key : A -> Z.

Let cmp (a b : A) : Z := key a - key b.
Let le_key (a b : A) : Prop := key a <= key b.

Lemma sort_insert_perm (f : A -> A -> Z) (x : A) (l : list A) :
  Permutation (Js.sort_insert f x l) (x :: l).
Proof.
  induction l as [|y l IH]; simpl; [reflexivity|].
  destruct (f x y <=? 0); [reflexivity|].
  rewrite IH. apply perm_swap.
Qed.

Lemma sort_perm (f : A -> A -> Z) (l : list A) : Permutation (Js.sort f l) l.
Proof.
  induction l as [|x l IH]; simpl; [reflexivity|].
  rewrite sort_insert_perm. now constructor.
Qed.

Lemma sort_insert_sorted (x : A) (l : list A) :
  StronglySorted le_key l -> StronglySorted le_key (Js.sort_insert cmp x l).
Proof.
  induction 1 as [|y l Hl IH Hy]; simpl.
  - repeat constructor.
  - unfold cmp at 1. destruct (Z.leb_spec (key x - key y) 0) as [Hle|Hgt].
    + constructor; [now constructor|].
      constructor; [unfold le_key; lia|].
      eapply Forall_impl; [|exact Hy]. unfold le_key. intros z Hz. lia.
    + constructor; [exact IH|].
      eapply Permutation_Forall; [symmetry; apply sort_insert_perm|].
      constructor; [unfold le_key; lia | exact Hy].
Qed.

Lemma sort_sorted (l : list A) : StronglySorted le_key (Js.sort cmp l).
Proof.
  induction l as [|x l IH]; simpl; [constructor | now apply sort_insert_sorted].
Qed.

(** An array already in order is left as it is. *)
Lemma sort_of_sorted (l : list A) : StronglySorted le_key l -> Js.sort cmp l = l.
Proof.
  induction 1 as [|x l Hl IH Hx]; simpl; [reflexivity|].
  rewrite IH. destruct l as [|y l']; [reflexivity|]. simpl.
  inversion Hx as [|? ? Hxy _]; subst. unfold cmp, le_key in *.
  destruct (Z.leb_spec (key x - key y) 0); [reflexivity | lia].
Qed.

End SortFacts.

(** ** The request boundary and the stages behind it *)

Section Boundary.

Import Generate.

(** The effective difficulty, [difficulty || 'medium']. *)
Definition effective_difficulty (difficulty : option string) : string :=
  match difficulty with
  | Some d => if String.eqb d "" then "medium" else d
  | None => "medium"
  end.

(** A request that passes every check of lines 25-93, with the values the
    handler goes on with. *)
Definition passes_validation (env : Env) (req : Request) (id : string)
    (bounds : option (Z * Z)) (numQuestions : Z) (quizDifficulty : string) : Prop :=
  method req = "POST"
  /\ bookId (body req) = Some id
  /\ id <> ""
  /\ isValidObjectId env id = true
  /\ numQuestions = or_default (numberOfQuestions (body req)) 5
  /\ 1 <= numQuestions <= 20
  /\ quizDifficulty = effective_difficulty (difficulty (body req))
  /\ In quizDifficulty ["easy"; "medium"; "hard"]
  /\ validatePageRange (pageRange (body req)) = Ok bounds.

Lemma handler_accepts env quizzes req id bounds numQuestions quizDifficulty :
  passes_validation env req id bounds numQuestions quizDifficulty ->
  handler env quizzes req = serve env quizzes id bounds numQuestions quizDifficulty.
Proof.
  intros (Hm & Hb & Hid & Hvalid & Hn & Hrange & Hd & Hin & Hpr).
  unfold handler. rewrite Hm, Hb. simpl.
  destruct (String.eqb_spec id "") as [->|_]; [contradiction|].
  rewrite Hvalid. simpl. rewrite <- Hn.
  replace (numQuestions <? 1) with false by (symmetry; apply Z.ltb_ge; lia).
  replace (numQuestions >? 20) with false by (symmetry; rewrite Z.gtb_ltb; apply Z.ltb_ge; lia).
  simpl. fold (effective_difficulty (difficulty (body req))). rewrite <- Hd.
  assert (E : List.existsb (String.eqb quizDifficulty) ["easy"; "medium"; "hard"] = true).
  { apply existsb_exists. exists quizDifficulty. split; [exact Hin | apply String.eqb_refl]. }
  simpl in E. rewrite E. simpl. now rewrite Hpr.
Qed.

(** A range that passed the check is the range that was sent. *)
Lemma validatePageRange_bounds pageRange s e :
  validatePageRange pageRange = Ok (Some (s, e)) ->
  pageRange = Some (range_of (s, e)) /\ 1 <= s <= e.
Proof.
  unfold validatePageRange. destruct pageRange as [[[s'|] [e'|]]|]; simpl; try discriminate.
  - destruct (s' =? 0) eqn:Hs0; simpl; [discriminate|].
    destruct (e' =? 0) eqn:He0; simpl; [discriminate|].
    destruct (s' <? 1) eqn:Hs1; simpl; [discriminate|].
    destruct (e' <? 1) eqn:He1; simpl; [discriminate|].
    unfold Js.gt, Js.lt. destruct (e' <? s') eqn:Hse; [discriminate|].
    intros H. injection H as <- <-. split; [reflexivity|].
    apply Z.ltb_ge in Hs1, Hse. lia.
  - destruct (s' =? 0); discriminate.
Qed.

Lemma findCachedQuiz_miss_store f now quizzes b r n d :
  fst (QuizCache.findCachedQuiz f now quizzes b r n d) = None ->
  QuizCache.findCachedQuiz f now quizzes b r n d = (None, quizzes).
Proof.
  unfold QuizCache.findCachedQuiz.
  destruct (Quiz.findOne f quizzes _) as [[q|]|m]; try reflexivity.
  destruct (Quiz.incrementUsage f now quizzes q) as [[q' s']|m]; [discriminate | reflexivity].
Qed.

End Boundary.

(** Checks a concrete request against [passes_validation]. *)
Ltac check_validation :=
  unfold passes_validation; simpl;
  repeat split; try reflexivity; try assumption; try discriminate; try lia; try tauto.

(** ** Range extraction ([extractTextFromPages] and the range check) *)

Section RangeExtraction.

Import Generate.

Definition in_range (s e : Z) (page : Page.t) : bool :=
  (Page.pageNumber page >=? s) && (Page.pageNumber page <=? e).

Definition ascending : list Page.t -> Prop :=
  StronglySorted (fun a b => Page.pageNumber a <= Page.pageNumber b).

(** The blank-line separator. *)
Definition blank_line : string := "

".

(** Exact selection, in the spec's words: the text is the concatenation,
    with blank lines between, of the texts of exactly the pages of the book
    numbered from [s] to [e], in ascending order. *)
Definition selects_exactly (book : Book.t) (s e : Z) (text : string) : Prop :=
  exists selected,
    text = join blank_line (List.map Page.text selected)
    /\ Permutation selected (List.filter (in_range s e) (Book.pages book))
    /\ ascending selected.

(** Range extraction as specified, for a request for pages [s] to [e] of
    the book sent to a working store and service: exact selection within
    the book, and a rejected request beyond it. *)
Definition range_extraction_as_specified (book : Book.t) (quizzes : Quiz.collection)
    (s e : Z) : Prop :=
  let env := sample_env book Quiz.no_faults in
  let req :=
    sample_request (Some {| start := Some s; end_ := Some e |}) (Some 5) (Some "medium") in
  forall total, Book.totalPages book = Some total ->
    (s <= e <= total -> exists text,
        extractTextFromPages book s e = Ok text /\ selects_exactly book s e text)
    /\ (total < e ->
        status (response (handler env quizzes req)) = 400%nat
        /\ generation_calls (events (handler env quizzes req)) = 0%nat).

Lemma in_range_spec s e page :
  in_range s e page = true <-> s <= Page.pageNumber page <= e.
Proof.
  unfold in_range. rewrite andb_true_iff, Z.geb_le, Z.leb_le. tauto.
Qed.

Lemma extractTextFromPages_pages book s e :
  Book.pages book <> [] ->
  extractTextFromPages book s e
  = Ok (join blank_line
          (List.map Page.text
             (Js.sort (fun a b => Page.pageNumber a - Page.pageNumber b)
                (List.filter (in_range s e) (Book.pages book))))).
Proof.
  intros H. unfold extractTextFromPages.
  destruct (Book.pages book) as [|p l]; [contradiction | reflexivity].
Qed.

(** C4 (as amended): for a book with per-page content the selected text is
    the blank-line-separated concatenation of the texts of exactly the pages
    numbered within the range, in ascending page order; and a request whose
    range ends beyond the book's pages, when no quiz is cached under its
    key, is answered 400 with the range message, without any generation
    call and without touching the quiz collection. *)
Theorem extractTextFromPages_range :
  (forall book s e,
      Book.pages book <> [] ->
      exists selected,
        extractTextFromPages book s e
        = Ok (join blank_line (List.map Page.text selected))
        /\ Permutation selected (List.filter (in_range s e) (Book.pages book))
        /\ ascending selected
        /\ forall page, In page selected <->
                        In page (Book.pages book) /\ s <= Page.pageNumber page <= e)
  /\ (forall env quizzes req id book s e total numQuestions quizDifficulty,
         passes_validation env req id (Some (s, e)) numQuestions quizDifficulty ->
         connectDB env = None ->
         Book_findById env id = Ok (Some book) ->
         Book.totalPages book = Some total ->
         total < e ->
         fst (QuizCache.findCachedQuiz (quiz_faults env) (now env) quizzes id
                (Some (range_of (s, e))) numQuestions quizDifficulty) = None ->
         response (handler env quizzes req)
         = {| status := 400;
              sent := Failure ("Page range exceeds book's total pages ("
                               ++ string_of_Z total ++ ")") None |}
         /\ generation_calls (events (handler env quizzes req)) = 0%nat
         /\ store (handler env quizzes req) = quizzes).
Proof.
  split.
  - intros book s e Hpages. eexists.
    split; [now apply extractTextFromPages_pages|].
    split; [apply sort_perm|].
    split; [apply (sort_sorted Page.pageNumber)|].
    intros page. rewrite <- in_range_spec, <- filter_In. split.
    + apply Permutation_in, sort_perm.
    + apply Permutation_in. symmetry. apply sort_perm.
  - intros env quizzes req id book s e total n d Hvalid Hconn Hbook Htotal Hlt Hmiss.
    rewrite (handler_accepts _ _ _ _ _ _ _ Hvalid).
    unfold serve. rewrite Hconn, Hbook.
    rewrite (findCachedQuiz_miss_store _ _ _ _ _ _ _ Hmiss).
    unfold generateNew, selectContent. rewrite Htotal.
    unfold Js.gt, Js.lt. rewrite (proj2 (Z.ltb_lt _ _) Hlt). simpl.
    repeat split.
Qed.

(** With the pages stored in ascending order, as the upload leaves them,
    the selection is the pages of the range in their stored order. *)
Lemma extractTextFromPages_stored_order book s e :
  Book.pages book <> [] ->
  ascending (Book.pages book) ->
  extractTextFromPages book s e
  = Ok (join blank_line
          (List.map Page.text (List.filter (in_range s e) (Book.pages book)))).
Proof.
  intros Hpages Hsorted. rewrite extractTextFromPages_pages by exact Hpages.
  rewrite (sort_of_sorted Page.pageNumber); [reflexivity|].
  clear Hpages. induction Hsorted as [|p l Hl IH Hp]; simpl; [constructor|].
  destruct (in_range s e p); [|exact IH].
  constructor; [exact IH|].
  rewrite Forall_forall in *. intros q Hq. apply Hp.
  now apply filter_In in Hq.
Qed.

End RangeExtraction.

(** ** What the stages of a request leave behind *)

Section Stages.

Import Generate.

(** The events of the generation stage. *)
Definition generation_event (e : event) : Prop :=
  match e with
  | EvGenerate _ _ | EvWait _ => True
  | _ => False
  end.

Definition outcome_state (o : Gemini.outcome) : Gemini.state :=
  match o with
  | Gemini.Returned _ st => st
  | Gemini.Exhausted st => st
  end.

Lemma try_attempts_events c modelName prompt maxRetries attempts st :
  Forall generation_event (Gemini.trace st) ->
  Forall generation_event
    (Gemini.trace (outcome_state
       (Gemini.try_attempts c modelName prompt maxRetries attempts st))).
Proof.
  revert st. induction attempts as [|attempt rest IH]; intros st H; simpl; [exact H|].
  destruct (Gemini.attempt_once c modelName prompt (Gemini.calls st)); simpl.
  - apply Forall_app. split; [exact H | now repeat constructor].
  - apply IH. simpl. destruct (attempt <? maxRetries)%nat;
      repeat (apply Forall_app; split); try exact H; now repeat constructor.
Qed.

Lemma try_models_events c prompt maxRetries models st :
  Forall generation_event (Gemini.trace st) ->
  Forall generation_event
    (Gemini.trace (outcome_state (Gemini.try_models c prompt maxRetries models st))).
Proof.
  revert st. induction models as [|modelName rest IH]; intros st H; simpl; [exact H|].
  destruct (Gemini.getGenerativeModel c modelName); [now apply IH|].
  pose proof (try_attempts_events c modelName prompt maxRetries
                (List.seq 1 maxRetries) st H) as H1.
  destruct (Gemini.try_attempts c modelName prompt maxRetries _ st); simpl in *;
    [exact H1 | now apply IH].
Qed.

Lemma generateQuiz_events c content numberOfQuestions difficulty :
  Forall generation_event
    (Gemini.trace (snd (Gemini.generateQuiz c content numberOfQuestions difficulty))).
Proof.
  unfold Gemini.generateQuiz.
  repeat match goal with
         | |- context [if ?b then _ else _] => destruct b; [constructor|]
         end.
  unfold Gemini.generateWithRetry.
  pose proof (try_models_events c
                (Gemini.createQuizPrompt content numberOfQuestions difficulty) 3
                Gemini.MODEL_FALLBACK_CHAIN Gemini.initial (Forall_nil _)) as H.
  destruct (Gemini.try_models c _ 3 Gemini.MODEL_FALLBACK_CHAIN Gemini.initial)
    as [questions st | st]; simpl in *; [exact H|].
  destruct (Gemini.lastError st); exact H.
Qed.

Lemma on_error_failure env message :
  exists code error details,
    on_error env message = {| status := code; sent := Failure error details |}.
Proof.
  unfold on_error.
  repeat match goal with
         | |- context [if includes ?a ?b then _ else _] => destruct (includes a b)
         end; eauto.
Qed.

(** The events the miss path adds: generation events, then at most one
    save, under the key of the range the quiz is recorded with. *)
Lemma generateNew_events env quizzes done book bounds actualPageRange n d :
  exists generated saved,
    events (generateNew env quizzes done book bounds actualPageRange n d)
    = (done ++ generated ++ saved)%list
    /\ Forall generation_event generated
    /\ (saved = []
        \/ exists count,
             saved = [EvSave (QuizCache.generateCacheKey (Book._id book)
                                (Some actualPageRange) count d)]).
Proof.
  unfold generateNew.
  destruct (selectContent book bounds) as [[rejected|contentText]|message]; simpl;
    try (exists [], []; rewrite app_nil_r; repeat split; [constructor | now left]).
  destruct (_ || _); simpl;
    [exists [], []; rewrite app_nil_r; repeat split; [constructor | now left]|].
  pose proof (generateQuiz_events (ai env)
                (text (truncateText contentText MAX_CHARS)) n d) as Hev.
  destruct (Gemini.generateQuiz (ai env) _ n d) as [[questions|message] st]; simpl in *.
  - destruct (QuizCache.saveQuizToCache _ _ _ _ _) as [[quiz quizzes']|message]; simpl;
      (eexists (Gemini.trace st), _; split; [now rewrite app_assoc|];
       split; [exact Hev | right; eexists; reflexivity]).
  - exists (Gemini.trace st), []. rewrite app_nil_r. repeat split; [exact Hev | now left].
Qed.

Lemma selectContent_rejected book bounds rejected :
  selectContent book bounds = Ok (inl rejected) ->
  exists error, rejected = {| status := 400; sent := Failure error None |}.
Proof.
  unfold selectContent. destruct bounds as [[s e]|].
  - destruct (Js.gt _ _).
    + intros H. injection H as <-. eauto.
    + destruct (extractTextFromPages book s e); discriminate.
  - destruct (0 <? _)%nat; [discriminate|]. destruct (Book.pdfText book); discriminate.
Qed.

(** A quiz answered as newly generated was recorded with the range the
    miss path was given, under the key of that range, as its first use. *)
Lemma generateNew_success env quizzes done book bounds actualPageRange n d
    quizId fromCache count message view :
  sent (response (generateNew env quizzes done book bounds actualPageRange n d))
  = Success quizId fromCache count message view ->
  fromCache = false
  /\ v_pageRange view = actualPageRange
  /\ exists quiz,
       store (generateNew env quizzes done book bounds actualPageRange n d)
       = (quizzes ++ [quiz])%list
       /\ Quiz.pageRange quiz = actualPageRange
       /\ Quiz.cacheKey quiz
          = QuizCache.generateCacheKey (Book._id book) (Some actualPageRange)
              (Quiz.numberOfQuestions quiz) d
       /\ Quiz.usageCount quiz = 1
       /\ Quiz._id quiz = quizId
       /\ Quiz.questions quiz = v_questions view
       /\ Quiz.numberOfQuestions quiz = v_numberOfQuestions view.
Proof.
  unfold generateNew.
  destruct (selectContent book bounds) as [[rejected|contentText]|msg] eqn:Hsel; simpl.
  - apply selectContent_rejected in Hsel as [error ->]. discriminate.
  - destruct (_ || _); [discriminate|].
    destruct (Gemini.generateQuiz (ai env) _ n d) as [[questions|msg] st]; simpl.
    + destruct (QuizCache.saveQuizToCache _ _ _ _ _) as [[quiz quizzes']|msg] eqn:Hsave;
        simpl.
      * intros H. injection H as <- <- _ _ <-. simpl.
        unfold QuizCache.saveQuizToCache, Quiz.save_new in Hsave.
        destruct (Quiz.insert_fault _ _); [discriminate|].
        destruct (List.existsb _ _); [discriminate|].
        simpl in Hsave. injection Hsave as <- <-. simpl.
        split; [reflexivity|]. split; [reflexivity|].
        eexists. repeat split.
      * destruct (on_error_failure env msg) as (code & error & details & ->). discriminate.
    + destruct (on_error_failure env msg) as (code & error & details & ->). discriminate.
  - destruct (on_error_failure env msg) as (code & error & details & ->). discriminate.
Qed.

End Stages.


(** ** The checks of the request boundary *)

Section BoundaryChecks.

Import Generate.




(** Scenario B: the range 10 to 5 is answered 400 before anything else is done. *)
Example handler_scenario_B :
  handler (sample_env sample_book Quiz.no_faults) []
    (sample_request (Some {| start := Some 10; end_ := Some 5 |}) (Some 5) (Some "medium"))
  = {| response :=
         {| status := 400;
            sent := Failure "start page must be less than or equal to end page" None |};
       store := []; events := [] |}.
Proof. reflexivity. Qed.

Lemma serve_connects env quizzes id bounds n d :
  exists rest, events (serve env quizzes id bounds n d) = EvConnect :: rest.
Proof.
  unfold serve. destruct (connectDB env); [simpl; eauto|].
  destruct (Book_findById env id) as [[book|]|message]; simpl; eauto.
  destruct (QuizCache.findCachedQuiz _ _ _ _ _ _ _) as [[q|] quizzes']; simpl; eauto.
  destruct (generateNew_events env quizzes'
              [EvConnect; EvFindBook id;
               EvCacheLookup
                 (QuizCache.generateCacheKey id
                    (Some match bounds with
                          | Some b => range_of b
                          | None => {| start := Some 1; end_ := Book.totalPages book |}
                          end) n d)]
              book bounds
              match bounds with
              | Some b => range_of b
              | None => {| start := Some 1; end_ := Book.totalPages book |}
              end n d) as (generated & saved & E & _).
  rewrite E. simpl. eauto.
Qed.

(** C7, at the input the boundary lets through: a request asking for 0
    questions is not rejected; it is served as a request for 5 questions,
    starting with the connection to the store. *)
Theorem handler_zero_questions env quizzes id :
  id <> "" ->
  isValidObjectId env id = true ->
  let req :=
    {| method := "POST";
       body := {| bookId := Some id; pageRange := None;
                  numberOfQuestions := Some 0; difficulty := Some "easy" |} |} in
  handler env quizzes req = serve env quizzes id None 5 "easy"
  /\ exists rest, events (handler env quizzes req) = EvConnect :: rest.
Proof.
  intros Hid Hvalid req.
  assert (E : handler env quizzes req = serve env quizzes id None 5 "easy").
  { apply handler_accepts. unfold req. check_validation. }
  split; [exact E|]. rewrite E. apply serve_connects.
Qed.

Lemma handler_zero_questions_witness :
  handler (sample_env sample_book Quiz.no_faults) []
    (sample_request None (Some 0) (Some "easy"))
  = serve (sample_env sample_book Quiz.no_faults) [] sample_id None 5 "easy".
Proof.
  refine (proj1 (handler_zero_questions (sample_env sample_book Quiz.no_faults) []
                   sample_id _ _)).
  - discriminate.
  - reflexivity.
Defined.

(** The same request is answered with a generated quiz. *)
Example handler_zero_questions_served :
  status (response (handler (sample_env sample_book Quiz.no_faults) []
                      (sample_request None (Some 0) (Some "easy")))) = 200%nat.
Proof. vm_compute. reflexivity. Qed.

(** An empty difficulty is served as [medium] in the same way. *)
Lemma handler_empty_difficulty env quizzes id :
  id <> "" ->
  isValidObjectId env id = true ->
  handler env quizzes
    {| method := "POST";
       body := {| bookId := Some id; pageRange := None;
                  numberOfQuestions := Some 5; difficulty := Some "" |} |}
  = serve env quizzes id None 5 "medium".
Proof.
  intros Hid Hvalid. apply handler_accepts. check_validation.
Qed.

End BoundaryChecks.

(** ** Store errors during the cache lookup *)

Section LookupDegradation.

Import Generate.

(** The range a request is looked up and recorded with. *)
Definition actual_range (book : Book.t) (bounds : option (Z * Z)) : PageRange :=
  match bounds with
  | Some b => range_of b
  | None => {| start := Some 1; end_ := Book.totalPages book |}
  end.

Definition lookup_events (id : string) (book : Book.t) (bounds : option (Z * Z))
    (n : Z) (d : string) : list event :=
  [EvConnect; EvFindBook id;
   EvCacheLookup (QuizCache.generateCacheKey id (Some (actual_range book bounds)) n d)].

Lemma serve_miss env quizzes id bounds n d book :
  connectDB env = None ->
  Book_findById env id = Ok (Some book) ->
  fst (QuizCache.findCachedQuiz (quiz_faults env) (now env) quizzes id
         (Some (actual_range book bounds)) n d) = None ->
  serve env quizzes id bounds n d
  = generateNew env quizzes (lookup_events id book bounds n d) book bounds
      (actual_range book bounds) n d.
Proof.
  intros Hconn Hbook Hmiss. unfold serve. rewrite Hconn, Hbook.
  fold (actual_range book bounds).
  now rewrite (findCachedQuiz_miss_store _ _ _ _ _ _ _ Hmiss).
Qed.

(** C8: whatever error the store raises during the lookup, be it while
    finding the quiz or while writing its use back, [findCachedQuiz]
    answers [null] and leaves the collection as it was; the request then
    takes the very path of a cache miss. *)
Theorem lookup_error_is_miss env quizzes req id bounds n d book :
  Quiz.findOne_fault (quiz_faults env) <> None
  \/ Quiz.update_fault (quiz_faults env) <> None ->
  passes_validation env req id bounds n d ->
  connectDB env = None ->
  Book_findById env id = Ok (Some book) ->
  QuizCache.findCachedQuiz (quiz_faults env) (now env) quizzes id
    (Some (actual_range book bounds)) n d = (None, quizzes)
  /\ handler env quizzes req
     = generateNew env quizzes (lookup_events id book bounds n d) book bounds
         (actual_range book bounds) n d.
Proof.
  intros Hfault Hvalid Hconn Hbook.
  pose proof (findCachedQuiz_fault (quiz_faults env) (now env) quizzes id
                (Some (actual_range book bounds)) n d Hfault) as Hnone.
  split; [exact Hnone|].
  rewrite (handler_accepts _ _ _ _ _ _ _ Hvalid).
  apply serve_miss; [exact Hconn | exact Hbook | now rewrite Hnone].
Qed.


Lemma lookup_error_is_miss_witness :
  handler (sample_env sample_book lookup_down) []
    (sample_request None (Some 5) (Some "medium"))
  = generateNew (sample_env sample_book lookup_down) []
      (lookup_events sample_id sample_book None 5 "medium") sample_book None
      (actual_range sample_book None) 5 "medium".
Proof.
  refine (proj2 (lookup_error_is_miss (sample_env sample_book lookup_down) []
                   (sample_request None (Some 5) (Some "medium"))
                   sample_id None 5 "medium" sample_book _ _ _ _)).
  - left. discriminate.
  - check_validation.
  - reflexivity.
  - reflexivity.
Defined.

(** With the lookup failing, the request still ends with a generated quiz. *)
Example lookup_error_still_generates :
  let out := handler (sample_env sample_book lookup_down) []
               (sample_request None (Some 5) (Some "medium")) in
  status (response out) = 200%nat
  /\ events out
     = [EvConnect; EvFindBook sample_id;
        EvCacheLookup "64f0c0ffee64f0c0ffee64f0-1-3-5-medium";
        EvGenerate "gemini-2.0-flash" 1;
        EvSave "64f0c0ffee64f0c0ffee64f0-1-3-1-medium"].
Proof. vm_compute. split; reflexivity. Qed.

End LookupDegradation.

(** ** The key of a whole-book request *)

Section WholeBookKey.

Import Generate.

Lemma string_of_Z_inj (a b : Z) : string_of_Z a = string_of_Z b -> a = b.
Proof.
  unfold string_of_Z. intros H.
  apply (f_equal NilEmpty.int_of_string) in H.
  rewrite !NilEmpty.isi in H. injection H as H.
  now apply DecimalZ.to_int_inj.
Qed.

(** Two keys that differ in the end of the range only are equal exactly
    when the normalized ends are. *)
Lemma generateCacheKey_end_inj b s e1 e2 n d :
  QuizCache.generateCacheKey b (Some {| start := s; end_ := e1 |}) n d
  = QuizCache.generateCacheKey b (Some {| start := s; end_ := e2 |}) n d ->
  or_default e1 1 = or_default e2 1.
Proof.
  unfold QuizCache.generateCacheKey. cbv zeta. cbn [start end_]. intros H.
  do 4 apply append_inv_head in H.
  apply append_inv_tail in H. now apply string_of_Z_inj.
Qed.

(** The keys looked up during a request. *)
Definition lookup_keys (tr : list event) : list string :=
  List.flat_map (fun e => match e with EvCacheLookup key => [key] | _ => [] end) tr.

(** The keys under which a save was attempted. *)
Definition save_keys (tr : list event) : list string :=
  List.flat_map (fun e => match e with EvSave key => [key] | _ => [] end) tr.

Definition one_to_one : PageRange := {| start := Some 1; end_ := Some 1 |}.

(** The request was answered with a quiz taken from the cache
    ([fromCache: true]). *)
Definition answered_from_cache (out : Outcome) : Prop :=
  exists quizId count message view,
    sent (response out) = Success quizId true count message view.

(** [key] is the key a request is looked up under: whatever the collection
    holds, the request is answered from the cache exactly when a quiz is
    stored under [key]. *)
Definition effective_key (env : Env) (req : Request) (key : string) : Prop :=
  forall quizzes : Quiz.collection,
    answered_from_cache (handler env quizzes req) <-> stored_under quizzes key <> None.

(** The difference of keys as specified: for a book whose page count is
    not 1, the key a whole-book request is looked up under is not the key
    of the range 1 to 1. *)
Definition whole_book_key_as_specified (env : Env) (id : string) (n : Z) (d : string)
  : Prop :=
  forall req book key,
    passes_validation env req id None n d ->
    Book_findById env id = Ok (Some book) ->
    Book.totalPages book <> Some 1 ->
    effective_key env req key ->
    key <> QuizCache.generateCacheKey id (Some one_to_one) n d.

Lemma lookup_keys_app a b : lookup_keys (a ++ b) = (lookup_keys a ++ lookup_keys b)%list.
Proof. apply flat_map_app. Qed.

Lemma save_keys_app a b : save_keys (a ++ b) = (save_keys a ++ save_keys b)%list.
Proof. apply flat_map_app. Qed.

Lemma generation_events_keys tr :
  Forall generation_event tr -> lookup_keys tr = [] /\ save_keys tr = [].
Proof.
  induction 1 as [|e tr He _ [IH1 IH2]]; [now split|].
  destruct e; simpl in *; try contradiction; now split.
Qed.

(** The miss path never answers from the cache. *)
Lemma generateNew_not_from_cache env quizzes done book bounds r n d :
  ~ answered_from_cache (generateNew env quizzes done book bounds r n d).
Proof.
  intros (quizId & count & message & view & H).
  apply generateNew_success in H as [H _]. discriminate.
Qed.

(** A quiz stored under the key of the request's range is what the request
    is answered with. *)
Lemma serve_hit env quizzes id bounds n d book q :
  connectDB env = None ->
  Book_findById env id = Ok (Some book) ->
  Quiz.findOne_fault (quiz_faults env) = None ->
  Quiz.update_fault (quiz_faults env) = None ->
  stored_under quizzes
    (QuizCache.generateCacheKey id (Some (actual_range book bounds)) n d) = Some q ->
  let out := serve env quizzes id bounds n d in
  (exists view,
      response out
      = {| status := 200;
           sent := Success (Quiz._id q) true (Quiz.usageCount q + 1)
                     "Quiz retrieved from cache" view |}
      /\ v_id view = Quiz._id q
      /\ v_pageRange view = Quiz.pageRange q
      /\ v_questions view = Quiz.questions q)
  /\ store out = written_back quizzes (used (now env) q)
  /\ events out = lookup_events id book bounds n d.
Proof.
  intros Hconn Hbook F1 F2 Hq. cbv zeta. unfold serve. rewrite Hconn, Hbook.
  fold (actual_range book bounds).
  rewrite (findCachedQuiz_no_fault _ _ _ _ _ _ _ _ F1 F2 Hq).
  cbn [response store events]. split; [|split; reflexivity].
  eexists. split; [reflexivity|]. now repeat split.
Qed.

(** Without a store error, the key of the request's range is the key the
    request is looked up under. *)
Lemma handler_effective_key env req id bounds n d book :
  passes_validation env req id bounds n d ->
  connectDB env = None ->
  Book_findById env id = Ok (Some book) ->
  Quiz.findOne_fault (quiz_faults env) = None ->
  Quiz.update_fault (quiz_faults env) = None ->
  effective_key env req
    (QuizCache.generateCacheKey id (Some (actual_range book bounds)) n d).
Proof.
  intros Hvalid Hconn Hbook F1 F2 quizzes.
  rewrite (handler_accepts _ _ _ _ _ _ _ Hvalid).
  destruct (stored_under quizzes
              (QuizCache.generateCacheKey id (Some (actual_range book bounds)) n d))
    as [q|] eqn:Hq.
  - split; [discriminate|]. intros _.
    destruct (serve_hit env quizzes id bounds n d book q Hconn Hbook F1 F2 Hq)
      as [(view & Hresp & _) _].
    unfold answered_from_cache. rewrite Hresp. cbn [sent]. now eexists _, _, _, _.
  - split; [|congruence]. intros Hhit. exfalso.
    assert (Hmiss : fst (QuizCache.findCachedQuiz (quiz_faults env) (now env) quizzes id
                           (Some (actual_range book bounds)) n d) = None).
    { unfold QuizCache.findCachedQuiz, Quiz.findOne. rewrite F1.
      unfold stored_under in Hq. now rewrite Hq. }
    rewrite (serve_miss _ _ _ _ _ _ _ Hconn Hbook Hmiss) in Hhit.
    now apply generateNew_not_from_cache in Hhit.
Qed.

(** A collection that holds quizzes of one key only holds none under
    another key. *)
Lemma stored_under_other_key (quizzes : Quiz.collection) (held key : string) :
  (forall o, In o quizzes -> Quiz.cacheKey o = held) ->
  key <> held ->
  stored_under quizzes key = None.
Proof.
  intros Hheld Hne. unfold stored_under.
  destruct (List.find _ quizzes) as [o|] eqn:Hfind; [|reflexivity].
  apply find_some in Hfind as [Hin Heq]. apply String.eqb_eq in Heq.
  rewrite (Hheld o Hin) in Heq. congruence.
Qed.

(** C10 (as amended): a request without a page range is looked up and
    recorded with the range 1 to [totalPages].  Without a store error it is
    answered from the cache exactly when the collection holds a quiz under
    the key of that range, and then with that quiz, used once more; its
    trace names that key and no other; any quiz it records carries that
    range and the key of that range; for a page count other than 0 and 1
    that key differs from the key of the range 1 to 1, and a collection
    that holds quizzes of the range 1 to 1 only does not answer the
    request. *)
Theorem whole_book_key env quizzes req id n d book :
  passes_validation env req id None n d ->
  connectDB env = None ->
  Book_findById env id = Ok (Some book) ->
  let whole := {| start := Some 1; end_ := Book.totalPages book |} in
  let key := QuizCache.generateCacheKey id (Some whole) n d in
  let out := handler env quizzes req in
  (Quiz.findOne_fault (quiz_faults env) = None ->
   Quiz.update_fault (quiz_faults env) = None ->
   effective_key env req key
   /\ forall q, stored_under quizzes key = Some q ->
        (exists view,
            response out
            = {| status := 200;
                 sent := Success (Quiz._id q) true (Quiz.usageCount q + 1)
                           "Quiz retrieved from cache" view |}
            /\ v_id view = Quiz._id q
            /\ v_pageRange view = Quiz.pageRange q
            /\ v_questions view = Quiz.questions q)
        /\ store out = written_back quizzes (used (now env) q))
  /\ lookup_keys (events out) = [key]
  /\ (forall saved, In saved (save_keys (events out)) ->
        exists count,
          saved = QuizCache.generateCacheKey (Book._id book) (Some whole) count d)
  /\ (forall quizId count message view,
        sent (response out) = Success quizId false count message view ->
        v_pageRange view = whole
        /\ exists quiz,
             store out = (quizzes ++ [quiz])%list
             /\ Quiz.pageRange quiz = whole
             /\ Quiz.cacheKey quiz
                = QuizCache.generateCacheKey (Book._id book) (Some whole)
                    (Quiz.numberOfQuestions quiz) d)
  /\ (forall total, Book.totalPages book = Some total -> total <> 0 -> total <> 1 ->
        key <> QuizCache.generateCacheKey id (Some one_to_one) n d
        /\ ((forall o, In o quizzes ->
               Quiz.cacheKey o = QuizCache.generateCacheKey id (Some one_to_one) n d) ->
            ~ answered_from_cache out)).
Proof.
  intros Hvalid Hconn Hbook whole key out.
  assert (Hout : out = serve env quizzes id None n d)
    by (apply handler_accepts; exact Hvalid).
  assert (Hcases :
    (exists q quizzes',
        QuizCache.findCachedQuiz (quiz_faults env) (now env) quizzes id
          (Some whole) n d = (Some q, quizzes')
        /\ events out = lookup_events id book None n d
        /\ exists view, sent (response out)
                        = Success (Quiz._id q) true (Quiz.usageCount q)
                            "Quiz retrieved from cache" view)
    \/ out = generateNew env quizzes (lookup_events id book None n d) book None
               whole n d).
  { rewrite Hout. unfold serve. rewrite Hconn, Hbook. fold whole.
    destruct (QuizCache.findCachedQuiz _ _ _ _ _ _ _) as [[q|] quizzes'] eqn:Hfind.
    - left. exists q, quizzes'. simpl. repeat split. eauto.
    - right.
      pose proof (findCachedQuiz_miss_store (quiz_faults env) (now env) quizzes id
                    (Some whole) n d) as Hm.
      rewrite Hfind in Hm. specialize (Hm eq_refl). now injection Hm as ->. }
  assert (Hdiffer : forall total, Book.totalPages book = Some total ->
                      total <> 0 -> total <> 1 ->
                      key <> QuizCache.generateCacheKey id (Some one_to_one) n d).
  { intros total Htotal H0 H1 Heq. unfold key, whole, one_to_one in Heq.
    apply generateCacheKey_end_inj in Heq. rewrite Htotal in Heq. simpl in Heq.
    destruct (Z.eqb_spec total 0); congruence. }
  split; [|split; [|split; [|split]]].
  - intros F1 F2.
    split; [exact (handler_effective_key env req id None n d book Hvalid Hconn Hbook F1 F2)|].
    intros q Hq. rewrite Hout.
    destruct (serve_hit env quizzes id None n d book q Hconn Hbook F1 F2 Hq)
      as (Hresp & Hstore & _).
    split; [exact Hresp | exact Hstore].
  - destruct Hcases as [(q & quizzes' & _ & Hev & _) | Hmiss].
    + now rewrite Hev.
    + rewrite Hmiss.
      destruct (generateNew_events env quizzes (lookup_events id book None n d) book None
                  whole n d) as (generated & saved & E & Hgen & Hsaved).
      rewrite E, !lookup_keys_app.
      rewrite (proj1 (generation_events_keys _ Hgen)).
      destruct Hsaved as [-> | [count ->]]; reflexivity.
  - intros saved Hkey. destruct Hcases as [(q & quizzes' & _ & Hev & _) | Hmiss].
    + rewrite Hev in Hkey. contradiction.
    + rewrite Hmiss in Hkey.
      destruct (generateNew_events env quizzes (lookup_events id book None n d) book None
                  whole n d) as (generated & saved' & E & Hgen & Hsaved).
      rewrite E, !save_keys_app in Hkey.
      rewrite (proj2 (generation_events_keys _ Hgen)) in Hkey. simpl in Hkey.
      destruct Hsaved as [-> | [count ->]]; simpl in Hkey; [contradiction|].
      destruct Hkey as [<-|[]]. now exists count.
  - intros quizId count message view Hsent.
    destruct Hcases as [(q & quizzes' & _ & _ & view' & Hhit) | Hmiss].
    + rewrite Hhit in Hsent. discriminate.
    + rewrite Hmiss in Hsent |- *.
      destruct (generateNew_success _ _ _ _ _ _ _ _ _ _ _ _ _ Hsent)
        as (_ & Hview & quiz & Hstore & Hrange & Hkey & _).
      split; [exact Hview|]. exists quiz. now repeat split.
  - intros total Htotal H0 H1.
    pose proof (Hdiffer total Htotal H0 H1) as Hne. split; [exact Hne|].
    intros Hheld Hhit.
    pose proof (stored_under_other_key quizzes _ key Hheld Hne) as Hnone.
    assert (Hmiss : fst (QuizCache.findCachedQuiz (quiz_faults env) (now env) quizzes id
                           (Some (actual_range book None)) n d) = None).
    { unfold QuizCache.findCachedQuiz, Quiz.findOne.
      destruct (Quiz.findOne_fault (quiz_faults env)); [reflexivity|].
      unfold stored_under in Hnone. unfold actual_range. fold whole. fold key.
      now rewrite Hnone. }
    rewrite Hout, (serve_miss _ _ _ _ _ _ _ Hconn Hbook Hmiss) in Hhit.
    now apply generateNew_not_from_cache in Hhit.
Qed.

End WholeBookKey.

Section WholeBookKeyExamples.

Import Generate.

(** A quiz of the sample book recorded for pages 1 to [last], five
    questions of medium difficulty. *)
Definition recorded_quiz (quizId : string) (last : Z) : Quiz.t :=
  {| Quiz._id := quizId; Quiz.bookId := sample_id;
     Quiz.title := "Sample - Pages 1-" ++ string_of_Z last;
     Quiz.generatedDate := 100;
     Quiz.pageRange := {| start := Some 1; end_ := Some last |};
     Quiz.questions :=
       [sample_question "A"; sample_question "B"; sample_question "C";
        sample_question "D"; sample_question "A"];
     Quiz.difficulty := "medium"; Quiz.numberOfQuestions := 5;
     Quiz.cacheKey :=
       QuizCache.generateCacheKey sample_id
         (Some {| start := Some 1; end_ := Some last |}) 5 "medium";
     Quiz.usageCount := 1; Quiz.lastUsedAt := 100; Quiz.generatedBy := "gemini" |}.

(** The collection holds a quiz of pages 1 to 1 and one of pages 1 to 3 of
    the three-page book: the whole-book request is answered with the
    second, and only that one is written back. *)
Lemma whole_book_key_witness :
  let out := handler (sample_env sample_book Quiz.no_faults)
               [recorded_quiz "q11" 1; recorded_quiz "q13" 3]
               (sample_request None (Some 5) (Some "medium")) in
  (exists view,
      response out
      = {| status := 200;
           sent := Success "q13" true 2 "Quiz retrieved from cache" view |}
      /\ v_id view = "q13"
      /\ v_pageRange view = {| start := Some 1; end_ := Some 3 |}
      /\ v_questions view = Quiz.questions (recorded_quiz "q13" 3))
  /\ store out = [recorded_quiz "q11" 1; used 1000 (recorded_quiz "q13" 3)].
Proof.
  refine (proj2 (proj1 (whole_book_key (sample_env sample_book Quiz.no_faults)
                          [recorded_quiz "q11" 1; recorded_quiz "q13" 3]
                          (sample_request None (Some 5) (Some "medium"))
                          sample_id 5 "medium" sample_book _ _ _) _ _)
            (recorded_quiz "q13" 3) _).
  - check_validation.
  - reflexivity.
  - reflexivity.
  - reflexivity.
  - reflexivity.
  - reflexivity.
Defined.

(** C10 as specified fails for a book whose record counts no page: 0 is
    not 1, yet the whole-book request is looked up under the key of the
    range 1 to 1. *)
Lemma whole_book_key_zero_pages :
  ~ whole_book_key_as_specified (sample_env empty_book Quiz.no_faults) sample_id 5
      "medium".
Proof.
  intros H.
  apply (H (sample_request None (Some 5) (Some "medium")) empty_book
           (QuizCache.generateCacheKey sample_id (Some one_to_one) 5 "medium")).
  - check_validation.
  - reflexivity.
  - discriminate.
  - exact (handler_effective_key (sample_env empty_book Quiz.no_faults)
             (sample_request None (Some 5) (Some "medium")) sample_id None 5 "medium"
             empty_book ltac:(check_validation) eq_refl eq_refl eq_refl eq_refl).
  - reflexivity.
Qed.

(** The collision at work: for the book without pages, the quiz recorded
    for pages 1 to 1 answers the whole-book request. *)
Example whole_book_hit_zero_pages :
  let out := handler (sample_env empty_book Quiz.no_faults) [recorded_quiz "q11" 1]
               (sample_request None (Some 5) (Some "medium")) in
  (exists view,
      sent (response out) = Success "q11" true 2 "Quiz retrieved from cache" view
      /\ v_pageRange view = one_to_one)
  /\ events out
     = [EvConnect; EvFindBook sample_id;
        EvCacheLookup "64f0c0ffee64f0c0ffee64f0-1-1-5-medium"].
Proof. vm_compute. split; [eexists; split; reflexivity | reflexivity]. Qed.

(** With three pages, the same collection does not answer it. *)
Example whole_book_miss_three_pages :
  let out := handler (sample_env sample_book Quiz.no_faults) [recorded_quiz "q11" 1]
               (sample_request None (Some 5) (Some "medium")) in
  exists view,
    sent (response out) = Success "quiz-1" false 1 "Quiz generated successfully" view
    /\ v_pageRange view = {| start := Some 1; end_ := Some 3 |}.
Proof. vm_compute. eexists; split; reflexivity. Qed.

(** The trace of the whole-book request for the book without pages names
    the key of the range 1 to 1. *)
Example whole_book_lookup_zero_pages :
  lookup_keys (events (handler (sample_env empty_book Quiz.no_faults) []
                         (sample_request None (Some 5) (Some "medium"))))
  = ["64f0c0ffee64f0c0ffee64f0-1-1-5-medium"].
Proof. vm_compute. reflexivity. Qed.

End WholeBookKeyExamples.

(** ** Range extraction: examples *)

Section RangeExtractionExamples.

Import Generate.

Example extractTextFromPages_sample :
  extractTextFromPages sample_book 1 2 = Ok ("first page" ++ blank_line ++ "second page").
Proof. reflexivity. Qed.

Example extractTextFromPages_legacy :
  extractTextFromPages legacy_book 1 1 = Ok "hello ".
Proof. reflexivity. Qed.


(** Pages 1 to 2 of the three-page sample book, and pages 1 to 9 of it. *)
Lemma extractTextFromPages_range_witness :
  (exists selected,
      extractTextFromPages sample_book 1 2
      = Ok (join blank_line (List.map Page.text selected))
      /\ Permutation selected (List.filter (in_range 1 2) (Book.pages sample_book))
      /\ ascending selected
      /\ forall page, In page selected <->
                      In page (Book.pages sample_book) /\ 1 <= Page.pageNumber page <= 2)
  /\ (response (handler (sample_env sample_book Quiz.no_faults) [] beyond_request)
      = {| status := 400;
           sent := Failure ("Page range exceeds book's total pages ("
                            ++ string_of_Z 3 ++ ")") None |}
      /\ generation_calls
           (events (handler (sample_env sample_book Quiz.no_faults) [] beyond_request))
         = 0%nat
      /\ store (handler (sample_env sample_book Quiz.no_faults) [] beyond_request) = []).
Proof.
  split.
  - apply (proj1 extractTextFromPages_range). discriminate.
  - apply (proj2 extractTextFromPages_range (sample_env sample_book Quiz.no_faults) []
             beyond_request sample_id sample_book 1 9 3 5 "medium").
    + check_validation.
    + reflexivity.
    + reflexivity.
    + reflexivity.
    + lia.
    + reflexivity.
Defined.

(** C4 as specified fails in two places.  For a book with the legacy full
    text only, the selection is a slice of that text estimated from the
    page count, not the text of pages.  And a request beyond the book's
    pages is answered from the cache when the collection already holds a
    quiz under its key: the range is checked after the cache. *)
Lemma range_extraction_legacy_and_cached :
  ~ range_extraction_as_specified legacy_book [] 1 1
  /\ ~ range_extraction_as_specified sample_book [stale_quiz] 1 9.
Proof.
  split.
  - intros H. destruct (H 2 eq_refl) as [H1 _].
    destruct (H1 ltac:(lia)) as (text & Htext & selected & Hjoin & Hperm & _).
    simpl in Hperm. apply Permutation_sym, Permutation_nil in Hperm. subst selected.
    rewrite extractTextFromPages_legacy in Htext. injection Htext as <-. discriminate.
  - intros H. destruct (H 3 eq_refl) as [_ H2].
    destruct (H2 ltac:(lia)) as [Hstatus _].
    vm_compute in Hstatus. discriminate.
Qed.

Example beyond_request_served_from_cache :
  status (response (handler (sample_env sample_book Quiz.no_faults) [stale_quiz]
                      beyond_request)) = 200%nat.
Proof. vm_compute. reflexivity. Qed.

End RangeExtractionExamples.

(** ** Validation of the model's response ([parseQuizResponse]) *)

Section ResponseValidation.

Import Gemini.

Definition option_labels : list string := ["A"; "B"; "C"; "D"].

(** The Question invariant in the spec's words: four options, and a
    [correctAnswer] that is the label of exactly one of them, the options
    being labelled A to D in order. *)
Definition question_invariant (q : json) : Prop :=
  exists options answer,
    get_prop q "options" = Ok (Some (JArray options))
    /\ List.length options = 4%nat
    /\ get_prop q "correctAnswer" = Ok (Some (JString answer))
    /\ exists! i, (i < List.length options)%nat
                  /\ List.nth_error option_labels i = Some answer.

Definition invariant_as_specified (parse : string -> result json) (text : string) : Prop :=
  forall questions,
    parseQuizResponse parse text = Ok questions -> Forall question_invariant questions.

(** What the validation does check of a question. *)
Definition validated_question (q : json) : Prop :=
  exists fields question options correctAnswer explanation,
    q = JObject fields
    /\ lookup "question" fields = Some (JString question) /\ question <> ""
    /\ lookup "options" fields = Some (JArray options) /\ List.length options = 4%nat
    /\ lookup "correctAnswer" fields = Some (JString correctAnswer) /\ correctAnswer <> ""
    /\ lookup "explanation" fields = Some (JString explanation) /\ explanation <> "".

Lemma nonempty_string_checked (v : option json) :
  negb (truthy_json v) || negb (is_string v) = false ->
  exists s, v = Some (JString s) /\ s <> "".
Proof.
  destruct v as [[]|]; simpl; rewrite ?orb_true_r; try discriminate.
  intros H. apply orb_false_iff in H. destruct H as [H _].
  apply negb_false_iff, negb_true_iff in H. eexists. split; [reflexivity|].
  now apply String.eqb_neq.
Qed.

Lemma four_options_checked (v : option json) :
  negb (isArray v) || negb (array_length v =? 4) = false ->
  exists options, v = Some (JArray options) /\ List.length options = 4%nat.
Proof.
  destruct v as [[]|]; simpl; try discriminate.
  intros H. apply negb_false_iff, Z.eqb_eq in H. eexists. split; [reflexivity | lia].
Qed.

Lemma validateQuestion_ok (q : json) (index : nat) :
  validateQuestion q index = Ok tt -> validated_question q.
Proof.
  unfold validateQuestion.
  destruct q as [| | | | |fields]; simpl; try discriminate;
    try (rewrite ?orb_true_r; discriminate).
  destruct (negb (truthy_json (lookup "question" fields)) || _) eqn:H1; [discriminate|].
  destruct (negb (isArray (lookup "options" fields)) || _) eqn:H2; [discriminate|].
  destruct (negb (truthy_json (lookup "correctAnswer" fields)) || _) eqn:H3; [discriminate|].
  destruct (negb (truthy_json (lookup "explanation" fields)) || _) eqn:H4; [discriminate|].
  intros _.
  apply nonempty_string_checked in H1, H3, H4. apply four_options_checked in H2.
  destruct H1 as (question & E1 & N1), H2 as (options & E2 & N2),
           H3 as (answer & E3 & N3), H4 as (explanation & E4 & N4).
  exists fields, question, options, answer, explanation. now repeat split.
Qed.

Lemma forEach_validate_ok (questions : list json) (index : nat) :
  forEach_validate questions index = Ok tt -> Forall validated_question questions.
Proof.
  revert index. induction questions as [|q rest IH]; intros index; simpl; [constructor|].
  destruct (validateQuestion q index) as [[]|message] eqn:Hq; simpl; [|discriminate].
  intros Hrest. constructor; [now apply (validateQuestion_ok q index) | now apply (IH (S index))].
Qed.

(** C6 (as amended): every question of the sequence [parseQuizResponse]
    returns is an object with a non-empty string [question], exactly four
    [options], a non-empty string [correctAnswer] and a non-empty string
    [explanation].  That the answer is one of the labels A to D is not
    checked. *)
Theorem parseQuizResponse_validated (parse : string -> result json) (text : string)
    (questions : list json) :
  parseQuizResponse parse text = Ok questions ->
  Forall validated_question questions.
Proof.
  unfold parseQuizResponse.
  match goal with |- context [parse ?cleaned] => destruct (parse cleaned) as [data|m] end;
    simpl; [|discriminate].
  destruct (get_prop data "questions") as [found|m]; simpl; [|discriminate].
  destruct (negb (truthy_json found) || negb (isArray found)); [discriminate|].
  destruct found as [[| | | |items|]|]; try discriminate.
  destruct (forEach_validate items 0) as [[]|m] eqn:Hall; simpl; [|discriminate].
  intros H. injection H as <-. now apply (forEach_validate_ok items 0).
Qed.

Lemma parseQuizResponse_validated_witness :
  Forall validated_question [sample_question "A"].
Proof.
  apply (parseQuizResponse_validated (JSON_parse (answering "A")) "{ the response }").
  reflexivity.
Defined.

(** C6 as specified fails on a response whose [correctAnswer] is the
    string E: it passes the validation. *)
Lemma parseQuizResponse_accepts_unknown_label :
  ~ invariant_as_specified (JSON_parse (answering "E")) "{ the response }".
Proof.
  intros H. specialize (H [sample_question "E"] eq_refl).
  inversion H as [|q l Hq _]; subst.
  destruct Hq as (options & answer & _ & _ & Hanswer & i & [_ Hlabel] & _).
  simpl in Hanswer. injection Hanswer as <-.
  destruct i as [|[|[|[|[|i]]]]]; simpl in Hlabel; discriminate.
Qed.

(** Fences around the response are removed before parsing; the line
    break before the closing fence stays. *)
Example parseQuizResponse_strips_fences :
  parseQuizResponse
    (fun cleaned =>
       if String.eqb cleaned "{ the response }
"
       then JSON_parse (answering "A") cleaned
       else Throw "Unexpected token")
    "```json
{ the response }
```
"
  = Ok [sample_question "A"].
Proof. reflexivity. Qed.

End ResponseValidation.

(** ** Cache statistics ([getCacheStats]) *)

Section CacheStatistics.

Import QuizCache.

Definition quizzes_of (store : Quiz.collection) (book : string) : list Quiz.t :=
  List.filter (fun q => String.eqb (Quiz.bookId q) book) store.

(** The sum of the usage counts. *)
Definition usage_sum (quizzes : list Quiz.t) : Z :=
  List.fold_right (fun q sum => Quiz.usageCount q + sum) 0 quizzes.

Definition zeroed : CacheStats :=
  {| totalQuizzes := 0; uniqueConfigurations := 0; cacheHitRate := PrimFloat.zero;
     tokensSaved := 0; topConfigurations := [] |}.

(** The hit rate in the spec's words: hits over uses, as a number. *)
Definition hit_ratio (hits uses : Z) : float :=
  PrimFloat.div (JsFloat.of_Z hits) (JsFloat.of_Z uses).

(** The hit rate the code reports: hits over uses as a percentage, rounded
    to one decimal; 0 when there is no use at all. *)
Definition hit_percentage (hits uses : Z) : float :=
  if 0 <? uses
  then JsFloat.toFixed1 (PrimFloat.mul (hit_ratio hits uses) 100%float)
  else PrimFloat.zero.

(** The statistics as specified: zeroed without quizzes, and otherwise the
    number of quizzes, the number of distinct keys, and as hit rate the
    ratio (uses - distinct keys) / uses. *)
Definition stats_as_specified (store : Quiz.collection) (book : string) : Prop :=
  let quizzes := quizzes_of store book in
  let distinct := distinct_count (List.map Quiz.cacheKey quizzes) in
  exists stats,
    getCacheStats Quiz.no_faults store book = Ok stats
    /\ (quizzes = [] -> stats = zeroed)
    /\ (quizzes <> [] ->
        totalQuizzes stats = Z.of_nat (List.length quizzes)
        /\ uniqueConfigurations stats = distinct
        /\ cacheHitRate stats = hit_ratio (usage_sum quizzes - distinct) (usage_sum quizzes)).

Lemma fold_left_usage (quizzes : list Quiz.t) (acc : Z) :
  List.fold_left (fun sum q => sum + Quiz.usageCount q) quizzes acc
  = acc + usage_sum quizzes.
Proof.
  revert acc. induction quizzes as [|q l IH]; intros acc; simpl; [lia|].
  rewrite IH. lia.
Qed.

Lemma totalUsage_sum (quizzes : list Quiz.t) : totalUsage quizzes = usage_sum quizzes.
Proof. unfold totalUsage. now rewrite fold_left_usage. Qed.

(** [distinct_count] counts the distinct elements: any duplicate-free
    listing of them has that length. *)
Lemma distinct_count_spec (l keys : list string) :
  NoDup keys -> (forall k, In k keys <-> In k l) ->
  distinct_count l = Z.of_nat (List.length keys).
Proof.
  intros Hnd Hsame. unfold distinct_count. f_equal.
  apply Permutation_length, NoDup_Permutation.
  - apply NoDup_nodup.
  - exact Hnd.
  - intros k. rewrite nodup_In. symmetry. apply Hsame.
Qed.

(** C9 (as amended): without quizzes for the book the aggregate is zeroed;
    otherwise it reports the number of the book's quizzes, the number of
    their distinct cache keys, and as hit rate the percentage
    100 x (sum of usageCount - distinct keys) / (sum of usageCount) rounded
    to one decimal, or 0 when that sum is not positive; the tokens saved
    are 1500 per hit. *)
Theorem getCacheStats_aggregate (f : Quiz.faults) (store : Quiz.collection)
    (book : string) :
  Quiz.find_fault f = None ->
  let quizzes := quizzes_of store book in
  exists stats,
    getCacheStats f store book = Ok stats
    /\ (quizzes = [] -> stats = zeroed)
    /\ (quizzes <> [] ->
        totalQuizzes stats = Z.of_nat (List.length quizzes)
        /\ (forall keys,
              NoDup keys ->
              (forall k, In k keys <-> exists q, In q quizzes /\ Quiz.cacheKey q = k) ->
              uniqueConfigurations stats = Z.of_nat (List.length keys))
        /\ cacheHitRate stats
           = hit_percentage (usage_sum quizzes - uniqueConfigurations stats)
               (usage_sum quizzes)
        /\ tokensSaved stats
           = (usage_sum quizzes - uniqueConfigurations stats) * 1500).
Proof.
  intros Hfault quizzes. unfold getCacheStats, Quiz.find. rewrite Hfault. simpl.
  fold (quizzes_of store book). fold quizzes.
  destruct quizzes as [|q l] eqn:E.
  - simpl. eexists. split; [reflexivity|]. split; [reflexivity | congruence].
  - cbn [List.length Nat.eqb]. eexists. split; [reflexivity|].
    split; [discriminate|]. intros _. cbn [totalQuizzes uniqueConfigurations
      cacheHitRate tokensSaved]. rewrite totalUsage_sum.
    split; [reflexivity|]. split.
    + intros keys Hnd Hsame. apply distinct_count_spec; [exact Hnd|].
      intros k. rewrite Hsame, in_map_iff. split; intros (x & H1 & H2); eauto.
    + unfold hit_percentage, hit_ratio. rewrite Z.gtb_ltb.
      split; [|reflexivity].
      now destruct (0 <? usage_sum (q :: l)).
Qed.

(** One quiz used twice: one hit in two uses. *)
Definition used_twice : Quiz.t := used 200 sample_quiz.

Lemma getCacheStats_aggregate_witness :
  exists stats,
    getCacheStats Quiz.no_faults [used_twice] "b1" = Ok stats
    /\ (quizzes_of [used_twice] "b1" = [] -> stats = zeroed)
    /\ (quizzes_of [used_twice] "b1" <> [] ->
        totalQuizzes stats = Z.of_nat (List.length (quizzes_of [used_twice] "b1"))
        /\ (forall keys,
              NoDup keys ->
              (forall k, In k keys <->
                         exists q, In q (quizzes_of [used_twice] "b1")
                                   /\ Quiz.cacheKey q = k) ->
              uniqueConfigurations stats = Z.of_nat (List.length keys))
        /\ cacheHitRate stats
           = hit_percentage
               (usage_sum (quizzes_of [used_twice] "b1") - uniqueConfigurations stats)
               (usage_sum (quizzes_of [used_twice] "b1"))
        /\ tokensSaved stats
           = (usage_sum (quizzes_of [used_twice] "b1") - uniqueConfigurations stats)
             * 1500).
Proof.
  apply (getCacheStats_aggregate Quiz.no_faults [used_twice] "b1"). reflexivity.
Defined.

Example getCacheStats_used_twice :
  getCacheStats Quiz.no_faults [used_twice] "b1"
  = Ok {| totalQuizzes := 1; uniqueConfigurations := 1; cacheHitRate := 50%float;
          tokensSaved := 1500;
          topConfigurations :=
            [{| tc_pageRange := "1-3"; tc_difficulty := "easy"; tc_questions := 1;
                tc_usageCount := 2; tc_lastUsed := 200 |}] |}.
Proof. vm_compute. reflexivity. Qed.

Example getCacheStats_no_quiz :
  getCacheStats Quiz.no_faults [used_twice] "another book" = Ok zeroed.
Proof. reflexivity. Qed.

(** C9 as specified fails for one quiz used twice: the reported hit rate
    is 50, a percentage, where the ratio of the spec is 0.5. *)
Lemma getCacheStats_reports_percentage :
  ~ stats_as_specified [used_twice] "b1".
Proof.
  intros (stats & Hstats & _ & H).
  rewrite getCacheStats_used_twice in Hstats. injection Hstats as <-.
  destruct (H ltac:(discriminate)) as (_ & _ & Hrate).
  apply (f_equal (fun x => PrimFloat.ltb x 1%float)) in Hrate.
  vm_compute in Hrate. discriminate.
Qed.

(** Quizzes never counted as used: no use, and a hit rate of 0. *)
Example getCacheStats_unused :
  let unused :=
    {| Quiz._id := "q0"; Quiz.bookId := "b1"; Quiz.title := "Book";
       Quiz.generatedDate := 100;
       Quiz.pageRange := {| start := Some 1; end_ := Some 3 |};
       Quiz.questions := []; Quiz.difficulty := "easy"; Quiz.numberOfQuestions := 1;
       Quiz.cacheKey := "b1-1-3-1-easy"; Quiz.usageCount := 0;
       Quiz.lastUsedAt := 100; Quiz.generatedBy := "gemini" |} in
  match getCacheStats Quiz.no_faults [unused] "b1" with
  | Ok stats => cacheHitRate stats = PrimFloat.zero /\ tokensSaved stats = -1500
  | Throw _ => False
  end.
Proof. vm_compute. split; reflexivity. Qed.

End CacheStatistics.

(** ** A repeated request *)

Section RepeatedRequest.

Import Generate.

Lemma stored_under_app store key quiz :
  stored_under store key = None ->
  Quiz.cacheKey quiz = key ->
  stored_under (store ++ [quiz])%list key = Some quiz.
Proof.
  unfold stored_under. intros Hnone Hkey.
  induction store as [|q store IH]; simpl in *.
  - now rewrite Hkey, String.eqb_refl.
  - destruct (Quiz.cacheKey q =? key)%string; [discriminate | now apply IH].
Qed.

Lemma findCachedQuiz_miss_no_fault f now store b r n d :
  Quiz.findOne_fault f = None ->
  Quiz.update_fault f = None ->
  fst (QuizCache.findCachedQuiz f now store b r n d) = None ->
  stored_under store (QuizCache.generateCacheKey b r n d) = None.
Proof.
  intros F1 F2 H.
  destruct (stored_under store (QuizCache.generateCacheKey b r n d)) as [q|] eqn:E;
    [|reflexivity].
  rewrite (findCachedQuiz_no_fault f now store b r n d q F1 F2 E) in H. discriminate.
Qed.

(** Scenario A, second half: when a request was answered with a newly
    generated quiz holding as many questions as were asked for, the same
    request sent again is answered from the cache with the same quiz, now
    used twice, and without any generation call. *)
Theorem handler_repeat_hits env quizzes req id bounds n d book
    quizId count message view :
  passes_validation env req id bounds n d ->
  connectDB env = None ->
  Book_findById env id = Ok (Some book) ->
  Book._id book = id ->
  Quiz.findOne_fault (quiz_faults env) = None ->
  Quiz.update_fault (quiz_faults env) = None ->
  sent (response (handler env quizzes req)) = Success quizId false count message view ->
  v_numberOfQuestions view = n ->
  let again := handler env (store (handler env quizzes req)) req in
  exists view',
    response again
    = {| status := 200;
         sent := Success quizId true 2 "Quiz retrieved from cache" view' |}
    /\ v_questions view' = v_questions view
    /\ events again = lookup_events id book bounds n d
    /\ generation_calls (events again) = 0%nat.
Proof.
  intros Hvalid Hconn Hbook Hid F1 F2 Hsent Hn.
  rewrite !(handler_accepts _ _ _ _ _ _ _ Hvalid) in *.
  destruct (QuizCache.findCachedQuiz (quiz_faults env) (now env) quizzes id
              (Some (actual_range book bounds)) n d) as [[hit|] quizzes'] eqn:Hfind.
  - exfalso. revert Hsent. unfold serve. rewrite Hconn, Hbook.
    fold (actual_range book bounds). rewrite Hfind. discriminate.
  - assert (Hmiss : fst (QuizCache.findCachedQuiz (quiz_faults env) (now env) quizzes id
                           (Some (actual_range book bounds)) n d) = None)
      by now rewrite Hfind.
    rewrite (serve_miss _ _ _ _ _ _ _ Hconn Hbook Hmiss) in *.
    destruct (generateNew_success _ _ _ _ _ _ _ _ _ _ _ _ _ Hsent)
      as (_ & _ & quiz & Hstore & _ & Hkey & Huse & Hquiz & Hquestions & Hcount).
    rewrite Hstore.
    assert (Hstored : stored_under (quizzes ++ [quiz])%list
                        (QuizCache.generateCacheKey id (Some (actual_range book bounds)) n d)
                      = Some quiz).
    { apply stored_under_app.
      - now apply (findCachedQuiz_miss_no_fault (quiz_faults env) (now env)).
      - rewrite Hkey, Hid, Hcount, Hn. reflexivity. }
    unfold serve. rewrite Hconn, Hbook. fold (actual_range book bounds).
    rewrite (findCachedQuiz_no_fault _ _ _ _ _ _ _ _ F1 F2 Hstored).
    eexists. cbn [response events]. split; [|split; [|split]].
    + cbn [used Quiz._id Quiz.usageCount]. rewrite Hquiz, Huse. reflexivity.
    + cbn [v_questions used Quiz.questions]. exact Hquestions.
    + reflexivity.
    + reflexivity.
Qed.

(** A service that delivers the five questions asked for. *)
Definition delivering_five : Env :=
  {| isValidObjectId := fun id => (String.length id =? 24)%nat;
     connectDB := None;
     Book_findById := fun id =>
       if String.eqb id sample_id then Ok (Some sample_book) else Ok None;
     quiz_faults := Quiz.no_faults;
     ai :=
       {| Gemini.getGenerativeModel := fun _ => None;
          Gemini.generateContent := fun _ _ _ => Ok "{ five questions }";
          Gemini.JSON_parse := fun _ =>
            Ok (JObject [("questions",
                          JArray [sample_question "A"; sample_question "B";
                                  sample_question "C"; sample_question "D";
                                  sample_question "A"])]) |};
     now := 1000;
     newId := "quiz-1";
     development := false |}.

Definition whole_book_request : Request :=
  sample_request None (Some 5) (Some "medium").

Example handler_scenario_A_first :
  let out := handler delivering_five [] whole_book_request in
  status (response out) = 200%nat
  /\ List.map Quiz.usageCount (store out) = [1]
  /\ List.map Quiz.cacheKey (store out) = ["64f0c0ffee64f0c0ffee64f0-1-3-5-medium"].
Proof. vm_compute. repeat split. Qed.

Lemma handler_repeat_hits_witness :
  exists view',
    response (handler delivering_five
                (store (handler delivering_five [] whole_book_request))
                whole_book_request)
    = {| status := 200;
         sent := Success "quiz-1" true 2 "Quiz retrieved from cache" view' |}
    /\ v_questions view'
       = [sample_question "A"; sample_question "B"; sample_question "C";
          sample_question "D"; sample_question "A"]
    /\ events (handler delivering_five
                 (store (handler delivering_five [] whole_book_request))
                 whole_book_request)
       = lookup_events sample_id sample_book None 5 "medium"
    /\ generation_calls
         (events (handler delivering_five
                    (store (handler delivering_five [] whole_book_request))
                    whole_book_request)) = 0%nat.
Proof.
  refine (handler_repeat_hits delivering_five [] whole_book_request sample_id None 5
            "medium" sample_book "quiz-1" 1 "Quiz generated successfully"
            {| v_id := "quiz-1"; v_title := "Sample - Full Book Quiz";
               v_bookId := sample_id; v_bookTitle := "Sample";
               v_generatedDate := 1000;
               v_pageRange := {| start := Some 1; end_ := Some 3 |};
               v_difficulty := "medium"; v_numberOfQuestions := 5;
               v_questions :=
                 [sample_question "A"; sample_question "B"; sample_question "C";
                  sample_question "D"; sample_question "A"];
               v_wasTruncated := Some false |} _ _ _ _ _ _ _ _).
  - check_validation.
  - reflexivity.
  - reflexivity.
  - reflexivity.
  - reflexivity.
  - reflexivity.
  - vm_compute. reflexivity.
  - reflexivity.
Defined.

(** When the service delivers fewer questions than asked for, the quiz is
    recorded under the key of the delivered count: the same request sent
    again misses the cache, generates again, and its save is refused by
    the unique index. *)
Example handler_under_delivery_repeated :
  let env := sample_env sample_book Quiz.no_faults in
  let first := handler env [] whole_book_request in
  let again := handler env (store first) whole_book_request in
  status (response first) = 200%nat
  /\ response again
     = {| status := 500; sent := Failure "Failed to generate quiz" None |}
  /\ events again
     = [EvConnect; EvFindBook sample_id;
        EvCacheLookup "64f0c0ffee64f0c0ffee64f0-1-3-5-medium";
        EvGenerate "gemini-2.0-flash" 1;
        EvSave "64f0c0ffee64f0c0ffee64f0-1-3-1-medium"].
Proof. vm_compute. repeat split. Qed.

End RepeatedRequest.

(** ** More on the boundary, the cache and the selection *)

Section MoreExamples.

Import Generate.


Lemma findCachedQuiz_twice_witness :
  let '(_, store1) :=
    QuizCache.findCachedQuiz Quiz.no_faults 250 [sample_quiz] "b1"
      (Some {| start := Some 1; end_ := Some 3 |}) 1 "easy" in
  exists q2 store2,
    QuizCache.findCachedQuiz Quiz.no_faults 300 store1 "b1"
      (Some {| start := Some 1; end_ := Some 3 |}) 1 "easy" = (Some q2, store2)
    /\ Quiz.questions q2 = Quiz.questions sample_quiz
    /\ Quiz.usageCount q2 = Quiz.usageCount sample_quiz + 2.
Proof.
  apply (findCachedQuiz_twice Quiz.no_faults 250 300 [sample_quiz] "b1"
           (Some {| start := Some 1; end_ := Some 3 |}) 1 "easy" sample_quiz);
    reflexivity.
Defined.

(** The sample pages in page order. *)
Definition ordered_book : Book.t :=
  {| Book._id := sample_id;
     Book.title := "Sample";
     Book.totalPages := Some 3;
     Book.pages := Js.sort (fun a b => Page.pageNumber a - Page.pageNumber b)
                     (Book.pages sample_book);
     Book.pdfText := None |}.

Lemma extractTextFromPages_stored_order_witness :
  extractTextFromPages ordered_book 2 3
  = Ok (join blank_line
          (List.map Page.text (List.filter (in_range 2 3) (Book.pages ordered_book)))).
Proof.
  apply extractTextFromPages_stored_order.
  - discriminate.
  - apply (sort_sorted Page.pageNumber).
Defined.

(** Scenario C: pages 1 to 9999 of the three-page sample book. *)
Example handler_scenario_C :
  response (handler (sample_env sample_book Quiz.no_faults) []
              (sample_request (Some {| start := Some 1; end_ := Some 9999 |})
                 (Some 5) (Some "medium")))
  = {| status := 400;
       sent := Failure "Page range exceeds book's total pages (3)" None |}.
Proof. vm_compute. reflexivity. Qed.

End MoreExamples.

(** ** Scenario D: 100,000 characters against a budget of 60,000 *)

Section ScenarioD.

Import Generate.

#[local] Set Warnings "-abstract-large-number".

Fixpoint repeat_string (k : nat) (s : string) : string :=
  match k with
  | O => EmptyString
  | S k' => s ++ repeat_string k' s
  end.

Definition long_text : string := repeat_string 20000 "word ".

Example truncateText_scenario_D :
  let r := truncateText long_text MAX_CHARS in
  Z.of_nat (String.length long_text) = 100000
  /\ wasTruncated r = true
  /\ Z.of_nat (String.length (Generate.text r)) = 59999
  /\ followed_by_space long_text (Generate.text r).
Proof.
  cbv zeta.
  assert (Hcut : wasTruncated (truncateText long_text MAX_CHARS) = true)
    by (vm_compute; reflexivity).
  split; [vm_compute; reflexivity|]. split; [exact Hcut|].
  split; [vm_compute; reflexivity|].
  apply truncateText_boundary; [now apply truncateText_flag|].
  exists 4%nat. split; [|vm_compute; reflexivity].
  split; [lia|]. apply Nat.ltb_lt. vm_compute. reflexivity.
Qed.

End ScenarioD.

(* ===================================================================== *)
(** * Part III: further properties of the same code                       *)
(* ===================================================================== *)

(** ** Saving a quiz and finding it again ([saveQuizToCache], [findCachedQuiz]) *)

Section SaveAndLookup.

Import QuizCache.

Lemma written_back_fresh store doc :
  (forall q, In q store -> Quiz._id q <> Quiz._id doc) ->
  written_back store doc = store.
Proof.
  intros Hfresh. unfold written_back.
  induction store as [|q store IH]; simpl; [reflexivity|].
  destruct (String.eqb_spec (Quiz._id q) (Quiz._id doc)) as [E|_].
  - exfalso. apply (Hfresh q); [now left | exact E].
  - f_equal. apply IH. intros q' Hq'. apply Hfresh. now right.
Qed.

Lemma written_back_app a b doc :
  written_back (a ++ b)%list doc = (written_back a doc ++ written_back b doc)%list.
Proof. unfold written_back. apply map_app. Qed.

(** What a successful [saveQuizToCache] did. *)
Lemma saveQuizToCache_ok f now newId store data quiz store' :
  saveQuizToCache f now newId store data = Ok (quiz, store') ->
  store' = (store ++ [quiz])%list
  /\ stored_under store (Quiz.cacheKey quiz) = None
  /\ Quiz.cacheKey quiz
     = generateCacheKey (bookId data) (Some (pageRange data))
         (numberOfQuestions data) (difficulty data)
  /\ Quiz._id quiz = newId
  /\ Quiz.questions quiz = questions data
  /\ Quiz.pageRange quiz = pageRange data
  /\ Quiz.numberOfQuestions quiz = numberOfQuestions data
  /\ Quiz.usageCount quiz = 1.
Proof.
  unfold saveQuizToCache, Quiz.save_new.
  destruct (Quiz.insert_fault f _); [discriminate|].
  destruct (List.existsb _ store) eqn:Hdup; [discriminate|].
  simpl. intros H. injection H as <- <-. simpl.
  split; [reflexivity|]. split; [|now repeat split].
  unfold stored_under.
  destruct (List.find _ store) as [q|] eqn:Hfind; [|reflexivity].
  apply find_some in Hfind. destruct Hfind as [Hin Hkey].
  assert (Hex : List.existsb
                  (fun q =>
                     String.eqb (Quiz.cacheKey q)
                       (generateCacheKey (bookId data) (Some (pageRange data))
                          (numberOfQuestions data) (difficulty data))) store = true).
  { apply existsb_exists. exists q. split; [exact Hin | exact Hkey]. }
  simpl in Hdup. rewrite Hex in Hdup. discriminate.
Qed.

(** Round trip: the document that [saveQuizToCache] stored and returned is
    what the next [findCachedQuiz] for the same book, range, count and
    difficulty answers with: the same identifier and key, the questions as
    they were stored, counted as used a second time; the document was given
    a fresh identifier, so no other document changes. *)
Theorem saveQuizToCache_then_found f now1 now2 newId store data quiz store' :
  saveQuizToCache f now1 newId store data = Ok (quiz, store') ->
  Quiz.findOne_fault f = None ->
  Quiz.update_fault f = None ->
  (forall q, In q store -> Quiz._id q <> newId) ->
  findCachedQuiz f now2 store' (bookId data) (Some (pageRange data))
    (numberOfQuestions data) (difficulty data)
  = (Some (used now2 quiz), (store ++ [used now2 quiz])%list)
  /\ Quiz._id (used now2 quiz) = newId
  /\ Quiz.cacheKey (used now2 quiz) = Quiz.cacheKey quiz
  /\ Quiz.questions (used now2 quiz) = Quiz.questions quiz
  /\ Quiz.usageCount (used now2 quiz) = 2
  /\ Quiz.lastUsedAt (used now2 quiz) = now2.
Proof.
  intros Hsave F1 F2 Hfresh.
  destruct (saveQuizToCache_ok _ _ _ _ _ _ _ Hsave)
    as (-> & Hnone & Hkey & Hid & _ & _ & _ & Huse).
  assert (Hstored : stored_under (store ++ [quiz])%list
                      (generateCacheKey (bookId data) (Some (pageRange data))
                         (numberOfQuestions data) (difficulty data)) = Some quiz).
  { apply stored_under_app; [now rewrite <- Hkey | exact Hkey]. }
  rewrite (findCachedQuiz_no_fault f now2 _ _ _ _ _ quiz F1 F2 Hstored).
  split.
  - f_equal. rewrite written_back_app. f_equal.
    + apply written_back_fresh. intros q Hq. simpl. rewrite Hid. now apply Hfresh.
    + unfold written_back. simpl. now rewrite String.eqb_refl.
  - simpl. rewrite Huse, Hid. now repeat split.
Qed.

(** The index on [cacheKey] at work: a second quiz for a key already in
    the collection is refused, and nothing is stored. *)
Lemma saveQuizToCache_duplicate f now newId store data q :
  stored_under store
    (generateCacheKey (bookId data) (Some (pageRange data))
       (numberOfQuestions data) (difficulty data)) = Some q ->
  exists message, saveQuizToCache f now newId store data = Throw message.
Proof.
  intros Hstored. unfold saveQuizToCache, Quiz.save_new.
  destruct (Quiz.insert_fault f _) as [m|]; [simpl; eauto|].
  apply find_some in Hstored. destruct Hstored as [Hin Hkey].
  assert (Hex : List.existsb
                  (fun q =>
                     String.eqb (Quiz.cacheKey q)
                       (generateCacheKey (bookId data) (Some (pageRange data))
                          (numberOfQuestions data) (difficulty data))) store = true).
  { apply existsb_exists. exists q. split; [exact Hin | exact Hkey]. }
  simpl. rewrite Hex. simpl. eauto.
Qed.

End SaveAndLookup.

Section SaveAndLookupExamples.

Import QuizCache.

Definition sample_data : QuizData :=
  {| bookId := "b2"; title := "Other - Pages 2-4"; generatedDate := 500;
     pageRange := {| start := Some 2; end_ := Some 4 |};
     questions := [sample_question "B"]; difficulty := "hard";
     numberOfQuestions := 1 |}.

Definition sample_saved : Quiz.t :=
  {| Quiz._id := "q2"; Quiz.bookId := "b2"; Quiz.title := "Other - Pages 2-4";
     Quiz.generatedDate := 500;
     Quiz.pageRange := {| start := Some 2; end_ := Some 4 |};
     Quiz.questions := [sample_question "B"];
     Quiz.difficulty := "hard"; Quiz.numberOfQuestions := 1;
     Quiz.cacheKey := "b2-2-4-1-hard"; Quiz.usageCount := 1;
     Quiz.lastUsedAt := 500; Quiz.generatedBy := "gemini" |}.

Lemma saveQuizToCache_then_found_witness :
  findCachedQuiz Quiz.no_faults 600 [sample_quiz; sample_saved] "b2"
    (Some {| start := Some 2; end_ := Some 4 |}) 1 "hard"
  = (Some (used 600 sample_saved), [sample_quiz; used 600 sample_saved]).
Proof.
  refine (proj1 (saveQuizToCache_then_found Quiz.no_faults 500 600 "q2" [sample_quiz]
                   sample_data sample_saved [sample_quiz; sample_saved] _ _ _ _)).
  - reflexivity.
  - reflexivity.
  - reflexivity.
  - intros q [<-|[]]. discriminate.
Defined.

End SaveAndLookupExamples.
(** ** What a request can do to the collection, and what it answers *)

Section RequestOutcomes.

Import Generate.

(** The three ways a request ends. *)
Inductive ending (env : Env) (quizzes : Quiz.collection) (out : Outcome) : Prop :=
| Failed (code : nat) (error : string) (details : option string)
    (Hresponse : response out = {| status := code; sent := Failure error details |})
    (Hcode : In code [400; 404; 405; 500]%nat)
    (Hdetails : development env = false -> details = None)
    (Hstore : store out = quizzes)
| Hit (q : Quiz.t) (view : QuizView)
    (Hstored : stored_under quizzes (Quiz.cacheKey q) = Some q)
    (Hresponse : response out
                 = {| status := 200;
                      sent := Success (Quiz._id q) true (Quiz.usageCount q + 1)
                                "Quiz retrieved from cache" view |})
    (Hview : v_id view = Quiz._id q /\ v_questions view = Quiz.questions q)
    (Hstore : store out = written_back quizzes (used (now env) q))
| Generated (quiz : Quiz.t) (view : QuizView)
    (Hnew : stored_under quizzes (Quiz.cacheKey quiz) = None)
    (Hid : Quiz._id quiz = newId env)
    (Huse : Quiz.usageCount quiz = 1)
    (Hresponse : response out
                 = {| status := 200;
                      sent := Success (Quiz._id quiz) false 1
                                "Quiz generated successfully" view |})
    (Hview : v_id view = Quiz._id quiz /\ v_questions view = Quiz.questions quiz)
    (Hstore : store out = (quizzes ++ [quiz])%list).

Lemma on_error_cases env message :
  exists code error details,
    on_error env message = {| status := code; sent := Failure error details |}
    /\ In code [400; 500]%nat
    /\ (development env = false -> details = None).
Proof.
  unfold on_error.
  repeat match goal with
         | |- context [if includes ?a ?b then _ else _] => destruct (includes a b)
         end;
    do 3 eexists; (split; [reflexivity|]); (split; [simpl; tauto|]);
    try reflexivity; intros ->; reflexivity.
Qed.

Lemma failed_by_error env quizzes message done :
  ending env quizzes
    {| response := on_error env message; store := quizzes; events := done |}.
Proof.
  destruct (on_error_cases env message) as (code & error & details & E & Hcode & Hdetails).
  apply (Failed env quizzes _ code error details); simpl; [exact E | | exact Hdetails | reflexivity].
  simpl in *. tauto.
Qed.

Lemma findCachedQuiz_some f now store b r n d q' store' :
  QuizCache.findCachedQuiz f now store b r n d = (Some q', store') ->
  exists q,
    stored_under store (QuizCache.generateCacheKey b r n d) = Some q
    /\ q' = used now q
    /\ store' = written_back store (used now q).
Proof.
  unfold QuizCache.findCachedQuiz, Quiz.findOne, stored_under.
  destruct (Quiz.findOne_fault f); [discriminate|].
  destruct (List.find _ store) as [q|]; [|discriminate].
  unfold Quiz.incrementUsage, Quiz.save_existing.
  destruct (Quiz.update_fault f); [discriminate|].
  simpl. intros H. injection H as <- <-. exists q. now repeat split.
Qed.

Lemma generateNew_ending env quizzes done book bounds actualPageRange n d :
  ending env quizzes (generateNew env quizzes done book bounds actualPageRange n d).
Proof.
  unfold generateNew.
  destruct (selectContent book bounds) as [[rejected|contentText]|message] eqn:Hsel.
  - apply selectContent_rejected in Hsel as [error ->].
    apply (Failed env quizzes _ 400%nat error None); simpl; tauto.
  - destruct (_ || _).
    + eapply (Failed env quizzes _ 400%nat _ None); simpl; try reflexivity; tauto.
    + destruct (Gemini.generateQuiz (ai env) _ n d) as [[questions|message] st].
      * destruct (QuizCache.saveQuizToCache _ _ _ _ _) as [[quiz quizzes']|message] eqn:Hsave.
        -- destruct (saveQuizToCache_ok _ _ _ _ _ _ _ Hsave)
             as (-> & Hnone & _ & Hid & _ & _ & _ & Huse).
           eapply (Generated env quizzes _ quiz); simpl; try reflexivity; try assumption.
           split; reflexivity.
        -- apply failed_by_error.
      * apply failed_by_error.
  - apply failed_by_error.
Qed.

Lemma serve_ending env quizzes id bounds n d :
  ending env quizzes (serve env quizzes id bounds n d).
Proof.
  unfold serve.
  destruct (connectDB env); [apply failed_by_error|].
  destruct (Book_findById env id) as [[book|]|message]; [| |apply failed_by_error].
  - destruct (QuizCache.findCachedQuiz _ _ quizzes _ _ _ _) as [[hit|] quizzes'] eqn:Hfind.
    + apply findCachedQuiz_some in Hfind as (q & Hstored & -> & ->).
      eapply (Hit env quizzes _ q); simpl; try reflexivity; [|split; reflexivity].
      now rewrite (stored_under_key _ _ _ Hstored).
    + assert (E : quizzes' = quizzes).
      { pose proof (findCachedQuiz_miss_store (quiz_faults env) (now env) quizzes id
                      (Some match bounds with
                            | Some b => range_of b
                            | None => {| start := Some 1; end_ := Book.totalPages book |}
                            end) n d) as H.
        rewrite Hfind in H. specialize (H eq_refl). congruence. }
      rewrite E. apply generateNew_ending.
  - eapply (Failed env quizzes _ 404%nat _ None); simpl; try reflexivity; tauto.
Qed.

Lemma handler_ending env quizzes req : ending env quizzes (handler env quizzes req).
Proof.
  unfold handler.
  destruct (negb _);
    [eapply (Failed env quizzes _ 405%nat _ None); simpl; try reflexivity; tauto|].
  destruct (bookId (body req)) as [id|];
    [|eapply (Failed env quizzes _ 400%nat _ None); simpl; try reflexivity; tauto].
  destruct (String.eqb id "");
    [eapply (Failed env quizzes _ 400%nat _ None); simpl; try reflexivity; tauto|].
  destruct (negb (isValidObjectId env id));
    [eapply (Failed env quizzes _ 400%nat _ None); simpl; try reflexivity; tauto|].
  destruct (_ || _);
    [eapply (Failed env quizzes _ 400%nat _ None); simpl; try reflexivity; tauto|].
  destruct (negb (List.existsb _ _));
    [eapply (Failed env quizzes _ 400%nat _ None); simpl; try reflexivity; tauto|].
  destruct (validatePageRange _) as [bounds|message];
    [apply serve_ending
    |eapply (Failed env quizzes _ 400%nat _ None); simpl; try reflexivity; tauto].
Qed.

Lemma written_back_holds store doc q :
  In q store -> Quiz._id q = Quiz._id doc -> In doc (written_back store doc).
Proof.
  intros Hin Hid. unfold written_back. apply in_map_iff. exists q.
  split; [|exact Hin]. rewrite Hid. now rewrite String.eqb_refl.
Qed.

Lemma stored_under_in store key q : stored_under store key = Some q -> In q store.
Proof. intros H. now apply find_some in H. Qed.

Lemma stored_under_none store key :
  stored_under store key = None -> ~ In key (List.map Quiz.cacheKey store).
Proof.
  intros H Hin. apply in_map_iff in Hin. destruct Hin as (q & Hkey & Hin).
  apply (find_none _ _ H) in Hin. rewrite Hkey, String.eqb_refl in Hin. discriminate.
Qed.

Lemma NoDup_map_eq {A B} (f : A -> B) (l : list A) (a b : A) :
  NoDup (List.map f l) -> In a l -> In b l -> f a = f b -> a = b.
Proof.
  induction l as [|x l IH]; simpl; intros Hnd Ha Hb E; [contradiction|].
  inversion Hnd as [|? ? Hx Hl]; subst.
  destruct Ha as [->|Ha], Hb as [->|Hb].
  - reflexivity.
  - exfalso. apply Hx. rewrite E. now apply in_map.
  - exfalso. apply Hx. rewrite <- E. now apply in_map.
  - now apply IH.
Qed.

(** With identifiers that tell the documents apart, writing a used
    document back changes neither the keys nor the identifiers. *)
Lemma written_back_used_keys store now q :
  NoDup (List.map Quiz._id store) -> In q store ->
  List.map Quiz.cacheKey (written_back store (used now q)) = List.map Quiz.cacheKey store
  /\ List.map Quiz._id (written_back store (used now q)) = List.map Quiz._id store.
Proof.
  intros Hnd Hin. unfold written_back. rewrite !map_map.
  split; apply map_ext_in; intros d Hd; simpl;
    destruct (String.eqb_spec (Quiz._id d) (Quiz._id q)) as [E|_]; try reflexivity;
    simpl; now rewrite (NoDup_map_eq Quiz._id store d q Hnd Hd Hin E).
Qed.

(** The answer of the handler, whatever the request, the store and the
    services do: a success is always a 200 and shows a quiz that is in the
    collection afterwards, with the use count reported; a failure is a 400,
    404, 405 or 500, leaves the quiz collection exactly as it was, and
    carries the details of the error only in development. *)
Theorem handler_response_contract env quizzes req :
  let out := handler env quizzes req in
  match sent (response out) with
  | Success quizId fromCache count _ view =>
      status (response out) = 200%nat
      /\ v_id view = quizId
      /\ (fromCache = false -> count = 1)
      /\ exists quiz, In quiz (store out) /\ Quiz._id quiz = quizId
                      /\ Quiz.usageCount quiz = count
                      /\ Quiz.questions quiz = v_questions view
  | Failure _ details =>
      In (status (response out)) [400; 404; 405; 500]%nat
      /\ store out = quizzes
      /\ (development env = false -> details = None)
  end.
Proof.
  intros out. destruct (handler_ending env quizzes req); fold out in Hresponse, Hstore;
    rewrite Hresponse; simpl.
  - now repeat split.
  - destruct Hview as [Hv1 Hv2]. split; [reflexivity|]. split; [exact Hv1|].
    split; [discriminate|]. exists (used (now env) q). rewrite Hstore.
    split; [|now repeat split].
    apply (written_back_holds quizzes _ q); [now apply stored_under_in in Hstored | reflexivity].
  - destruct Hview as [Hv1 Hv2]. split; [reflexivity|]. split; [exact Hv1|].
    split; [reflexivity|]. exists quiz. rewrite Hstore.
    split; [apply in_or_app; right; now left | now repeat split].
Qed.

(** The collection keeps its shape: when the identifiers and the cache
    keys of the stored quizzes are pairwise distinct and the identifier of
    a new document is not in use, they are pairwise distinct after any
    request; no stored quiz is removed or filed under another key, and at
    most one quiz is added. *)
Theorem handler_keeps_index env quizzes req :
  NoDup (List.map Quiz.cacheKey quizzes) ->
  NoDup (List.map Quiz._id quizzes) ->
  ~ In (newId env) (List.map Quiz._id quizzes) ->
  let out := handler env quizzes req in
  NoDup (List.map Quiz.cacheKey (store out))
  /\ NoDup (List.map Quiz._id (store out))
  /\ exists added,
       List.map Quiz.cacheKey (store out) = (List.map Quiz.cacheKey quizzes ++ added)%list
       /\ (List.length added <= 1)%nat.
Proof.
  intros Hkeys Hids Hfresh out.
  destruct (handler_ending env quizzes req); fold out in Hresponse, Hstore; rewrite Hstore.
  - split; [exact Hkeys|]. split; [exact Hids|]. exists []. rewrite app_nil_r. split; [reflexivity | simpl; lia].
  - apply stored_under_in in Hstored.
    destruct (written_back_used_keys quizzes (now env) q Hids Hstored) as [-> ->].
    split; [exact Hkeys|]. split; [exact Hids|]. exists []. rewrite app_nil_r. split; [reflexivity | simpl; lia].
  - rewrite !map_app. simpl. split; [|split].
    + apply NoDup_app; [exact Hkeys | repeat constructor; simpl; tauto |].
      intros k Hk [<-|[]]. now apply (stored_under_none _ _ Hnew).
    + apply NoDup_app; [exact Hids | repeat constructor; simpl; tauto |].
      intros k Hk [<-|[]]. apply Hfresh. now rewrite <- Hid.
    + exists [Quiz.cacheKey quiz]. split; [reflexivity | simpl; lia].
Qed.

End RequestOutcomes.

Section RequestOutcomesExamples.

Import Generate.

(** A stored quiz is found by the request for pages 1 to 9. *)
Lemma handler_keeps_index_witness :
  let out := handler (sample_env sample_book Quiz.no_faults) [sample_quiz; stale_quiz]
               beyond_request in
  NoDup (List.map Quiz.cacheKey (store out))
  /\ NoDup (List.map Quiz._id (store out))
  /\ exists added,
       List.map Quiz.cacheKey (store out)
       = (List.map Quiz.cacheKey [sample_quiz; stale_quiz] ++ added)%list
       /\ (List.length added <= 1)%nat.
Proof.
  apply (handler_keeps_index (sample_env sample_book Quiz.no_faults)
           [sample_quiz; stale_quiz] beyond_request).
  - repeat constructor; simpl; intuition discriminate.
  - repeat constructor; simpl; intuition discriminate.
  - simpl. intuition discriminate.
Defined.

End RequestOutcomesExamples.
(** ** The cost of the generation stage ([generateWithRetry], [generateQuiz]) *)

Section GenerationCost.

Import Gemini.

(** The time spent in back-off pauses, in milliseconds. *)
Definition total_wait (tr : list event) : Z :=
  List.fold_right (fun e sum => match e with EvWait ms => ms + sum | _ => sum end) 0 tr.

(** The pauses one model can cause: one after each attempt but the last. *)
Definition backoff (maxRetries : nat) (attempts : list nat) : Z :=
  List.fold_right
    (fun attempt sum =>
       (if (attempt <? maxRetries)%nat then Z.of_nat attempt * 1000 else 0) + sum)
    0 attempts.

Lemma total_wait_app (a b : list event) : total_wait (a ++ b) = total_wait a + total_wait b.
Proof.
  unfold total_wait. induction a as [|e a IH]; simpl; [reflexivity|].
  destruct e; rewrite IH; lia.
Qed.

Lemma backoff_nonneg maxRetries attempts : 0 <= backoff maxRetries attempts.
Proof.
  induction attempts as [|a l IH]; simpl; [lia|].
  destruct (a <? maxRetries)%nat; lia.
Qed.

Lemma generation_calls_generate tr modelName attempt :
  generation_calls (tr ++ [EvGenerate modelName attempt]) = S (generation_calls tr).
Proof. rewrite generation_calls_app. unfold generation_calls at 2. simpl. lia. Qed.

Lemma generation_calls_wait tr ms :
  generation_calls (tr ++ [EvWait ms]) = generation_calls tr.
Proof. rewrite generation_calls_app. unfold generation_calls at 2. simpl. lia. Qed.

Lemma total_wait_generate tr modelName attempt :
  total_wait (tr ++ [EvGenerate modelName attempt]) = total_wait tr.
Proof. rewrite total_wait_app. simpl. lia. Qed.

Lemma total_wait_wait tr ms : total_wait (tr ++ [EvWait ms]) = total_wait tr + ms.
Proof. rewrite total_wait_app. simpl. lia. Qed.

Lemma try_attempts_cost c modelName prompt maxRetries attempts st :
  let st' := outcome_state (try_attempts c modelName prompt maxRetries attempts st) in
  (calls st' <= calls st + List.length attempts)%nat
  /\ (generation_calls (trace st') <= generation_calls (trace st) + List.length attempts)%nat
  /\ total_wait (trace st') <= total_wait (trace st) + backoff maxRetries attempts.
Proof.
  revert st. induction attempts as [|attempt rest IH]; intros st.
  - simpl. repeat split; lia.
  - pose proof (backoff_nonneg maxRetries rest) as Hrest.
    cbn [try_attempts List.length backoff fold_right]. fold (backoff maxRetries rest).
    destruct (attempt_once c modelName prompt (calls st)).
    + cbn [outcome_state calls trace].
      rewrite generation_calls_generate, total_wait_generate.
      repeat split; try lia. destruct (attempt <? maxRetries)%nat; lia.
    + match goal with
      | |- context [try_attempts _ _ _ _ rest ?s] => destruct (IH s) as (C & G & W)
      end.
      cbn [calls trace] in C, G, W.
      destruct (attempt <? maxRetries)%nat;
        rewrite ?generation_calls_wait, ?generation_calls_generate in G;
        rewrite ?total_wait_wait, ?total_wait_generate in W;
        repeat split; lia.
Qed.

Lemma try_models_cost c prompt maxRetries models st :
  let st' := outcome_state (try_models c prompt maxRetries models st) in
  (calls st' <= calls st + List.length models * maxRetries)%nat
  /\ (generation_calls (trace st')
      <= generation_calls (trace st) + List.length models * maxRetries)%nat
  /\ total_wait (trace st')
     <= total_wait (trace st)
        + Z.of_nat (List.length models) * backoff maxRetries (List.seq 1 maxRetries).
Proof.
  revert st. induction models as [|modelName rest IH]; intros st.
  - simpl. repeat split; lia.
  - pose proof (backoff_nonneg maxRetries (List.seq 1 maxRetries)) as Hb.
    cbn [try_models List.length]. rewrite Nat2Z.inj_succ.
    destruct (getGenerativeModel c modelName).
    + match goal with
      | |- context [try_models _ _ _ rest ?s] => destruct (IH s) as (C & G & W)
      end.
      cbn [calls trace] in C, G, W. repeat split; nia.
    + pose proof (try_attempts_cost c modelName prompt maxRetries
                    (List.seq 1 maxRetries) st) as (C1 & G1 & W1).
      rewrite length_seq in C1, G1.
      destruct (try_attempts c modelName prompt maxRetries _ st) as [questions st1|st1];
        cbn [outcome_state] in C1, G1, W1.
      * cbn [outcome_state]. repeat split; nia.
      * destruct (IH st1) as (C & G & W). repeat split; nia.
Qed.

Lemma generateWithRetry_cost c prompt maxRetries :
  let st := snd (generateWithRetry c prompt maxRetries) in
  (calls st <= List.length MODEL_FALLBACK_CHAIN * maxRetries)%nat
  /\ (generation_calls (trace st) <= List.length MODEL_FALLBACK_CHAIN * maxRetries)%nat
  /\ total_wait (trace st)
     <= Z.of_nat (List.length MODEL_FALLBACK_CHAIN)
        * backoff maxRetries (List.seq 1 maxRetries).
Proof.
  pose proof (try_models_cost c prompt maxRetries MODEL_FALLBACK_CHAIN initial) as H.
  unfold generateWithRetry.
  destruct (try_models c prompt maxRetries MODEL_FALLBACK_CHAIN initial) as [questions st|st];
    [exact H|].
  destruct (lastError st); exact H.
Qed.

Lemma generateQuiz_cost c content numberOfQuestions difficulty :
  let st := snd (generateQuiz c content numberOfQuestions difficulty) in
  (generation_calls (trace st) <= 9)%nat /\ total_wait (trace st) <= 9000.
Proof.
  unfold generateQuiz.
  destruct (String.eqb content "" || _); [cbn; split; lia|].
  destruct ((numberOfQuestions <? 1) || _); [cbn; split; lia|].
  destruct (negb _); [cbn; split; lia|].
  pose proof (generateWithRetry_cost c
                (createQuizPrompt content numberOfQuestions difficulty) 3) as (_ & G & W).
  change (Z.of_nat (List.length MODEL_FALLBACK_CHAIN) * backoff 3 (List.seq 1 3))
    with 9000 in W.
  change (List.length MODEL_FALLBACK_CHAIN * 3)%nat with 9%nat in G.
  destruct (generateWithRetry c _ 3) as [[questions|message] st]; cbn [snd] in G, W;
    cbn [snd]; split; assumption.
Qed.

End GenerationCost.

Section RequestCost.

Import Generate.

Lemma generateNew_cost env quizzes done book bounds actualPageRange n d :
  let out := generateNew env quizzes done book bounds actualPageRange n d in
  (generation_calls (events out) <= generation_calls done + 9)%nat
  /\ total_wait (events out) <= total_wait done + 9000.
Proof.
  unfold generateNew.
  destruct (selectContent book bounds) as [[rejected|contentText]|message]; simpl;
    try (split; lia).
  destruct (_ || _); simpl; [split; lia|].
  pose proof (generateQuiz_cost (ai env) (text (truncateText contentText MAX_CHARS)) n d)
    as [G W].
  destruct (Gemini.generateQuiz (ai env) _ n d) as [[questions|message] st]; simpl in *.
  - destruct (QuizCache.saveQuizToCache _ _ _ _ _) as [[quiz quizzes']|message]; simpl;
      rewrite !generation_calls_app, !total_wait_app; simpl;
      match goal with
      | |- context [generation_calls [EvSave ?k]] =>
          change (generation_calls [EvSave k]) with 0%nat
      end; split; lia.
  - rewrite generation_calls_app, total_wait_app. split; lia.
Qed.

(** What one request can cost: whatever the AI service answers, a request
    makes at most 9 generation calls (three models, three attempts each)
    and spends at most 9 seconds in back-off pauses; a request answered
    from the cache makes no generation call at all. *)
Theorem handler_generation_cost env quizzes req :
  let out := handler env quizzes req in
  (generation_calls (events out) <= 9)%nat
  /\ total_wait (events out) <= 9000
  /\ match sent (response out) with
     | Success _ true _ _ _ =>
         generation_calls (events out) = 0%nat /\ total_wait (events out) = 0
     | _ => True
     end.
Proof.
  cbv zeta. unfold handler.
  destruct (negb (String.eqb _ _)); [cbn; repeat split; lia|].
  destruct (bookId (body req)) as [id|]; [|cbn; repeat split; lia].
  destruct (String.eqb id ""); [cbn; repeat split; lia|].
  destruct (negb (isValidObjectId env id)); [cbn; repeat split; lia|].
  destruct (_ || _); [cbn; repeat split; lia|].
  destruct (negb (List.existsb _ _)); [cbn; repeat split; lia|].
  destruct (validatePageRange _) as [bounds|message]; [|cbn; repeat split; lia].
  unfold serve.
  destruct (connectDB env) as [message|].
  { destruct (on_error_failure env message) as (code & error & details & ->).
    cbn. repeat split; lia. }
  destruct (Book_findById env _) as [[book|]|message]; [| cbn; repeat split; lia |].
  - destruct (QuizCache.findCachedQuiz _ _ quizzes _ _ _ _) as [[hit|] quizzes'];
      [cbn; repeat split; lia|].
    match goal with
    | |- context [generateNew ?e ?q ?dn ?b ?bd ?r ?n ?d] =>
        pose proof (generateNew_cost e q dn b bd r n d) as [G W];
        pose proof (generateNew_success e q dn b bd r n d) as Hs;
        destruct (generateNew e q dn b bd r n d) as [[code [error details|quizId fromCache count message view]] st ev]
    end; cbn [events response sent] in *; (split; [cbn in G; lia|]); (split; [cbn in W; lia|]); try exact I.
    destruct (Hs _ _ _ _ _ eq_refl) as (-> & _). exact I.
  - destruct (on_error_failure env message) as (code & error & details & ->).
    cbn. repeat split; lia.
Qed.

End RequestCost.
(** ** The first success ends the generation ([generateWithRetry]) *)

Section FirstSuccess.

Import Gemini.

Variable c : client.
Variable prompt : string.

(** The generation calls of a trace, in order: the model and the attempt
    number of each. *)
Definition generations (tr : list event) : list (string * nat) :=
  List.flat_map
    (fun e => match e with EvGenerate modelName attempt => [(modelName, attempt)] | _ => [] end)
    tr.

(** Every generation call made so far failed; the [k]-th call of the
    request is the [k]-th generation of the trace. *)
Definition all_failed (st : state) : Prop :=
  List.length (generations (trace st)) = calls st
  /\ forall k modelName attempt,
       List.nth_error (generations (trace st)) k = Some (modelName, attempt) ->
       exists message, attempt_once c modelName prompt k = Throw message.

(** The state [st] was reached by one successful call, made with
    [modelName], after calls that all failed. *)
Definition first_success (models : list string) (maxRetries : nat)
    (questions : list json) (st : state) : Prop :=
  exists before modelName attempt,
    all_failed before
    /\ trace st = (trace before ++ [EvGenerate modelName attempt])%list
    /\ calls st = S (calls before)
    /\ In modelName models
    /\ (1 <= attempt <= maxRetries)%nat
    /\ attempt_once c modelName prompt (calls before) = Ok questions.

Lemma generations_app (a b : list event) :
  generations (a ++ b) = (generations a ++ generations b)%list.
Proof. unfold generations. apply flat_map_app. Qed.

Lemma all_failed_step st modelName attempt message (waited : list event) :
  all_failed st ->
  attempt_once c modelName prompt (calls st) = Throw message ->
  generations waited = [] ->
  all_failed {| calls := S (calls st); lastError := Some message;
                trace := ((trace st ++ [EvGenerate modelName attempt]) ++ waited)%list |}.
Proof.
  intros [Hlen Hall] Hfail Hwaited. unfold all_failed. cbn [calls trace].
  rewrite !generations_app, Hwaited, app_nil_r. cbn [generations flat_map app].
  split; [rewrite length_app; simpl; lia|].
  intros k m a Hk.
  destruct (Nat.lt_ge_cases k (List.length (generations (trace st)))) as [Hlt|Hge].
  - rewrite nth_error_app1 in Hk by exact Hlt. now apply (Hall k m a).
  - rewrite nth_error_app2 in Hk by exact Hge.
    destruct (k - List.length (generations (trace st)))%nat as [|j] eqn:Hj; simpl in Hk.
    + injection Hk as <- <-. replace k with (calls st) by lia. eauto.
    + destruct j; discriminate.
Qed.

Lemma try_attempts_first_success modelName maxRetries attempts st :
  all_failed st ->
  (forall attempt, In attempt attempts -> (1 <= attempt <= maxRetries)%nat) ->
  match try_attempts c modelName prompt maxRetries attempts st with
  | Returned questions st' => first_success [modelName] maxRetries questions st'
  | Exhausted st' => all_failed st'
  end.
Proof.
  revert st. induction attempts as [|attempt rest IH]; intros st Hst Hrange; simpl;
    [exact Hst|].
  destruct (attempt_once c modelName prompt (calls st)) as [questions|message] eqn:E.
  - exists st, modelName, attempt. cbn [calls trace].
    split; [exact Hst|]. split; [reflexivity|]. split; [reflexivity|].
    split; [now left|]. split; [apply Hrange; now left | exact E].
  - apply IH; [|intros a Ha; apply Hrange; now right].
    destruct (attempt <? maxRetries)%nat.
    + now apply all_failed_step.
    + rewrite <- (app_nil_r (trace st ++ _)). now apply all_failed_step.
Qed.

Lemma first_success_incl models models' maxRetries questions st :
  incl models models' ->
  first_success models maxRetries questions st ->
  first_success models' maxRetries questions st.
Proof.
  intros Hincl (before & m & a & H1 & H2 & H3 & H4 & H5).
  exists before, m, a.
  split; [exact H1|]. split; [exact H2|]. split; [exact H3|].
  split; [now apply Hincl | exact H5].
Qed.

Lemma try_models_first_success maxRetries models st :
  all_failed st ->
  match try_models c prompt maxRetries models st with
  | Returned questions st' => first_success models maxRetries questions st'
  | Exhausted st' => all_failed st'
  end.
Proof.
  revert st. induction models as [|modelName rest IH]; intros st Hst; simpl; [exact Hst|].
  destruct (getGenerativeModel c modelName).
  - specialize (IH {| calls := calls st; lastError := Some s; trace := trace st |} Hst).
    destruct (try_models c prompt maxRetries rest _); [|exact IH].
    eapply first_success_incl; [|exact IH]. intros m Hm. now right.
  - pose proof (try_attempts_first_success modelName maxRetries (List.seq 1 maxRetries) st Hst)
      as H1.
    destruct (try_attempts c modelName prompt maxRetries _ st) as [questions st1|st1].
    + eapply first_success_incl; [|apply H1].
      * intros m [<-|[]]. now left.
      * intros a Ha. apply in_seq in Ha. lia.
    + specialize (IH st1 (H1 ltac:(intros a Ha; apply in_seq in Ha; lia))).
      destruct (try_models c prompt maxRetries rest st1); [|exact IH].
      eapply first_success_incl; [|exact IH]. intros m Hm. now right.
Qed.

Lemma all_failed_initial : all_failed initial.
Proof. split; [reflexivity|]. intros [|k] m a H; discriminate. Qed.

(** The questions [generateWithRetry] returns are those of the last
    generation call it made: that call, with a model of the fallback chain,
    succeeded, every call before it failed, and no call was made after it. *)
Theorem generateWithRetry_first_success (maxRetries : nat) (questions : list json)
    (st : state) :
  generateWithRetry c prompt maxRetries = (Ok questions, st) ->
  exists earlier modelName attempt,
    trace st = (earlier ++ [EvGenerate modelName attempt])%list
    /\ In modelName MODEL_FALLBACK_CHAIN
    /\ (1 <= attempt <= maxRetries)%nat
    /\ calls st = S (List.length (generations earlier))
    /\ attempt_once c modelName prompt (List.length (generations earlier)) = Ok questions
    /\ forall k m a,
         List.nth_error (generations earlier) k = Some (m, a) ->
         exists message, attempt_once c m prompt k = Throw message.
Proof.
  unfold generateWithRetry.
  pose proof (try_models_first_success maxRetries MODEL_FALLBACK_CHAIN initial
                all_failed_initial) as H.
  destruct (try_models c prompt maxRetries MODEL_FALLBACK_CHAIN initial) as [qs st'|st'].
  - intros E. injection E as <- <-.
    destruct H as (before & m & a & [Hlen Hall] & Htrace & Hcalls & Hin & Hrange & Hok).
    exists (trace before), m, a. rewrite Hlen.
    repeat split; try assumption; try lia.
  - destruct (lastError st'); discriminate.
Qed.

End FirstSuccess.

Section FirstSuccessExamples.

Import Gemini.

(** A service whose first two answers cannot be parsed. *)
Definition third_time_lucky : client :=
  {| getGenerativeModel := fun _ => None;
     generateContent := fun call _ _ =>
       if (call <? 2)%nat then Ok "not json" else Ok "{ the response }";
     JSON_parse := fun text =>
       if String.eqb text "not json" then Throw "Unexpected token"
       else Ok (JObject [("questions", JArray [sample_question "A"])]) |}.

Example generateWithRetry_third_time_lucky :
  generateWithRetry third_time_lucky "prompt" 3
  = (Ok [sample_question "A"],
     {| calls := 3; lastError := Some "Invalid response format: Unexpected token";
        trace := [EvGenerate "gemini-2.0-flash" 1; EvWait 1000;
                  EvGenerate "gemini-2.0-flash" 2; EvWait 2000;
                  EvGenerate "gemini-2.0-flash" 3] |}).
Proof. reflexivity. Qed.

Lemma generateWithRetry_first_success_witness :
  exists earlier modelName attempt,
    [EvGenerate "gemini-2.0-flash" 1; EvWait 1000;
     EvGenerate "gemini-2.0-flash" 2; EvWait 2000;
     EvGenerate "gemini-2.0-flash" 3]
    = (earlier ++ [EvGenerate modelName attempt])%list
    /\ In modelName MODEL_FALLBACK_CHAIN
    /\ (1 <= attempt <= 3)%nat
    /\ 3%nat = S (List.length (generations earlier))
    /\ attempt_once third_time_lucky modelName "prompt" (List.length (generations earlier))
       = Ok [sample_question "A"]
    /\ forall k m a,
         List.nth_error (generations earlier) k = Some (m, a) ->
         exists message, attempt_once third_time_lucky m "prompt" k = Throw message.
Proof.
  apply (generateWithRetry_first_success third_time_lucky "prompt" 3 [sample_question "A"]
           {| calls := 3; lastError := Some "Invalid response format: Unexpected token";
              trace := [EvGenerate "gemini-2.0-flash" 1; EvWait 1000;
                        EvGenerate "gemini-2.0-flash" 2; EvWait 2000;
                        EvGenerate "gemini-2.0-flash" 3] |}).
  reflexivity.
Defined.

End FirstSuccessExamples.
(** ** What [parseQuizResponse] accepts *)

Section ParseCharacterisation.

Import Gemini.

(** The text handed to [JSON.parse], lines 167-174: the response without
    the white space around it and without code fences. *)
Definition unfenced (text : string) : string :=
  let cleanedText := trim text in
  if startsWith "```json" cleanedText then
    strip_suffix_ws "```" (strip_prefix_ws "```json" cleanedText)
  else if startsWith "```" cleanedText then
    strip_suffix_ws "```" (strip_prefix_ws "```" cleanedText)
  else cleanedText.

Lemma validated_question_passes (q : json) (index : nat) :
  validated_question q -> validateQuestion q index = Ok tt.
Proof.
  intros (fields & question & options & answer & explanation
          & -> & E1 & N1 & E2 & N2 & E3 & N3 & E4 & N4).
  unfold validateQuestion. cbn [get_prop bind].
  rewrite E1, E2, E3, E4. cbn [truthy_json is_string isArray array_length].
  apply String.eqb_neq in N1, N3, N4. rewrite N1, N3, N4, N2. reflexivity.
Qed.

Lemma forEach_validate_passes (questions : list json) (index : nat) :
  Forall validated_question questions -> forEach_validate questions index = Ok tt.
Proof.
  intros H. revert index. induction H as [|q rest Hq _ IH]; intros index; simpl;
    [reflexivity|].
  rewrite (validated_question_passes q index Hq). simpl. apply IH.
Qed.

Lemma parseQuizResponse_unfold (parse : string -> result json) (text : string) :
  parseQuizResponse parse text
  = match
      bind (parse (unfenced text)) (fun data =>
      bind (get_prop data "questions") (fun questions =>
      if negb (truthy_json questions) || negb (isArray questions) then
        Throw "Invalid response structure: missing questions array"
      else
        match questions with
        | Some (JArray items) => bind (forEach_validate items 0) (fun _ => Ok items)
        | _ => Throw "Invalid response structure: missing questions array"
        end))
    with
    | Ok questions => Ok questions
    | Throw message => Throw ("Invalid response format: " ++ message)
    end.
Proof. reflexivity. Qed.

Lemma parseQuizResponse_ok (parse : string -> result json) (text : string)
    (items : list json) :
  parseQuizResponse parse text = Ok items ->
  exists fields,
    parse (unfenced text) = Ok (JObject fields)
    /\ lookup "questions" fields = Some (JArray items)
    /\ Forall validated_question items.
Proof.
  rewrite parseQuizResponse_unfold.
  destruct (parse (unfenced text)) as [data|m] eqn:Hparse; simpl; [|discriminate].
  destruct data as [| | | | |fields]; simpl; try discriminate.
  destruct (lookup "questions" fields) as [[| | | |found|]|] eqn:E; simpl; try discriminate;
    try (destruct (negb _ || _); discriminate).
  destruct (forEach_validate found 0) as [[]|m] eqn:Hall; simpl; [|discriminate].
  intros H. injection H as <-. exists fields.
  split; [reflexivity|]. split; [exact E|]. now apply (forEach_validate_ok found 0).
Qed.

Lemma parseQuizResponse_accepts (parse : string -> result json) (text : string)
    (fields : list (string * json)) (items : list json) :
  parse (unfenced text) = Ok (JObject fields) ->
  lookup "questions" fields = Some (JArray items) ->
  Forall validated_question items ->
  parseQuizResponse parse text = Ok items.
Proof.
  intros Hparse Hquestions Hall.
  rewrite parseQuizResponse_unfold, Hparse. cbn [bind get_prop].
  rewrite Hquestions. cbn [truthy_json isArray negb orb].
  now rewrite (forEach_validate_passes items 0 Hall).
Qed.

(** [parseQuizResponse] returns an array exactly when the unfenced response
    parses to an object whose [questions] is that array and every element
    of it passes the four checks; it returns that array unchanged (an empty
    one included).  Any other response is answered with an error whose
    message starts with "Invalid response format: ". *)
Theorem parseQuizResponse_accepts_exactly (parse : string -> result json) (text : string) :
  (forall items,
     parseQuizResponse parse text = Ok items
     <-> exists fields,
           parse (unfenced text) = Ok (JObject fields)
           /\ lookup "questions" fields = Some (JArray items)
           /\ Forall validated_question items)
  /\ (forall message,
        parseQuizResponse parse text = Throw message ->
        exists cause, message = "Invalid response format: " ++ cause).
Proof.
  split.
  - intros items. split; [apply parseQuizResponse_ok|].
    intros (fields & Hparse & Hquestions & Hall).
    now apply (parseQuizResponse_accepts parse text fields).
  - intros message. rewrite parseQuizResponse_unfold.
    destruct (bind _ _) as [questions|cause]; [discriminate|].
    intros H. injection H as <-. now exists cause.
Qed.

End ParseCharacterisation.

(** ** A newly generated quiz *)

Section NewQuiz.

Import Generate.

Lemma generateQuiz_validated c content n d questions st :
  Gemini.generateQuiz c content n d = (Ok questions, st) ->
  Forall validated_question questions
  /\ (1 <= generation_calls (Gemini.trace st))%nat
  /\ 1 <= n <= 20
  /\ In d ["easy"; "medium"; "hard"].
Proof.
  unfold Gemini.generateQuiz.
  destruct (String.eqb content "" || _); [discriminate|].
  destruct ((n <? 1) || (n >? 20)) eqn:Hn; [discriminate|].
  destruct (negb _) eqn:Hd; [discriminate|].
  unfold Gemini.generateWithRetry.
  pose proof (try_models_first_success c (Gemini.createQuizPrompt content n d) 3
                Gemini.MODEL_FALLBACK_CHAIN Gemini.initial
                (all_failed_initial c (Gemini.createQuizPrompt content n d))) as H.
  destruct (Gemini.try_models c _ 3 Gemini.MODEL_FALLBACK_CHAIN Gemini.initial)
    as [qs st'|st']; [|destruct (Gemini.lastError st'); discriminate].
  intros E. injection E as <- <-.
  destruct H as (before & m & a & _ & Htrace & _ & _ & _ & Hok).
  split; [|split; [rewrite Htrace, generation_calls_generate; lia|split]].
  - unfold Gemini.attempt_once in Hok.
    destruct (Gemini.generateContent c _ m _) as [text|msg]; simpl in Hok; [|discriminate].
    apply parseQuizResponse_ok in Hok. destruct Hok as (_ & _ & _ & Hall). exact Hall.
  - apply orb_false_iff in Hn. destruct Hn as [H1 H2].
    apply Z.ltb_ge in H1. rewrite Z.gtb_ltb in H2. apply Z.ltb_ge in H2. lia.
  - apply negb_false_iff, existsb_exists in Hd. destruct Hd as (x & Hx & Hdx).
    apply String.eqb_eq in Hdx. now subst x.
Qed.

Lemma generateNew_generated env quizzes done book bounds actualPageRange n d
    quizId fromCache count message view :
  sent (response (generateNew env quizzes done book bounds actualPageRange n d))
  = Success quizId fromCache count message view ->
  exists content st,
    Gemini.generateQuiz (ai env) content n d = (Ok (v_questions view), st)
    /\ (String.length content <= MAX_CHARS)%nat
    /\ v_difficulty view = d
    /\ v_numberOfQuestions view = Z.of_nat (List.length (v_questions view))
    /\ events (generateNew env quizzes done book bounds actualPageRange n d)
       = (done ++ Gemini.trace st
            ++ [EvSave (QuizCache.generateCacheKey (Book._id book) (Some actualPageRange)
                          (v_numberOfQuestions view) d)])%list.
Proof.
  unfold generateNew.
  destruct (selectContent book bounds) as [[rejected|contentText]|msg] eqn:Hsel; simpl.
  - apply selectContent_rejected in Hsel as [error ->]. discriminate.
  - destruct (_ || _); [discriminate|].
    destruct (Gemini.generateQuiz (ai env) _ n d) as [[questions|msg] st] eqn:Hgen; simpl.
    + destruct (QuizCache.saveQuizToCache _ _ _ _ _) as [[quiz quizzes']|msg] eqn:Hsave;
        simpl.
      * intros H. injection H as <- <- _ _ <-. simpl.
        destruct (saveQuizToCache_ok _ _ _ _ _ _ _ Hsave)
          as (_ & _ & _ & _ & Hq & _ & Hcount & _).
        simpl in Hq, Hcount. rewrite Hq, Hcount.
        exists (text (truncateText contentText MAX_CHARS)), st.
        split; [exact Hgen|]. split; [apply truncateText_length|].
        unfold QuizCache.saveQuizToCache, Quiz.save_new in Hsave.
        destruct (Quiz.insert_fault _ _); [discriminate|].
        destruct (List.existsb _ _); [discriminate|].
        simpl in Hsave. injection Hsave as <- _. simpl.
        split; [reflexivity|]. split; [reflexivity|]. now rewrite <- app_assoc.
      * destruct (on_error_failure env msg) as (code & error & details & ->). discriminate.
    + destruct (on_error_failure env msg) as (code & error & details & ->). discriminate.
  - destruct (on_error_failure env msg) as (code & error & details & ->). discriminate.
Qed.

(** A quiz the handler answers as newly generated: each of its questions
    has a non-empty question text, four options, a non-empty answer and a
    non-empty explanation; its [numberOfQuestions] is the number of
    questions delivered (which need not be the number asked for); its
    difficulty is one of the three levels; and at least one generation call
    was made for it. *)
Theorem handler_new_quiz_validated env quizzes req quizId count message view :
  sent (response (handler env quizzes req)) = Success quizId false count message view ->
  Forall validated_question (v_questions view)
  /\ v_numberOfQuestions view = Z.of_nat (List.length (v_questions view))
  /\ In (v_difficulty view) ["easy"; "medium"; "hard"]
  /\ (1 <= generation_calls (events (handler env quizzes req)) <= 9)%nat.
Proof.
  unfold handler.
  destruct (negb (String.eqb _ _)); [discriminate|].
  destruct (bookId (body req)) as [id|]; [|discriminate].
  destruct (String.eqb id ""); [discriminate|].
  destruct (negb (isValidObjectId env id)); [discriminate|].
  destruct (_ || _); [discriminate|].
  destruct (negb (List.existsb _ _)); [discriminate|].
  destruct (validatePageRange _) as [bounds|msg]; [|discriminate].
  unfold serve.
  destruct (connectDB env) as [msg|].
  { destruct (on_error_failure env msg) as (code & error & details & ->). discriminate. }
  destruct (Book_findById env id) as [[book|]|msg]; [|discriminate|].
  - destruct (QuizCache.findCachedQuiz _ _ quizzes _ _ _ _) as [[hit|] quizzes'];
      [discriminate|].
    intros Hsent.
    destruct (generateNew_generated _ _ _ _ _ _ _ _ _ _ _ _ _ Hsent)
      as (content & st & Hgen & _ & Hd & Hcount & Hev).
    destruct (generateQuiz_validated _ _ _ _ _ _ Hgen) as (Hall & Hcalls & _ & Hlevel).
    split; [exact Hall|]. split; [exact Hcount|]. split; [now rewrite Hd|].
    rewrite Hev.
    pose proof (generateQuiz_cost (ai env) content
                  (or_default (numberOfQuestions (body req)) 5)
                  match difficulty (body req) with
                  | Some d => if String.eqb d "" then "medium" else d
                  | None => "medium"
                  end) as [G _].
    rewrite Hgen in G. cbn [snd] in G.
    rewrite !generation_calls_app.
    match goal with
    | |- context [generation_calls [EvSave ?k]] =>
        change (generation_calls [EvSave k]) with 0%nat
    end.
    match goal with
    | |- context [generation_calls [EvConnect; ?a; ?b]] =>
        change (generation_calls [EvConnect; a; b]) with 0%nat
    end.
    lia.
  - destruct (on_error_failure env msg) as (code & error & details & ->). discriminate.
Qed.

End NewQuiz.

Section NewQuizExamples.

Import Generate.

(** The quiz the sample service delivers for the whole sample book: one
    question, where five were asked for. *)
Definition whole_book_view : QuizView :=
  {| v_id := "quiz-1"; v_title := "Sample - Full Book Quiz";
     v_bookId := sample_id; v_bookTitle := "Sample";
     v_generatedDate := 1000;
     v_pageRange := {| start := Some 1; end_ := Some 3 |};
     v_difficulty := "medium"; v_numberOfQuestions := 1;
     v_questions := [sample_question "A"];
     v_wasTruncated := Some false |}.

Lemma handler_new_quiz_validated_witness :
  Forall validated_question (v_questions whole_book_view)
  /\ v_numberOfQuestions whole_book_view
     = Z.of_nat (List.length (v_questions whole_book_view))
  /\ In (v_difficulty whole_book_view) ["easy"; "medium"; "hard"]
  /\ (1 <= generation_calls
             (events (handler (sample_env sample_book Quiz.no_faults) []
                        whole_book_request)) <= 9)%nat.
Proof.
  apply (handler_new_quiz_validated (sample_env sample_book Quiz.no_faults) []
           whole_book_request "quiz-1" 1 "Quiz generated successfully" whole_book_view).
  vm_compute. reflexivity.
Defined.

End NewQuizExamples.
(** ** Code fences around the response ([parseQuizResponse]) *)

Section Fences.

Import Gemini.

Definition fence : string := "```".

Lemma trimStart_whitespace (a b : string) :
  all_whitespace a = true -> trimStart (a ++ b) = trimStart b.
Proof.
  induction a as [|c a IH]; simpl; intros H; [reflexivity|].
  apply andb_true_iff in H. destruct H as [Hc Ha]. rewrite Hc. now apply IH.
Qed.

Lemma trimStart_app (a : string) (c : ascii) (b : string) :
  is_whitespace c = false -> trimStart (a ++ String c b) = trimStart a ++ String c b.
Proof.
  intros Hc. induction a as [|x a IH]; simpl; [now rewrite Hc|].
  destruct (is_whitespace x); [exact IH | reflexivity].
Qed.

Lemma all_whitespace_app (a : string) (c : ascii) (b : string) :
  is_whitespace c = false -> all_whitespace (a ++ String c b) = false.
Proof.
  intros Hc. induction a as [|x a IH]; simpl; [now rewrite Hc|].
  rewrite IH. apply andb_false_r.
Qed.

Lemma trimEnd_whitespace (s : string) : all_whitespace s = true -> trimEnd s = "".
Proof. destruct s as [|c s]; [reflexivity|]. cbn [trimEnd]. now intros ->. Qed.

Lemma trimEnd_app (a : string) (c : ascii) (b : string) :
  is_whitespace c = false -> all_whitespace b = true ->
  trimEnd (a ++ String c b) = a ++ String c "".
Proof.
  intros Hc Hb. induction a as [|x a IH].
  - pose proof (all_whitespace_app "" c b Hc) as H0. cbn [append] in H0.
    cbn [append trimEnd]. rewrite H0. now rewrite (trimEnd_whitespace b Hb).
  - pose proof (all_whitespace_app (String x a) c b Hc) as H0. cbn [append] in H0.
    cbn [append trimEnd]. rewrite H0. now rewrite IH.
Qed.

Lemma prefix_app (p s : string) : String.prefix p (p ++ s) = true.
Proof.
  induction p as [|c p IH]; simpl; [now destruct s|].
  destruct (ascii_dec c c); [exact IH | contradiction].
Qed.

Lemma drop_app (p s : string) : drop (String.length p) (p ++ s) = s.
Proof. induction p as [|c p IH]; simpl; [reflexivity | exact IH]. Qed.

(** No closing fence is found before the last one: what follows any
    earlier position holds a back quote of the last fence. *)
Lemma not_whitespace_before_fence (k : nat) (a b : string) :
  (k <= String.length a + 2)%nat ->
  all_whitespace (drop k (a ++ fence ++ b)) = false.
Proof.
  revert k. induction a as [|x a IH]; intros k Hk.
  - destruct k as [|[|[|k]]]; simpl in Hk; try lia; reflexivity.
  - destruct k as [|k].
    + pose proof (IH 0%nat ltac:(lia)) as H0. cbn [drop] in H0.
      cbn [drop append all_whitespace]. rewrite H0. apply andb_false_r.
    + cbn [drop append]. apply IH. simpl in Hk. lia.
Qed.

Lemma strip_suffix_ws_fence (a b : string) :
  all_whitespace b = true -> strip_suffix_ws fence (a ++ fence ++ b) = a.
Proof.
  intros Hb. induction a as [|x a IH].
  - cbn [append]. unfold fence at 2. cbn [append].
    unfold strip_suffix_ws; fold strip_suffix_ws.
    change (String "`" (String "`" (String "`" b))) with (fence ++ b).
    rewrite prefix_app, drop_app, Hb. reflexivity.
  - cbn [append]. unfold strip_suffix_ws; fold strip_suffix_ws.
    replace (all_whitespace (drop (String.length fence) (String x (a ++ fence ++ b))))
      with false.
    + rewrite andb_false_r. now rewrite IH.
    + symmetry. apply (not_whitespace_before_fence 3 (String x a) b). simpl. lia.
Qed.

(** A response wrapped in code fences, with or without the [json] tag and
    with any white space around the fences, is parsed as what stands
    between the fences, less the white space after the opening fence; a
    valid quiz between fences is therefore accepted. *)
Theorem parseQuizResponse_fenced (tag lead body tail : string) :
  tag = "json" \/ (tag = "" /\ String.prefix "json" (body ++ fence) = false) ->
  all_whitespace lead = true ->
  all_whitespace tail = true ->
  let text := lead ++ fence ++ tag ++ body ++ fence ++ tail in
  unfenced text = trimStart body
  /\ forall parse fields items,
       parse (trimStart body) = Ok (JObject fields) ->
       lookup "questions" fields = Some (JArray items) ->
       Forall validated_question items ->
       parseQuizResponse parse text = Ok items.
Proof.
  intros Htag Hlead Htail text.
  assert (Htrim : trim text = fence ++ tag ++ body ++ fence).
  { unfold trim, text. rewrite (trimStart_whitespace lead _ Hlead).
    replace (trimStart (fence ++ tag ++ body ++ fence ++ tail))
      with ((fence ++ tag ++ body ++ "``") ++ String "`" tail)
      by (rewrite !append_assoc; reflexivity).
    rewrite trimEnd_app by (reflexivity || exact Htail).
    rewrite !append_assoc. reflexivity. }
  assert (Hbody : strip_suffix_ws fence (trimStart (body ++ fence)) = trimStart body).
  { unfold fence at 2. rewrite trimStart_app by reflexivity.
    change (String "`" "``") with (fence ++ ""). now apply strip_suffix_ws_fence. }
  assert (E : unfenced text = trimStart body).
  { unfold unfenced. cbv zeta. rewrite Htrim. unfold startsWith, strip_prefix_ws.
    destruct Htag as [->|[-> Hplain]].
    - change (fence ++ "json" ++ body ++ fence) with ("```json" ++ body ++ fence).
      rewrite prefix_app, drop_app. exact Hbody.
    - change (fence ++ "" ++ body ++ fence) with (fence ++ body ++ fence).
      replace (String.prefix "```json" (fence ++ body ++ fence)) with false
        by (symmetry; exact Hplain).
      change (String.prefix "```" (fence ++ body ++ fence))
        with (String.prefix fence (fence ++ body ++ fence)).
      rewrite prefix_app.
      change (String.length "```") with (String.length fence).
      rewrite drop_app. exact Hbody. }
  split; [exact E|].
  intros parse fields items Hparse. apply parseQuizResponse_accepts. now rewrite E.
Qed.

End Fences.

Section FencesExamples.

Import Gemini.

Lemma parseQuizResponse_fenced_witness :
  let text := "" ++ fence ++ "json" ++ "
{ the response }
" ++ fence ++ "
" in
  unfenced text = trimStart "
{ the response }
"
  /\ forall parse fields items,
       parse (trimStart "
{ the response }
") = Ok (JObject fields) ->
       lookup "questions" fields = Some (JArray items) ->
       Forall validated_question items ->
       parseQuizResponse parse text = Ok items.
Proof.
  apply (parseQuizResponse_fenced "json" "" "
{ the response }
" "
").
  - now left.
  - reflexivity.
  - reflexivity.
Defined.

End FencesExamples.
(** ** Truncation keeps a prefix ([truncateText]) *)

Section TruncationPrefix.

Import Generate.

(** [truncateText] only ever drops characters from the end: its result is
    a prefix of the text, the whole text exactly when [wasTruncated] is
    false; and truncating the result again changes nothing. *)
Theorem truncateText_prefix (text : string) (maxChars : nat) :
  let r := truncateText text maxChars in
  (exists rest,
     text = Generate.text r ++ rest /\ (wasTruncated r = false <-> rest = ""))
  /\ truncateText (Generate.text r) maxChars
     = {| text := Generate.text r; wasTruncated := false |}.
Proof.
  cbv zeta. split; [|apply truncateText_short, truncateText_length].
  destruct (Nat.leb_spec (String.length text) maxChars) as [Hle|Hlt].
  - rewrite (truncateText_short _ _ Hle). simpl. exists "".
    split; [now rewrite append_nil_r | tauto].
  - pose proof (truncateText_length text maxChars) as Hlen.
    assert (Hprefix : exists rest, text = Generate.text (truncateText text maxChars) ++ rest).
    { rewrite (truncateText_long _ _ Hlt). cbv zeta. simpl.
      set (T := String.substring 0 maxChars text).
      destruct (substring_0_split text maxChars) as [tail Htail]. fold T in Htail.
      destruct (lastIndexOf_spec " "%char T) as [[E _] | [k [E [G _]]]]; rewrite E.
      - simpl. now exists tail.
      - pose proof (get_Some_lt _ _ _ G) as Hk.
        destruct (Z.gtb_spec (Z.of_nat k) 0); [|now exists tail].
        rewrite js_substring_0 by lia. rewrite Nat2Z.id.
        destruct (substring_0_split T k) as [mid Hmid].
        exists (mid ++ tail). rewrite <- append_assoc, <- Hmid. exact Htail. }
    destruct Hprefix as [rest Hrest]. exists rest. split; [exact Hrest|].
    assert (Hflag : wasTruncated (truncateText text maxChars) = true)
      by (apply truncateText_flag; lia).
    rewrite Hflag. split; [discriminate|]. intros ->.
    rewrite append_nil_r in Hrest. rewrite <- Hrest in Hlen. lia.
Qed.

End TruncationPrefix.

(** ** The most used configurations and the tokens saved ([getCacheStats]) *)

Section TopConfigurations.

Import QuizCache.

(** The entry of [topConfigurations] made of a quiz, lines 134-140. *)
Definition configuration (q : Quiz.t) : TopConfiguration :=
  {| tc_pageRange :=
       template (start (Quiz.pageRange q)) ++ "-" ++ template (end_ (Quiz.pageRange q));
     tc_difficulty := Quiz.difficulty q;
     tc_questions := Quiz.numberOfQuestions q;
     tc_usageCount := Quiz.usageCount q;
     tc_lastUsed := Quiz.lastUsedAt q |}.

Definition more_used (a b : Quiz.t) : Prop := Quiz.usageCount b <= Quiz.usageCount a.

Lemma sort_ext {A} (f g : A -> A -> Z) (l : list A) :
  (forall a b, f a b = g a b) -> Js.sort f l = Js.sort g l.
Proof.
  intros Hfg. induction l as [|x l IH]; simpl; [reflexivity|].
  rewrite IH. generalize (Js.sort g l). intros s.
  induction s as [|y s IHs]; simpl; [reflexivity|].
  now rewrite Hfg, IHs.
Qed.

Lemma sort_descending (quizzes : list Quiz.t) :
  StronglySorted more_used
    (Js.sort (fun a b => Quiz.usageCount b - Quiz.usageCount a) quizzes).
Proof.
  rewrite (sort_ext _ (fun a b => - Quiz.usageCount a - - Quiz.usageCount b))
    by (intros a b; lia).
  pose proof (sort_sorted (fun q => - Quiz.usageCount q) quizzes) as H.
  eapply StronglySorted_ind with (P := StronglySorted more_used) in H.
  - exact H.
  - constructor.
  - intros a l _ IH Ha. constructor; [exact IH|].
    eapply Forall_impl; [|exact Ha]. unfold more_used. intros b Hb. simpl in Hb. lia.
Qed.

Lemma sorted_firstn_skipn {A} (R : A -> A -> Prop) (n : nat) (l : list A) :
  StronglySorted R l ->
  StronglySorted R (List.firstn n l)
  /\ forall t r, In t (List.firstn n l) -> In r (List.skipn n l) -> R t r.
Proof.
  intros H. revert n. induction H as [|x l Hl IH Hx]; intros [|n]; simpl.
  1-3: split; [constructor | intros t r []].
  destruct (IH n) as [Hs Hr]. rewrite Forall_forall in Hx. split.
  - constructor; [exact Hs|].
    apply Forall_forall. intros y Hy. apply Hx.
    rewrite <- (firstn_skipn n l). apply in_or_app. now left.
  - intros t r [<-|Ht] Hin.
    + apply Hx. rewrite <- (firstn_skipn n l). apply in_or_app. now right.
    + now apply Hr.
Qed.

(** [topConfigurations] lists at most five quizzes of the book, the most
    used first, and no quiz left out was used more than a listed one. *)
Theorem getCacheStats_top (f : Quiz.faults) (store : Quiz.collection) (book : string)
    (stats : CacheStats) :
  getCacheStats f store book = Ok stats ->
  exists chosen others,
    Permutation (quizzes_of store book) (chosen ++ others)
    /\ topConfigurations stats = List.map configuration chosen
    /\ List.length chosen = Nat.min 5 (List.length (quizzes_of store book))
    /\ StronglySorted more_used chosen
    /\ forall t r, In t chosen -> In r others -> more_used t r.
Proof.
  unfold getCacheStats, Quiz.find.
  destruct (Quiz.find_fault f); [discriminate|]. cbn [bind].
  fold (quizzes_of store book). set (quizzes := quizzes_of store book).
  destruct (Nat.eqb_spec (List.length quizzes) 0) as [Hempty|Hsome].
  - intros H. injection H as <-. exists [], []. simpl.
    destruct quizzes; [|discriminate]. repeat split; try constructor; contradiction.
  - intros H. injection H as <-. cbn [topConfigurations].
    set (sorted := Js.sort (fun a b => Quiz.usageCount b - Quiz.usageCount a) quizzes).
    exists (List.firstn 5 sorted), (List.skipn 5 sorted).
    destruct (sorted_firstn_skipn more_used 5 sorted (sort_descending quizzes)) as [Hs Hr].
    split; [rewrite firstn_skipn; symmetry; apply sort_perm|].
    split; [reflexivity|].
    split; [rewrite length_firstn; f_equal; apply Permutation_length, sort_perm|].
    split; [exact Hs | exact Hr].
Qed.

(** The tokens one quiz saved, summed over quizzes. *)
Definition tokens_saved_by (quizzes : list Quiz.t) : Z :=
  List.fold_right (fun q sum => calculateTokensSaved (Quiz.usageCount q) + sum) 0 quizzes.

Lemma tokens_saved_by_sum (quizzes : list Quiz.t) :
  (forall q, In q quizzes -> 1 <= Quiz.usageCount q) ->
  tokens_saved_by quizzes = (usage_sum quizzes - Z.of_nat (List.length quizzes)) * 1500
  /\ 0 <= tokens_saved_by quizzes.
Proof.
  induction quizzes as [|q l IH]; intros Hused; [simpl; lia|].
  destruct IH as [IH1 IH2]; [intros x Hx; apply Hused; now right|].
  pose proof (Hused q (or_introl eq_refl)) as Hq.
  cbn [tokens_saved_by fold_right usage_sum List.length].
  fold (tokens_saved_by l). fold (usage_sum l).
  unfold calculateTokensSaved. rewrite Nat2Z.inj_succ. lia.
Qed.

(** With one quiz per cache key and every quiz counted from its first use
    on, the tokens [getCacheStats] reports as saved for a book are the
    tokens [calculateTokensSaved] reports for each of its quizzes, summed;
    they are never negative. *)
Theorem getCacheStats_tokens (f : Quiz.faults) (store : Quiz.collection) (book : string)
    (stats : CacheStats) :
  getCacheStats f store book = Ok stats ->
  NoDup (List.map Quiz.cacheKey (quizzes_of store book)) ->
  (forall q, In q (quizzes_of store book) -> 1 <= Quiz.usageCount q) ->
  tokensSaved stats = tokens_saved_by (quizzes_of store book)
  /\ 0 <= tokensSaved stats
  /\ uniqueConfigurations stats = totalQuizzes stats.
Proof.
  unfold getCacheStats, Quiz.find.
  destruct (Quiz.find_fault f); [discriminate|]. cbn [bind].
  fold (quizzes_of store book). set (quizzes := quizzes_of store book).
  intros Hstats Hkeys Hused.
  destruct (tokens_saved_by_sum quizzes Hused) as [Hsum Hpos].
  destruct (Nat.eqb_spec (List.length quizzes) 0) as [Hempty|Hsome].
  - injection Hstats as <-. simpl. destruct quizzes; [simpl; lia | discriminate].
  - injection Hstats as <-. cbn [tokensSaved uniqueConfigurations totalQuizzes].
    assert (Hdistinct : distinct_count (List.map Quiz.cacheKey quizzes)
                        = Z.of_nat (List.length quizzes)).
    { unfold distinct_count. rewrite (nodup_fixed_point string_dec Hkeys).
      now rewrite length_map. }
    rewrite Hdistinct, totalUsage_sum, <- Hsum. repeat split; lia.
Qed.

End TopConfigurations.

Section TopConfigurationsExamples.

Import QuizCache.

(** A quiz of book b1 for pages 1 to [last], used [uses] times. *)
Definition quiz_used (quizId : string) (last : Z) (uses : Z) : Quiz.t :=
  {| Quiz._id := quizId; Quiz.bookId := "b1";
     Quiz.title := "Book - Pages 1-" ++ string_of_Z last;
     Quiz.generatedDate := 100;
     Quiz.pageRange := {| start := Some 1; end_ := Some last |};
     Quiz.questions := [JString "placeholder"];
     Quiz.difficulty := "easy"; Quiz.numberOfQuestions := 1;
     Quiz.cacheKey :=
       generateCacheKey "b1" (Some {| start := Some 1; end_ := Some last |}) 1 "easy";
     Quiz.usageCount := uses; Quiz.lastUsedAt := 100 + uses;
     Quiz.generatedBy := "gemini" |}.

(** Seven quizzes of book b1, two of them used five times, and one quiz
    of another book among them. *)
Definition busy_store : Quiz.collection :=
  [quiz_used "a" 1 3; quiz_used "b" 2 5; quiz_used "c" 3 4; sample_saved;
   quiz_used "d" 4 1; quiz_used "e" 5 5; quiz_used "f" 6 9; quiz_used "g" 7 2].

(** The entry listed for [quiz_used _ last uses]. *)
Definition listed (last uses : Z) : TopConfiguration :=
  {| tc_pageRange := "1-" ++ string_of_Z last; tc_difficulty := "easy";
     tc_questions := 1; tc_usageCount := uses; tc_lastUsed := 100 + uses |}.

(** Of the seven quizzes the five most used are listed, the most used
    first and the two used five times in the order they are stored in; the
    quizzes used twice and once are cut off, the other book's is not
    counted.  22 of the 29 uses were served from the cache, a rate of
    75.9. *)
Lemma getCacheStats_top_witness :
  exists chosen others,
    Permutation (quizzes_of busy_store "b1") (chosen ++ others)
    /\ [listed 6 9; listed 2 5; listed 5 5; listed 3 4; listed 1 3]
       = List.map configuration chosen
    /\ List.length chosen = Nat.min 5 (List.length (quizzes_of busy_store "b1"))
    /\ StronglySorted more_used chosen
    /\ forall t r, In t chosen -> In r others -> more_used t r.
Proof.
  apply (getCacheStats_top Quiz.no_faults busy_store "b1"
           {| totalQuizzes := 7; uniqueConfigurations := 7;
              cacheHitRate := PrimFloat.div 759%float 10%float;
              tokensSaved := 33000;
              topConfigurations :=
                [listed 6 9; listed 2 5; listed 5 5; listed 3 4; listed 1 3] |}).
  vm_compute. reflexivity.
Defined.

(** The same statistics, read off: which quizzes are listed and which are
    left out. *)
Example getCacheStats_top_busy :
  exists stats,
    getCacheStats Quiz.no_faults busy_store "b1" = Ok stats
    /\ topConfigurations stats
       = List.map configuration
           [quiz_used "f" 6 9; quiz_used "b" 2 5; quiz_used "e" 5 5;
            quiz_used "c" 3 4; quiz_used "a" 1 3]
    /\ totalQuizzes stats = 7
    /\ List.length (topConfigurations stats) = 5%nat.
Proof. eexists. split; [vm_compute; reflexivity|]. vm_compute. now repeat split. Qed.

Lemma getCacheStats_tokens_witness :
  1500 = tokens_saved_by (quizzes_of [used_twice] "b1")
  /\ 0 <= 1500
  /\ 1 = 1.
Proof.
  apply (getCacheStats_tokens Quiz.no_faults [used_twice] "b1"
           {| totalQuizzes := 1; uniqueConfigurations := 1; cacheHitRate := 50%float;
              tokensSaved := 1500;
              topConfigurations :=
                [{| tc_pageRange := "1-3"; tc_difficulty := "easy"; tc_questions := 1;
                    tc_usageCount := 2; tc_lastUsed := 200 |}] |}).
  - vm_compute. reflexivity.
  - repeat constructor. simpl. tauto.
  - intros q [<-|[]]. simpl. lia.
Defined.

End TopConfigurationsExamples.
(** ** The page estimate of books without stored pages ([extractTextFromPages]) *)

Section LegacyEstimate.

Import Generate.

Lemma string_substring_app (s : string) (n p q : nat) :
  String.substring n p s ++ String.substring (n + p) q s = String.substring n (p + q) s.
Proof.
  revert n p q. induction s as [|c s IH]; intros n p q.
  - destruct n, p, q; reflexivity.
  - destruct n as [|n].
    + destruct p as [|p]; simpl.
      * destruct q; reflexivity.
      * now rewrite <- (IH 0%nat p q).
    + simpl. apply IH.
Qed.

Lemma string_substring_all (s : string) : String.substring 0 (String.length s) s = s.
Proof. induction s as [|c s IH]; simpl; [reflexivity | now rewrite IH]. Qed.

(** [substring(a, b)] for indices in order. *)
Lemma js_substring_ordered (s : string) (a b : Z) :
  0 <= a <= b ->
  Js.substring s a b
  = String.substring (Z.to_nat (Z.min a (Z.of_nat (String.length s))))
      (Z.to_nat (Z.min b (Z.of_nat (String.length s)))
       - Z.to_nat (Z.min a (Z.of_nat (String.length s)))) s.
Proof.
  intros H. unfold Js.substring. cbv zeta.
  rewrite (Z.max_r 0 (Z.min a _)) by lia. rewrite (Z.max_r 0 (Z.min b _)) by lia.
  rewrite Z.min_l by lia. rewrite Z.max_r by lia.
  f_equal. lia.
Qed.

Lemma js_substring_app (s : string) (a b c : Z) :
  0 <= a <= b -> b <= c ->
  Js.substring s a b ++ Js.substring s b c = Js.substring s a c.
Proof.
  intros Hab Hbc.
  rewrite !js_substring_ordered by lia.
  set (len := Z.of_nat (String.length s)).
  replace (Z.to_nat (Z.min b len))
    with (Z.to_nat (Z.min a len) + (Z.to_nat (Z.min b len) - Z.to_nat (Z.min a len)))%nat
    at 2 by lia.
  rewrite string_substring_app. f_equal. lia.
Qed.

Lemma js_substring_whole (s : string) (b : Z) :
  Z.of_nat (String.length s) <= b -> Js.substring s 0 b = s.
Proof.
  intros H. rewrite js_substring_ordered by lia.
  rewrite Z.min_l by lia. rewrite Z.min_r by lia.
  simpl. rewrite Nat.sub_0_r, Nat2Z.id. apply string_substring_all.
Qed.

(** The characters per page of the estimate, [Math.ceil(totalChars / totalPages)]. *)
Definition chars_per_page (pdfText : string) (totalPages : Z) : Z :=
  - (- Z.of_nat (String.length pdfText) / totalPages).

Lemma extractTextFromPages_estimate book pdfText totalPages s e :
  Book.pages book = [] ->
  Book.pdfText book = Some pdfText ->
  pdfText <> "" ->
  Book.totalPages book = Some totalPages ->
  1 <= totalPages ->
  extractTextFromPages book s e
  = Ok (Js.substring pdfText ((s - 1) * chars_per_page pdfText totalPages)
          (e * chars_per_page pdfText totalPages)).
Proof.
  intros Hpages Htext Hne Htotal Hpos. unfold extractTextFromPages.
  rewrite Hpages, Htext, Htotal. simpl.
  destruct (String.eqb_spec pdfText "") as [->|_]; [contradiction|].
  destruct totalPages as [|p|p]; try lia. reflexivity.
Qed.

(** For a book that has only its full text and a page count of at least 1,
    the text estimated for pages [s] to [e] followed by the text estimated
    for pages [e + 1] to [f] is the text estimated for pages [s] to [f]:
    consecutive ranges neither overlap nor leave a gap.  The range from
    page 1 to the last page is the whole text. *)
Theorem extractTextFromPages_legacy_consecutive book pdfText totalPages s e f :
  Book.pages book = [] ->
  Book.pdfText book = Some pdfText ->
  pdfText <> "" ->
  Book.totalPages book = Some totalPages ->
  1 <= totalPages ->
  1 <= s <= e ->
  e < f ->
  (exists first second,
     extractTextFromPages book s e = Ok first
     /\ extractTextFromPages book (e + 1) f = Ok second
     /\ extractTextFromPages book s f = Ok (first ++ second))
  /\ extractTextFromPages book 1 totalPages = Ok pdfText.
Proof.
  intros Hpages Htext Hne Htotal Hpos Hse Hef.
  rewrite !(extractTextFromPages_estimate book pdfText totalPages) by assumption.
  set (c := chars_per_page pdfText totalPages).
  assert (Hc : 0 <= c /\ Z.of_nat (String.length pdfText) <= totalPages * c).
  { unfold c, chars_per_page.
    pose proof (Z.div_mod (- Z.of_nat (String.length pdfText)) totalPages ltac:(lia)) as Hdm.
    pose proof (Z.mod_pos_bound (- Z.of_nat (String.length pdfText)) totalPages ltac:(lia))
      as Hmod.
    split; [|nia].
    assert (- Z.of_nat (String.length pdfText) / totalPages <= 0); [|lia].
    apply Z.div_le_upper_bound; lia. }
  split.
  - eexists _, _. split; [reflexivity|]. split; [reflexivity|]. f_equal.
    replace (e + 1 - 1) with e by lia.
    symmetry. apply js_substring_app; nia.
  - f_equal. replace ((1 - 1) * c) with 0 by lia. apply js_substring_whole. lia.
Qed.

End LegacyEstimate.

Section LegacyEstimateExamples.

Import Generate.

Lemma extractTextFromPages_legacy_consecutive_witness :
  (exists first second,
     extractTextFromPages legacy_book 1 1 = Ok first
     /\ extractTextFromPages legacy_book (1 + 1) 2 = Ok second
     /\ extractTextFromPages legacy_book 1 2 = Ok (first ++ second))
  /\ extractTextFromPages legacy_book 1 2 = Ok "hello world".
Proof.
  apply (extractTextFromPages_legacy_consecutive legacy_book "hello world" 2 1 1 2);
    try reflexivity; try discriminate; lia.
Defined.

Example extractTextFromPages_legacy_halves :
  extractTextFromPages legacy_book 1 1 = Ok "hello "
  /\ extractTextFromPages legacy_book 2 2 = Ok "world".
Proof. split; reflexivity. Qed.

End LegacyEstimateExamples.

(** ** The size of a whole book ([totalCharacterCount]) and its truncation *)

Section WholeBookSize.

Import Generate.

(** Each page records the length of its text, as the upload stores it. *)
Definition counts_characters (book : Book.t) : Prop :=
  forall page, In page (Book.pages book) ->
    Page.characterCount page = Z.of_nat (String.length (Page.text page)).

Fixpoint text_length (pages : list Page.t) : Z :=
  match pages with
  | [] => 0
  | page :: rest => Z.of_nat (String.length (Page.text page)) + text_length rest
  end.

Lemma length_join_pages (pages : list Page.t) :
  pages <> [] ->
  Z.of_nat (String.length (join blank_line (List.map Page.text pages)))
  = text_length pages + 2 * (Z.of_nat (List.length pages) - 1).
Proof.
  induction pages as [|page rest IH]; [congruence|]. intros _.
  destruct rest as [|next rest'].
  - simpl. lia.
  - change (join blank_line (List.map Page.text (page :: next :: rest')))
      with (Page.text page ++ blank_line
            ++ join blank_line (List.map Page.text (next :: rest'))).
    rewrite !length_append, !Nat2Z.inj_add, IH by discriminate.
    cbn [text_length List.length]. unfold blank_line. simpl String.length. lia.
Qed.

Lemma totalCharacterCount_sum (book : Book.t) :
  counts_characters book -> Book.totalCharacterCount book = text_length (Book.pages book).
Proof.
  unfold counts_characters, Book.totalCharacterCount.
  destruct (Book.pages book) as [|page rest]; [reflexivity|].
  cbn [List.length Nat.eqb]. generalize (page :: rest). clear. intros pages Hcount.
  assert (H : forall acc,
             List.fold_left
               (fun total page => total + or_default (Some (Page.characterCount page)) 0)
               pages acc = acc + text_length pages); [|now rewrite H].
  induction pages as [|page rest IH]; intros acc; simpl; [lia|].
  rewrite IH by (intros p Hp; apply Hcount; now right).
  rewrite (Hcount page (or_introl eq_refl)).
  destruct (Z.eqb_spec (Z.of_nat (String.length (Page.text page))) 0); lia.
Qed.

(** For a book with stored pages that record the length of their text, the
    text of a whole-book request has [totalCharacterCount] characters plus
    two for each blank line between pages, and it is cut down for the model
    exactly when that number exceeds 60,000. *)
Theorem whole_book_size (book : Book.t) :
  Book.pages book <> [] ->
  counts_characters book ->
  let size :=
    Book.totalCharacterCount book + 2 * (Z.of_nat (List.length (Book.pages book)) - 1) in
  exists content,
    selectContent book None = Ok (inr content)
    /\ Z.of_nat (String.length content) = size
    /\ (wasTruncated (truncateText content MAX_CHARS) = true <-> 60000 < size).
Proof.
  intros Hpages Hcount size. unfold selectContent.
  destruct (Book.pages book) as [|page rest] eqn:E; [congruence|].
  cbn [List.length Nat.ltb Nat.leb]. eexists. split; [reflexivity|].
  assert (Hsize : Z.of_nat (String.length
                              (join blank_line (List.map Page.text (page :: rest)))) = size).
  { rewrite length_join_pages by discriminate. unfold size.
    rewrite (totalCharacterCount_sum book Hcount), E. reflexivity. }
  split; [exact Hsize|].
  rewrite truncateText_flag. fold blank_line. rewrite <- Hsize.
  change MAX_CHARS with (Z.to_nat 60000). lia.
Qed.

End WholeBookSize.

Section WholeBookSizeExamples.

Import Generate.

Lemma whole_book_size_witness :
  let size :=
    Book.totalCharacterCount sample_book
    + 2 * (Z.of_nat (List.length (Book.pages sample_book)) - 1) in
  exists content,
    selectContent sample_book None = Ok (inr content)
    /\ Z.of_nat (String.length content) = size
    /\ (wasTruncated (truncateText content MAX_CHARS) = true <-> 60000 < size).
Proof.
  apply (whole_book_size sample_book).
  - discriminate.
  - intros page [<-|[<-|[<-|[]]]]; reflexivity.
Defined.

End WholeBookSizeExamples.

(** ** The page range a new quiz is recorded with ([isValidPageRange]) *)

Section RecordedRange.

Import Generate.

(** A quiz generated for a request that names a page range is stored with
    exactly that range, both of its bounds at least 1, and its virtual
    [isValidPageRange] holds. *)
Theorem handler_records_valid_range env quizzes req range quizId count message view :
  pageRange (body req) = Some range ->
  sent (response (handler env quizzes req)) = Success quizId false count message view ->
  exists quiz s e,
    store (handler env quizzes req) = (quizzes ++ [quiz])%list
    /\ Quiz._id quiz = quizId
    /\ Quiz.pageRange quiz = range
    /\ range = {| start := Some s; end_ := Some e |}
    /\ 1 <= s <= e
    /\ Quiz.isValidPageRange quiz = true.
Proof.
  intros Hrange. unfold handler.
  destruct (negb (String.eqb _ _)); [discriminate|].
  destruct (bookId (body req)) as [id|]; [|discriminate].
  destruct (String.eqb id ""); [discriminate|].
  destruct (negb (isValidObjectId env id)); [discriminate|].
  destruct (_ || _); [discriminate|].
  destruct (negb (List.existsb _ _)); [discriminate|].
  destruct (validatePageRange _) as [bounds|msg] eqn:Hvalid; [|discriminate].
  rewrite Hrange in Hvalid.
  destruct bounds as [[s e]|]; [|simpl in Hvalid; destruct (_ || _) in Hvalid;
    try discriminate; destruct (_ || _) in Hvalid; try discriminate;
    destruct (Js.gt _ _) in Hvalid; try discriminate;
    destruct (start range), (end_ range); discriminate].
  destruct (validatePageRange_bounds _ _ _ Hvalid) as [Heq Hbounds].
  injection Heq as ->.
  unfold serve.
  destruct (connectDB env) as [msg|].
  { destruct (on_error_failure env msg) as (code & error & details & ->). discriminate. }
  destruct (Book_findById env id) as [[book|]|msg]; [|discriminate|].
  - destruct (QuizCache.findCachedQuiz _ _ quizzes _ _ _ _) as [[hit|] quizzes'] eqn:Hfind;
      [discriminate|].
    assert (E : quizzes' = quizzes).
    { pose proof (findCachedQuiz_miss_store (quiz_faults env) (now env) quizzes id
                    (Some (range_of (s, e)))
                    (or_default (numberOfQuestions (body req)) 5)
                    match difficulty (body req) with
                    | Some d => if String.eqb d "" then "medium" else d
                    | None => "medium"
                    end) as H.
      rewrite Hfind in H. specialize (H eq_refl). congruence. }
    rewrite E. intros Hsent.
    destruct (generateNew_success _ _ _ _ _ _ _ _ _ _ _ _ _ Hsent)
      as (_ & _ & quiz & Hstore & Hpr & _ & _ & Hid & _).
    exists quiz, s, e. split; [exact Hstore|]. split; [exact Hid|].
    split; [exact Hpr|]. split; [reflexivity|]. split; [exact Hbounds|].
    unfold Quiz.isValidPageRange. rewrite Hpr. simpl. apply Z.leb_le. lia.
  - destruct (on_error_failure env msg) as (code & error & details & ->). discriminate.
Qed.

End RecordedRange.

Section RecordedRangeExamples.

Import Generate.

Definition pages_1_2 : PageRange := {| start := Some 1; end_ := Some 2 |}.

Lemma handler_records_valid_range_witness :
  exists quiz s e,
    store (handler (sample_env sample_book Quiz.no_faults) []
             (sample_request (Some pages_1_2) (Some 1) (Some "easy")))
    = ([] ++ [quiz])%list
    /\ Quiz._id quiz = "quiz-1"
    /\ Quiz.pageRange quiz = pages_1_2
    /\ pages_1_2 = {| start := Some s; end_ := Some e |}
    /\ 1 <= s <= e
    /\ Quiz.isValidPageRange quiz = true.
Proof.
  apply (handler_records_valid_range (sample_env sample_book Quiz.no_faults) []
           (sample_request (Some pages_1_2) (Some 1) (Some "easy")) pages_1_2
           "quiz-1" 1 "Quiz generated successfully"
           {| v_id := "quiz-1"; v_title := "Sample - Pages 1-2";
              v_bookId := sample_id; v_bookTitle := "Sample";
              v_generatedDate := 1000; v_pageRange := pages_1_2;
              v_difficulty := "easy"; v_numberOfQuestions := 1;
              v_questions := [sample_question "A"];
              v_wasTruncated := Some false |}).
  - reflexivity.
  - vm_compute. reflexivity.
Defined.

End RecordedRangeExamples.
(** ** A request repeated after an under-delivery *)

Section UnderDelivery.

Import Generate.

(** Two keys that differ in the number of questions only are different. *)
Lemma generateCacheKey_count_inj b r n1 n2 d :
  QuizCache.generateCacheKey b r n1 d = QuizCache.generateCacheKey b r n2 d -> n1 = n2.
Proof.
  unfold QuizCache.generateCacheKey. cbv zeta. intros H.
  do 6 apply append_inv_head in H.
  apply append_inv_tail in H. now apply string_of_Z_inj.
Qed.

Lemma stored_under_app_other store key quiz :
  stored_under store key = None ->
  Quiz.cacheKey quiz <> key ->
  stored_under (store ++ [quiz])%list key = None.
Proof.
  unfold stored_under. intros Hnone Hkey.
  induction store as [|q store IH]; simpl in *.
  - destruct (String.eqb_spec (Quiz.cacheKey quiz) key); [contradiction | reflexivity].
  - destruct (Quiz.cacheKey q =? key)%string; [discriminate | now apply IH].
Qed.

Lemma stored_under_app_some store key quiz :
  Quiz.cacheKey quiz = key -> exists q, stored_under (store ++ [quiz])%list key = Some q.
Proof.
  unfold stored_under. intros Hkey.
  induction store as [|x store IH]; simpl.
  - rewrite Hkey, String.eqb_refl. eauto.
  - destruct (Quiz.cacheKey x =? key)%string; [eauto | exact IH].
Qed.

Lemma findCachedQuiz_none f now store b r n d :
  stored_under store (QuizCache.generateCacheKey b r n d) = None ->
  QuizCache.findCachedQuiz f now store b r n d = (None, store).
Proof.
  intros H. unfold QuizCache.findCachedQuiz, Quiz.findOne.
  destruct (Quiz.findOne_fault f); [reflexivity|].
  unfold stored_under in H. now rewrite H.
Qed.

(** The miss path run again on a collection that already holds a quiz
    under the key of what the service delivers: the same work, and a save
    that the index on [cacheKey] refuses. *)
Lemma generateNew_again env quizzes quizzes2 done book bounds r n d
    quizId fromCache count message view q :
  sent (response (generateNew env quizzes done book bounds r n d))
  = Success quizId fromCache count message view ->
  stored_under quizzes2
    (QuizCache.generateCacheKey (Book._id book) (Some r) (v_numberOfQuestions view) d)
  = Some q ->
  generateNew env quizzes2 done book bounds r n d
  = {| response := on_error env "E11000 duplicate key error";
       store := quizzes2;
       events := events (generateNew env quizzes done book bounds r n d) |}.
Proof.
  unfold generateNew.
  destruct (selectContent book bounds) as [[rejected|contentText]|msg] eqn:Hsel; simpl.
  - apply selectContent_rejected in Hsel as [error ->]. discriminate.
  - destruct (_ || _); [discriminate|].
    destruct (Gemini.generateQuiz (ai env) _ n d) as [[questions|msg] st]; simpl.
    + unfold QuizCache.saveQuizToCache, Quiz.save_new. cbn [Quiz.cacheKey].
      destruct (Quiz.insert_fault _ _) as [msg|]; simpl.
      { destruct (on_error_failure env msg) as (code & error & details & ->). discriminate. }
      destruct (List.existsb _ quizzes); simpl.
      { destruct (on_error_failure env "E11000 duplicate key error")
          as (code & error & details & ->). discriminate. }
      intros H. injection H as _ _ _ _ <-. cbn [v_numberOfQuestions Quiz.numberOfQuestions].
      intros Hstored. apply find_some in Hstored. destruct Hstored as [Hin Hkey].
      assert (Hex : List.existsb
                      (fun x =>
                         String.eqb (Quiz.cacheKey x)
                           (QuizCache.generateCacheKey (Book._id book) (Some r)
                              (Z.of_nat (List.length questions)) d)) quizzes2 = true).
      { apply existsb_exists. exists q. split; [exact Hin | exact Hkey]. }
      cbn [QuizCache.bookId QuizCache.pageRange QuizCache.numberOfQuestions
           QuizCache.difficulty]. rewrite Hex. reflexivity.
    + destruct (on_error_failure env msg) as (code & error & details & ->). discriminate.
  - destruct (on_error_failure env msg) as (code & error & details & ->). discriminate.
Qed.

(** When the service delivers another number of questions than was asked
    for, the quiz is filed under the key of the delivered number.  The same
    request sent again therefore misses the cache, pays for the same
    generation once more, and ends in a 500: its save is refused because
    the key of the delivered number is taken.  The collection stays as the
    first request left it. *)
Theorem handler_under_delivery_fails_again env quizzes req id bounds n d book
    quizId count message view :
  passes_validation env req id bounds n d ->
  connectDB env = None ->
  Book_findById env id = Ok (Some book) ->
  Book._id book = id ->
  Quiz.findOne_fault (quiz_faults env) = None ->
  Quiz.update_fault (quiz_faults env) = None ->
  sent (response (handler env quizzes req)) = Success quizId false count message view ->
  v_numberOfQuestions view <> n ->
  let first := handler env quizzes req in
  let again := handler env (store first) req in
  (exists details,
     response again
     = {| status := 500; sent := Failure "Failed to generate quiz" details |})
  /\ store again = store first
  /\ events again = events first
  /\ (1 <= generation_calls (events again))%nat.
Proof.
  intros Hvalid Hconn Hbook Hid F1 F2 Hsent Hn.
  rewrite !(handler_accepts _ _ _ _ _ _ _ Hvalid) in *.
  destruct (QuizCache.findCachedQuiz (quiz_faults env) (now env) quizzes id
              (Some (actual_range book bounds)) n d) as [[hit|] quizzes'] eqn:Hfind.
  { exfalso. revert Hsent. unfold serve. rewrite Hconn, Hbook.
    fold (actual_range book bounds). rewrite Hfind. discriminate. }
  assert (Hmiss : fst (QuizCache.findCachedQuiz (quiz_faults env) (now env) quizzes id
                         (Some (actual_range book bounds)) n d) = None)
    by now rewrite Hfind.
  pose proof (findCachedQuiz_miss_no_fault _ _ _ _ _ _ _ F1 F2 Hmiss) as Hnone.
  rewrite (serve_miss _ _ _ _ _ _ _ Hconn Hbook Hmiss) in *.
  destruct (generateNew_success _ _ _ _ _ _ _ _ _ _ _ _ _ Hsent)
    as (_ & _ & quiz & Hstore & _ & Hkey & _ & _ & _ & Hcount).
  destruct (generateNew_generated _ _ _ _ _ _ _ _ _ _ _ _ _ Hsent)
    as (content & st & Hgen & _ & _ & _ & Hev).
  destruct (generateQuiz_validated _ _ _ _ _ _ Hgen) as (_ & Hcalls & _).
  cbv zeta. rewrite Hstore. rewrite !(handler_accepts _ _ _ _ _ _ _ Hvalid).
  assert (Hother : Quiz.cacheKey quiz
                   <> QuizCache.generateCacheKey id (Some (actual_range book bounds)) n d).
  { rewrite Hkey, Hid, Hcount. intros E. apply generateCacheKey_count_inj in E.
    contradiction. }
  assert (Hmiss2 : fst (QuizCache.findCachedQuiz (quiz_faults env) (now env)
                          (quizzes ++ [quiz])%list id
                          (Some (actual_range book bounds)) n d) = None).
  { rewrite findCachedQuiz_none; [reflexivity|]. now apply stored_under_app_other. }
  rewrite (serve_miss _ _ _ _ _ _ _ Hconn Hbook Hmiss2).
  destruct (stored_under_app_some quizzes
              (QuizCache.generateCacheKey (Book._id book) (Some (actual_range book bounds))
                 (v_numberOfQuestions view) d) quiz) as [q Hq];
    [now rewrite Hkey, Hcount|].
  rewrite (generateNew_again env quizzes (quizzes ++ [quiz])%list _ book bounds
             (actual_range book bounds) n d _ _ _ _ _ q Hsent Hq).
  cbn [response store events]. split; [|split; [reflexivity|split; [reflexivity|]]].
  - unfold on_error. cbn [includes String.prefix]. eexists. reflexivity.
  - rewrite Hev, !generation_calls_app. lia.
Qed.

End UnderDelivery.

Section UnderDeliveryExamples.

Import Generate.

(** Five questions asked for, one delivered, and the same request again. *)
Lemma handler_under_delivery_fails_again_witness :
  let first := handler (sample_env sample_book Quiz.no_faults) [] whole_book_request in
  let again := handler (sample_env sample_book Quiz.no_faults) (store first)
                 whole_book_request in
  (exists details,
     response again
     = {| status := 500; sent := Failure "Failed to generate quiz" details |})
  /\ store again = store first
  /\ events again = events first
  /\ (1 <= generation_calls (events again))%nat.
Proof.
  apply (handler_under_delivery_fails_again (sample_env sample_book Quiz.no_faults) []
           whole_book_request sample_id None 5 "medium" sample_book
           "quiz-1" 1 "Quiz generated successfully" whole_book_view).
  - check_validation.
  - reflexivity.
  - reflexivity.
  - reflexivity.
  - reflexivity.
  - reflexivity.
  - vm_compute. reflexivity.
  - discriminate.
Defined.

End UnderDeliveryExamples.
(** ** A request while the AI service is down *)

Section ServiceDown.

Import Generate.

Lemma try_attempts_down c modelName prompt maxRetries attempts st :
  (forall call, exists message, Gemini.attempt_once c modelName prompt call = Throw message) ->
  exists st',
    Gemini.try_attempts c modelName prompt maxRetries attempts st = Gemini.Exhausted st'
    /\ generation_calls (Gemini.trace st')
       = (generation_calls (Gemini.trace st) + List.length attempts)%nat
    /\ total_wait (Gemini.trace st')
       = total_wait (Gemini.trace st) + backoff maxRetries attempts.
Proof.
  intros Hfail. revert st. induction attempts as [|attempt rest IH]; intros st.
  - exists st. simpl. repeat split; lia.
  - cbn [Gemini.try_attempts List.length backoff fold_right]. fold (backoff maxRetries rest).
    destruct (Hfail (Gemini.calls st)) as [message E]. rewrite E.
    match goal with
    | |- context [Gemini.try_attempts _ _ _ _ rest ?s] => destruct (IH s) as (st' & R & G & W)
    end.
    exists st'. split; [exact R|]. cbn [Gemini.trace] in G, W.
    destruct (attempt <? maxRetries)%nat;
      rewrite ?generation_calls_wait, ?generation_calls_generate in G;
      rewrite ?total_wait_wait, ?total_wait_generate in W; split; lia.
Qed.

Lemma try_models_down c prompt maxRetries models st :
  every_attempt_fails c prompt models ->
  exists st',
    Gemini.try_models c prompt maxRetries models st = Gemini.Exhausted st'
    /\ generation_calls (Gemini.trace st')
       = (generation_calls (Gemini.trace st) + List.length models * maxRetries)%nat
    /\ total_wait (Gemini.trace st')
       = total_wait (Gemini.trace st)
         + Z.of_nat (List.length models) * backoff maxRetries (List.seq 1 maxRetries).
Proof.
  revert st. induction models as [|modelName rest IH]; intros st Hfail.
  - exists st. simpl. repeat split; lia.
  - destruct (Hfail modelName (or_introl eq_refl)) as [Hinit Hattempts].
    cbn [Gemini.try_models List.length]. rewrite Hinit, Nat2Z.inj_succ.
    destruct (try_attempts_down c modelName prompt maxRetries (List.seq 1 maxRetries) st
                Hattempts) as (st1 & R1 & G1 & W1).
    rewrite R1. rewrite length_seq in G1.
    destruct (IH st1) as (st' & R & G & W).
    { intros m Hm. apply Hfail. now right. }
    exists st'. split; [exact R|]. split; lia.
Qed.

(** What the [catch] block makes of an error of [generateQuiz]. *)
Lemma on_error_generation env cause :
  exists error details,
    on_error env ("Failed to generate quiz: " ++ cause)
    = {| status := 500; sent := Failure error details |}.
Proof.
  unfold on_error.
  destruct (includes "MONGODB_URI" _); [eauto|].
  destruct (includes "GEMINI_API_KEY" _); [eauto|].
  replace (includes "Failed to generate quiz" ("Failed to generate quiz: " ++ cause))
    with true by reflexivity.
  eauto.
Qed.

Definition not_blank (s : string) : Prop := trim s <> "".

Lemma not_blank_checked (s : string) :
  not_blank s -> String.eqb s "" || (Z.of_nat (String.length (trim s)) =? 0) = false.
Proof.
  unfold not_blank. intros H. apply orb_false_iff. split.
  - apply String.eqb_neq. intros ->. now apply H.
  - apply Z.eqb_neq. destruct (trim s); [contradiction | simpl; lia].
Qed.

(** The service is down: every model of the chain can be obtained, and
    every generation call fails, whatever the prompt.  A valid request that
    misses the cache and has text to offer then makes all 9 generation
    calls, waits 9 seconds in all between them, saves nothing and is
    answered 500; the bounds on the cost of a request are reached. *)
Theorem handler_service_down env quizzes req id bounds n d book contentText :
  passes_validation env req id bounds n d ->
  connectDB env = None ->
  Book_findById env id = Ok (Some book) ->
  fst (QuizCache.findCachedQuiz (quiz_faults env) (now env) quizzes id
         (Some (actual_range book bounds)) n d) = None ->
  selectContent book bounds = Ok (inr contentText) ->
  not_blank contentText ->
  not_blank (text (truncateText contentText MAX_CHARS)) ->
  (forall prompt, every_attempt_fails (ai env) prompt Gemini.MODEL_FALLBACK_CHAIN) ->
  let out := handler env quizzes req in
  (exists error details,
     response out = {| status := 500; sent := Failure error details |})
  /\ store out = quizzes
  /\ generation_calls (events out) = 9%nat
  /\ total_wait (events out) = 9000
  /\ save_keys (events out) = [].
Proof.
  intros Hvalid Hconn Hbook Hmiss Hsel Hcontent Htruncated Hdown.
  cbv zeta. rewrite (handler_accepts _ _ _ _ _ _ _ Hvalid).
  rewrite (serve_miss _ _ _ _ _ _ _ Hconn Hbook Hmiss).
  unfold generateNew. rewrite Hsel, (not_blank_checked _ Hcontent).
  destruct Hvalid as (_ & _ & _ & _ & _ & Hn & _ & Hd & _).
  unfold Gemini.generateQuiz. rewrite (not_blank_checked _ Htruncated).
  replace (n <? 1) with false by (symmetry; apply Z.ltb_ge; lia).
  replace (n >? 20) with false by (symmetry; rewrite Z.gtb_ltb; apply Z.ltb_ge; lia).
  assert (E : List.existsb (String.eqb d) ["easy"; "medium"; "hard"] = true).
  { apply existsb_exists. exists d. split; [exact Hd | apply String.eqb_refl]. }
  rewrite E. cbn [orb negb].
  unfold Gemini.generateWithRetry.
  destruct (try_models_down (ai env)
              (Gemini.createQuizPrompt (text (truncateText contentText MAX_CHARS)) n d) 3
              Gemini.MODEL_FALLBACK_CHAIN Gemini.initial (Hdown _)) as (st & R & G & W).
  rewrite R.
  change (Z.of_nat (List.length Gemini.MODEL_FALLBACK_CHAIN) * backoff 3 (List.seq 1 3))
    with 9000 in W.
  change (List.length Gemini.MODEL_FALLBACK_CHAIN * 3)%nat with 9%nat in G.
  change (generation_calls (Gemini.trace Gemini.initial)) with 0%nat in G.
  change (total_wait (Gemini.trace Gemini.initial)) with 0 in W.
  assert (Hgenerated : Forall generation_event (Gemini.trace st)).
  { pose proof (try_models_events (ai env)
                  (Gemini.createQuizPrompt (text (truncateText contentText MAX_CHARS)) n d) 3
                  Gemini.MODEL_FALLBACK_CHAIN Gemini.initial (Forall_nil _)) as H.
    now rewrite R in H. }
  destruct (generation_events_keys _ Hgenerated) as [_ Hsaves].
  destruct (Gemini.lastError st) as [message|]; cbn [response store events];
    (split; [apply on_error_generation|]); (split; [reflexivity|]);
    rewrite generation_calls_app, total_wait_app, save_keys_app, Hsaves;
    cbn; repeat split; lia.
Qed.

End ServiceDown.

Section ServiceDownExamples.

Import Generate.

Lemma handler_service_down_witness :
  let out :=
    handler
      {| isValidObjectId := fun id => (String.length id =? 24)%nat;
         connectDB := None;
         Book_findById := fun id =>
           if String.eqb id sample_id then Ok (Some sample_book) else Ok None;
         quiz_faults := Quiz.no_faults;
         ai := out_of_quota;
         now := 1000;
         newId := "quiz-1";
         development := false |}
      [] whole_book_request in
  (exists error details,
     response out = {| status := 500; sent := Failure error details |})
  /\ store out = []
  /\ generation_calls (events out) = 9%nat
  /\ total_wait (events out) = 9000
  /\ save_keys (events out) = [].
Proof.
  apply (handler_service_down _ [] whole_book_request sample_id None 5 "medium" sample_book
           "second page

first page

third page").
  - check_validation.
  - reflexivity.
  - reflexivity.
  - reflexivity.
  - reflexivity.
  - discriminate.
  - discriminate.
  - intros prompt modelName _. split; [reflexivity|].
    intros call. eexists. reflexivity.
Defined.

End ServiceDownExamples.

(** ** A request for pages without text *)

Section BlankContent.

Import Generate.

Lemma all_whitespace_append (a b : string) :
  all_whitespace a = true -> all_whitespace b = true -> all_whitespace (a ++ b) = true.
Proof.
  intros Ha Hb. induction a as [|c a IH]; simpl in *; [exact Hb|].
  apply andb_true_iff in Ha. destruct Ha as [Hc Ha]. rewrite Hc. now apply IH.
Qed.

Lemma all_whitespace_join (texts : list string) :
  Forall (fun t => all_whitespace t = true) texts ->
  all_whitespace (join blank_line texts) = true.
Proof.
  induction 1 as [|t rest Ht Hrest IH]; [reflexivity|].
  destruct rest as [|next rest']; [exact Ht|].
  change (join blank_line (t :: next :: rest'))
    with (t ++ blank_line ++ join blank_line (next :: rest')).
  apply all_whitespace_append; [exact Ht|].
  apply all_whitespace_append; [reflexivity | exact IH].
Qed.

Lemma blank_checked (s : string) :
  all_whitespace s = true ->
  String.eqb s "" || (Z.of_nat (String.length (trim s)) =? 0) = true.
Proof.
  intros H. apply orb_true_iff. right. unfold trim.
  replace (trimStart s) with "".
  - reflexivity.
  - symmetry. induction s as [|c s IH]; simpl in *; [reflexivity|].
    apply andb_true_iff in H. destruct H as [Hc Hs]. rewrite Hc. now apply IH.
Qed.

(** The pages a request draws its text from. *)
Definition requested (bounds : option (Z * Z)) (page : Page.t) : Prop :=
  match bounds with
  | Some (s, e) => s <= Page.pageNumber page <= e
  | None => True
  end.

(** When the stored pages a request asks for hold nothing but white space
    (or no stored page falls in the range at all), a valid request that
    misses the cache is answered 400 without any generation call, and the
    collection is left as it was. *)
Theorem handler_blank_content env quizzes req id bounds n d book :
  passes_validation env req id bounds n d ->
  connectDB env = None ->
  Book_findById env id = Ok (Some book) ->
  fst (QuizCache.findCachedQuiz (quiz_faults env) (now env) quizzes id
         (Some (actual_range book bounds)) n d) = None ->
  Book.pages book <> [] ->
  (forall e, bounds = Some e -> Js.gt (Some (snd e)) (Book.totalPages book) = false) ->
  (forall page, In page (Book.pages book) -> requested bounds page ->
                all_whitespace (Page.text page) = true) ->
  handler env quizzes req
  = {| response :=
         {| status := 400;
            sent := Failure "No text content available for quiz generation" None |};
       store := quizzes;
       events := lookup_events id book bounds n d |}.
Proof.
  intros Hvalid Hconn Hbook Hmiss Hpages Hwithin Hblank.
  rewrite (handler_accepts _ _ _ _ _ _ _ Hvalid).
  rewrite (serve_miss _ _ _ _ _ _ _ Hconn Hbook Hmiss).
  unfold generateNew.
  assert (Hsel : exists content,
             selectContent book bounds = Ok (inr content)
             /\ all_whitespace content = true).
  { unfold selectContent. destruct bounds as [[s e]|].
    - pose proof (Hwithin (s, e) eq_refl) as Hw. cbn [snd] in Hw. rewrite Hw.
      unfold extractTextFromPages.
      destruct (Book.pages book) as [|page rest] eqn:E; [congruence|].
      cbn [List.length Nat.ltb Nat.leb bind]. eexists. split; [reflexivity|].
      apply all_whitespace_join. apply Forall_forall. intros t Ht.
      apply in_map_iff in Ht. destruct Ht as (p & <- & Hp).
      apply (Permutation_in _ (sort_perm _ _)) in Hp.
      apply filter_In in Hp. destruct Hp as [Hin Hrange].
      apply Hblank; [exact Hin|]. simpl.
      apply andb_true_iff in Hrange. destruct Hrange as [H1 H2].
      rewrite Z.geb_leb in H1. apply Z.leb_le in H1, H2. lia.
    - destruct (Book.pages book) as [|page rest] eqn:E; [congruence|].
      cbn [List.length Nat.ltb Nat.leb]. eexists. split; [reflexivity|].
      apply all_whitespace_join. apply Forall_forall. intros t Ht.
      apply in_map_iff in Ht. destruct Ht as (p & <- & Hp).
      apply Hblank; [exact Hp | exact I]. }
  destruct Hsel as (content & -> & Hws). now rewrite (blank_checked _ Hws).
Qed.

End BlankContent.

Section BlankContentExamples.

Import Generate.

(** A scanned book: pages are stored, without any text. *)
Definition scanned_book : Book.t :=
  {| Book._id := sample_id;
     Book.title := "Scanned";
     Book.totalPages := Some 2;
     Book.pages :=
       [ {| Page.pageNumber := 1; Page.text := ""; Page.characterCount := 0 |};
         {| Page.pageNumber := 2; Page.text := " "; Page.characterCount := 1 |} ];
     Book.pdfText := None |}.

Lemma handler_blank_content_witness :
  handler (sample_env scanned_book Quiz.no_faults) [] whole_book_request
  = {| response :=
         {| status := 400;
            sent := Failure "No text content available for quiz generation" None |};
       store := [];
       events := lookup_events sample_id scanned_book None 5 "medium" |}.
Proof.
  apply (handler_blank_content (sample_env scanned_book Quiz.no_faults) []
           whole_book_request sample_id None 5 "medium" scanned_book).
  - check_validation.
  - reflexivity.
  - reflexivity.
  - reflexivity.
  - discriminate.
  - discriminate.
  - intros page [<-|[<-|[]]] _; reflexivity.
Defined.

End BlankContentExamples.

(** ** Two identical requests racing for one key *)

Section Race.

Import Generate.

(** Two identical requests both look the cache up before either has
    saved, and both miss.  The handler of the second one then runs its miss
    path, [generateNew], on the collection as the first one left it: the
    collection is read again only by [saveQuizToCache].  When the first
    request was answered with a new quiz, the second pays for the same
    generation and is answered 500: its save is refused by the index on
    [cacheKey], the error is not recovered by a second lookup, and the
    collection keeps the one quiz of the first request. *)
Theorem handler_race_loser env quizzes req id bounds n d book
    quizId count message view :
  passes_validation env req id bounds n d ->
  connectDB env = None ->
  Book_findById env id = Ok (Some book) ->
  sent (response (handler env quizzes req)) = Success quizId false count message view ->
  let winner := handler env quizzes req in
  let loser :=
    generateNew env (store winner) (lookup_events id book bounds n d) book bounds
      (actual_range book bounds) n d in
  handler env quizzes req
  = generateNew env quizzes (lookup_events id book bounds n d) book bounds
      (actual_range book bounds) n d
  /\ (exists details,
        response loser
        = {| status := 500; sent := Failure "Failed to generate quiz" details |})
  /\ (exists quiz, store winner = (quizzes ++ [quiz])%list /\ store loser = store winner)
  /\ events loser = events winner
  /\ (1 <= generation_calls (events loser))%nat.
Proof.
  intros Hvalid Hconn Hbook Hsent.
  rewrite !(handler_accepts _ _ _ _ _ _ _ Hvalid) in *.
  destruct (QuizCache.findCachedQuiz (quiz_faults env) (now env) quizzes id
              (Some (actual_range book bounds)) n d) as [[hit|] quizzes'] eqn:Hfind.
  { exfalso. revert Hsent. unfold serve. rewrite Hconn, Hbook.
    fold (actual_range book bounds). rewrite Hfind. discriminate. }
  assert (Hmiss : fst (QuizCache.findCachedQuiz (quiz_faults env) (now env) quizzes id
                         (Some (actual_range book bounds)) n d) = None)
    by now rewrite Hfind.
  rewrite (serve_miss _ _ _ _ _ _ _ Hconn Hbook Hmiss) in *.
  destruct (generateNew_success _ _ _ _ _ _ _ _ _ _ _ _ _ Hsent)
    as (_ & _ & quiz & Hstore & _ & Hkey & _ & _ & _ & Hcount).
  destruct (generateNew_generated _ _ _ _ _ _ _ _ _ _ _ _ _ Hsent)
    as (content & st & Hgen & _ & _ & _ & Hev).
  destruct (generateQuiz_validated _ _ _ _ _ _ Hgen) as (_ & Hcalls & _).
  cbv zeta. split; [reflexivity|]. rewrite Hstore.
  destruct (stored_under_app_some quizzes
              (QuizCache.generateCacheKey (Book._id book) (Some (actual_range book bounds))
                 (v_numberOfQuestions view) d) quiz) as [q Hq];
    [now rewrite Hkey, Hcount|].
  rewrite (generateNew_again env quizzes (quizzes ++ [quiz])%list _ book bounds
             (actual_range book bounds) n d _ _ _ _ _ q Hsent Hq).
  cbn [response store events]. split; [|split; [|split; [reflexivity|]]].
  - unfold on_error. cbn [includes String.prefix]. eexists. reflexivity.
  - exists quiz. split; reflexivity.
  - rewrite Hev, !generation_calls_app. lia.
Qed.

End Race.

Section RaceExamples.

Import Generate.

Lemma handler_race_loser_witness :
  let winner := handler delivering_five [] whole_book_request in
  let loser :=
    generateNew delivering_five (store winner)
      (lookup_events sample_id sample_book None 5 "medium") sample_book None
      (actual_range sample_book None) 5 "medium" in
  handler delivering_five [] whole_book_request
  = generateNew delivering_five []
      (lookup_events sample_id sample_book None 5 "medium") sample_book None
      (actual_range sample_book None) 5 "medium"
  /\ (exists details,
        response loser
        = {| status := 500; sent := Failure "Failed to generate quiz" details |})
  /\ (exists quiz, store winner = ([] ++ [quiz])%list /\ store loser = store winner)
  /\ events loser = events winner
  /\ (1 <= generation_calls (events loser))%nat.
Proof.
  apply (handler_race_loser delivering_five [] whole_book_request sample_id None 5
           "medium" sample_book "quiz-1" 1 "Quiz generated successfully"
           {| v_id := "quiz-1"; v_title := "Sample - Full Book Quiz";
              v_bookId := sample_id; v_bookTitle := "Sample";
              v_generatedDate := 1000;
              v_pageRange := {| start := Some 1; end_ := Some 3 |};
              v_difficulty := "medium"; v_numberOfQuestions := 5;
              v_questions :=
                [sample_question "A"; sample_question "B"; sample_question "C";
                 sample_question "D"; sample_question "A"];
              v_wasTruncated := Some false |}).
  - check_validation.
  - reflexivity.
  - reflexivity.
  - vm_compute. reflexivity.
Defined.

End RaceExamples.
